(** * A retrieval-augmented chatbot: loader, vector index, model adapter, API

    Shallow embedding of [app/core/config.py], [app/core/loader.py],
    [app/core/chatbot.py] and [app/api.py].

    Python code that prints, touches the file system, talks to the
    language-model endpoint or raises is embedded in a state-and-exception
    monad [M] over a [World].  The third-party services the program calls
    (document loaders, text splitter, embedding search, the HTTP endpoint and
    the text-rendering helpers of the chain library) are the fields of one
    record, [Externals]; the control flow around them is written out. *)

From Stdlib Require Import QArith.
From stdpp Require Import base strings list gmap pretty.


(** ** Python values and exceptions *)

(** The line feed inside the program's string literals. *)
Definition nl : string := String (Ascii.ascii_of_nat 10) EmptyString.

(** [str.endswith]: how [Path.glob("*.ext")] selects directory entries. *)
Definition endswith (s suffix : string) : bool :=
  String.prefix (String.rev suffix) (String.rev s).

(** Truthiness of a [str] and of a [list]: empty is false. *)
Definition truthy_str (s : string) : bool :=
  match s with EmptyString => false | _ => true end.

Definition truthy_list {A} (l : list A) : bool :=
  match l with [] => false | _ => true end.

(** Truthiness of an optional value ([None] or an empty one is false). *)
Definition truthy_opt {A} (f : A -> bool) (o : option A) : bool :=
  match o with None => false | Some a => f a end.

(** [a or b] on optional strings, as in [model_name or GROQ_MODEL]. *)
Definition py_or (a : option string) (b : option string) : option string :=
  if truthy_opt truthy_str a then a else b.

(** Exceptions by class.  [LibraryError] stands for whatever a third-party
    call raises (a parse error, [requests.exceptions.Timeout], ...). *)
Inductive Exn :=
| ValueError (msg : string)
| PyException (msg : string)
| LibraryError (cls msg : string)
| HTTPException (status_code : Z) (detail : string).

(** [str(e)] *)
Definition str_exn (e : Exn) : string :=
  match e with
  | ValueError msg => msg
  | PyException msg => msg
  | LibraryError _ msg => msg
  | HTTPException code detail => pretty code +:+ ": " +:+ detail
  end.

Inductive result (A : Type) :=
| Ok (a : A)
| Raise (e : Exn).
Arguments Ok {A} a.
Arguments Raise {A} e.

(** ** config.py *)

Module Config.
Definition GROQ_MODEL : string := "llama-3.3-70b-versatile".
Definition EMBEDDING_MODEL : string := "sentence-transformers/all-MiniLM-L6-v2".
(** Both directories are [ROOT_DIR] joined with a fixed name; paths are
    written relative to [ROOT_DIR]. *)
Definition DOCUMENT_DIRECTORY : string := "documents".
Definition VECTOR_STORE_DIRECTORY : string := "vector_store".
Definition CHUNK_SIZE : nat := 1000.
Definition CHUNK_OVERLAP : nat := 200.
Definition RETRIEVER_K : nat := 3.
End Config.

(** ** Data model *)

(** Values of a document's [metadata] dict. *)
Inductive MetaVal :=
| MStr (s : string)
| MInt (z : Z).

Record Document := {
  page_content : string;
  metadata : gmap string MetaVal;
}.

(** A directory entry: its name and its bytes. *)
Record File := {
  file_name : string;
  file_bytes : string;
}.

(** A Chroma handle: the store's entries live in the persist directory. *)
Record VectorStore := {
  persist_directory : string;
  embedding_function : string;
}.

(** Chat messages, by class. *)
Inductive Message :=
| HumanMessage (content : string)
| AIMessage (content : string)
| ChatMessage (role : string) (content : string)
| SystemMessage (content : string)
| FunctionMessage (name : string) (content : string)
| ToolMessage (tool_call_id : string) (content : string).

(** One entry of the request's ["messages"] array. *)
Record WireMessage := {
  wire_role : string;
  wire_content : string;
}.

Record Payload := {
  payload_model : string;
  payload_messages : list WireMessage;
  payload_temperature : Q;
  payload_stop : option (list string);
}.

Record HttpRequest := {
  req_url : string;
  req_headers : list (string * string);
  req_json : Payload;
  req_timeout : Z;
}.

Record HttpResponse := {
  status_code : Z;
  text : string;
}.

Record GroqChatModel := {
  model_name : string;
  api_key : string;
  temperature : Q;
  api_base : string;
}.

Record Retriever := {
  vectorstore : VectorStore;
  search_k : nat;
}.

(** The chain object: the model, the retriever, the answering prompt
    (context, chat history, question) and a reference to its
    [ConversationBufferMemory], whose buffer lives in the world's heap. *)
Record Chain := {
  llm : GroqChatModel;
  retriever : Retriever;
  combine_prompt : string -> string -> string -> string;
  memory : nat;
  return_source_documents : bool;
}.

(** The module-level [app_state] dict of api.py. *)
Record AppState := {
  st_vector_store : option VectorStore;
  st_chain : option Chain;
  st_initialized : bool;
}.

(** Operations carried out on the persisted vector store, in program order. *)
Inductive StoreOp :=
| OpRmtree (path : string)
| OpLoad (path : string)
| OpFromDocuments (path : string) (chunks : list Document)
| OpSearch (path : string) (query : string) (k : nat).

(** Chroma keeps one client per persist directory for the life of the
    process: the process holds the client of [path] once it has opened
    ([Chroma(...)]) or built ([Chroma.from_documents]) a store there, and
    removing the directory does not release it. *)
Definition holds_client (path : string) (ops : list StoreOp) : bool :=
  existsb (fun op => match op with
                     | OpLoad p => bool_decide (p = path)
                     | OpFromDocuments p _ => bool_decide (p = path)
                     | _ => false
                     end) ops.

(** ** The world *)

Record World := {
  fs_documents : gmap string (list File);
  fs_index : gmap string (list Document);
  stdout : list string;
  store_ops : list StoreOp;
  http_log : list HttpRequest;
  memories : list (list Message);
  app_state : AppState;
}.

Definition set_fs_documents (f : gmap string (list File) -> gmap string (list File)) (w : World) : World :=
  {| fs_documents := f (fs_documents w); fs_index := fs_index w; stdout := stdout w;
     store_ops := store_ops w; http_log := http_log w; memories := memories w;
     app_state := app_state w |}.

Definition set_fs_index (f : gmap string (list Document) -> gmap string (list Document)) (w : World) : World :=
  {| fs_documents := fs_documents w; fs_index := f (fs_index w); stdout := stdout w;
     store_ops := store_ops w; http_log := http_log w; memories := memories w;
     app_state := app_state w |}.

Definition set_stdout (f : list string -> list string) (w : World) : World :=
  {| fs_documents := fs_documents w; fs_index := fs_index w; stdout := f (stdout w);
     store_ops := store_ops w; http_log := http_log w; memories := memories w;
     app_state := app_state w |}.

Definition set_store_ops (f : list StoreOp -> list StoreOp) (w : World) : World :=
  {| fs_documents := fs_documents w; fs_index := fs_index w; stdout := stdout w;
     store_ops := f (store_ops w); http_log := http_log w; memories := memories w;
     app_state := app_state w |}.

Definition set_http_log (f : list HttpRequest -> list HttpRequest) (w : World) : World :=
  {| fs_documents := fs_documents w; fs_index := fs_index w; stdout := stdout w;
     store_ops := store_ops w; http_log := f (http_log w); memories := memories w;
     app_state := app_state w |}.

Definition set_memories (f : list (list Message) -> list (list Message)) (w : World) : World :=
  {| fs_documents := fs_documents w; fs_index := fs_index w; stdout := stdout w;
     store_ops := store_ops w; http_log := http_log w; memories := f (memories w);
     app_state := app_state w |}.

Definition set_app_state (f : AppState -> AppState) (w : World) : World :=
  {| fs_documents := fs_documents w; fs_index := fs_index w; stdout := stdout w;
     store_ops := store_ops w; http_log := http_log w; memories := memories w;
     app_state := f (app_state w) |}.

(** ** The state-and-exception monad *)

Definition M (A : Type) : Type := World -> result A * World.

Definition ret {A} (a : A) : M A := fun w => (Ok a, w).

Definition bind {A B} (m : M A) (k : A -> M B) : M B :=
  fun w => match m w with
           | (Ok a, w') => k a w'
           | (Raise e, w') => (Raise e, w')
           end.

Definition raise {A} (e : Exn) : M A := fun w => (Raise e, w).

(** [try: body except Exception as e: handler e]; effects of [body] before
    the exception stay. *)
Definition try_except {A} (body : M A) (handler : Exn -> M A) : M A :=
  fun w => match body w with
           | (Ok a, w') => (Ok a, w')
           | (Raise e, w') => handler e w'
           end.

Definition get_world : M World := fun w => (Ok w, w).
Definition modify (f : World -> World) : M unit := fun w => (Ok tt, f w).

Declare Scope py_scope.
Delimit Scope py_scope with py.
Notation "x <- c1 ;; c2" := (bind c1 (fun x => c2))
  (at level 100, c1 at next level, right associativity) : py_scope.
Notation "c1 ;; c2" := (bind c1 (fun _ => c2))
  (at level 100, right associativity) : py_scope.
Open Scope py_scope.

(** [for x in xs: acc = body x acc] *)
Fixpoint for_each {A B} (body : A -> B -> M B) (xs : list A) (acc : B) : M B :=
  match xs with
  | [] => ret acc
  | x :: xs' => acc' <- body x acc ;; for_each body xs' acc'
  end.

Definition print (s : string) : M unit := modify (set_stdout (fun out => out ++ [s])).

(** ** External collaborators *)

Inductive HttpOutcome :=
| Responded (r : HttpResponse)
| Failed (e : Exn).

Record Externals := {
  (** [os.getenv("GROQ_API_KEY")], read when config.py is imported. *)
  GROQ_API_KEY : option string;
  (** [PyPDFLoader(path).load()] and [TextLoader(path, encoding='utf-8').load()]
      on a file's path and bytes. *)
  PyPDFLoader_load : string -> string -> result (list Document);
  TextLoader_load : string -> string -> result (list Document);
  (** [RecursiveCharacterTextSplitter(chunk_size, chunk_overlap).split_text]. *)
  split_text : nat -> nat -> string -> list string;
  (** Nearest-neighbour search of a query among a store's entries. *)
  similarity_search : list Document -> string -> nat -> result (list Document);
  (** The chat-completions endpoint: its answer to a request, given the
      requests it has received before. *)
  server : list HttpRequest -> HttpRequest -> HttpOutcome;
  (** [response.json()["choices"][0]["message"]["content"]] of a body. *)
  completion_content : string -> result string;
  (** The chain library's rendering of a message buffer as text, its
      question-condensing prompt (history, question) and its joining of the
      retrieved documents into the context. *)
  get_chat_history : list Message -> string;
  condense_question_prompt : string -> string -> string;
  format_documents : list Document -> string;
  (** The response model's conversion of a [str] to an [int] field. *)
  parse_int : string -> option Z;
  (** [str(e)] of the [chromadb.errors.InternalError] that the store raises
      on a write through a client whose database file is gone. *)
  readonly_database_message : string;
}.

(** That exception. *)
Definition readonly_database (X : Externals) : Exn :=
  LibraryError "InternalError" (readonly_database_message X).

(** ** loader.py *)

Module Loader.
Section WithExternals.
Context (X : Externals).

(** [os.path.exists] / [Path.exists] on the two kinds of directory. *)
Definition documents_dir_exists (path : string) : M bool :=
  w <- get_world ;; ret (bool_decide (is_Some (fs_documents w !! path))).

Definition path_exists (path : string) : M bool :=
  w <- get_world ;; ret (bool_decide (is_Some (fs_index w !! path))).

(** [os.makedirs(doc_path, exist_ok=True)] *)
Definition makedirs (path : string) : M unit :=
  modify (set_fs_documents (fun fs =>
    match fs !! path with Some _ => fs | None => <[path := []]> fs end)).

(** [list(doc_path.glob(pattern))] for the pattern [*suffix]; the entries
    come in the directory's own order. *)
Definition glob (path suffix : string) : M (list File) :=
  w <- get_world ;;
  ret (filter (fun f => endswith (file_name f) suffix = true)
              (default [] (fs_documents w !! path))).

(** [doc.metadata['source'] = name; doc.metadata['type'] = type] *)
Definition tag_document (name type : string) (doc : Document) : Document :=
  {| page_content := page_content doc;
     metadata := <["type" := MStr type]> (<["source" := MStr name]> (metadata doc)) |}.

(** The body of one iteration of the two loading loops: the [try] block
    and its [except Exception] handler. *)
Definition load_file (load : string -> string -> result (list Document))
    (doc_directory type : string) (file : File) (all_documents : list Document)
    : M (list Document) :=
  try_except
    (print ("Loading: " +:+ file_name file) ;;
     match load (doc_directory +:+ "/" +:+ file_name file) (file_bytes file) with
     | Raise e => raise e
     | Ok documents =>
         ret (all_documents ++ map (tag_document (file_name file) type) documents)
     end)
    (fun e =>
       print ("Error loading " +:+ file_name file +:+ ": " +:+ str_exn e) ;;
       ret all_documents).

Definition load_documents (doc_directory : string) : M (list Document) :=
  present <- documents_dir_exists doc_directory ;;
  if negb present then
    makedirs doc_directory ;;
    print ("Created document directory at: " +:+ doc_directory) ;;
    ret []
  else
    let all_documents := [] in
    (* Load PDFs *)
    pdf_files <- glob doc_directory ".pdf" ;;
    all_documents <-
      (if truthy_list pdf_files then
         print ("Found " +:+ pretty (length pdf_files) +:+ " PDF file(s).") ;;
         for_each (load_file (PyPDFLoader_load X) doc_directory "pdf") pdf_files all_documents
       else ret all_documents) ;;
    (* Load TXTs *)
    txt_files <- glob doc_directory ".txt" ;;
    all_documents <-
      (if truthy_list txt_files then
         print ("Found " +:+ pretty (length txt_files) +:+ " TXT file(s).") ;;
         for_each (load_file (TextLoader_load X) doc_directory "txt") txt_files all_documents
       else ret all_documents) ;;
    (if negb (truthy_list all_documents) then
       print ("No documents found in '" +:+ doc_directory +:+ "'.")
     else
       print ("Successfully loaded " +:+ pretty (length all_documents) +:+ " chunks/pages.")) ;;
    ret all_documents.

(** [text_splitter.split_documents]: every document's text is split in
    turn and each piece keeps a copy of its document's metadata. *)
Definition splitter_split_documents (chunk_size chunk_overlap : nat)
    (documents : list Document) : list Document :=
  flat_map (fun doc =>
              map (fun piece => {| page_content := piece; metadata := metadata doc |})
                  (split_text X chunk_size chunk_overlap (page_content doc)))
           documents.

Definition split_documents (documents : list Document)
    (chunk_size chunk_overlap : nat) : M (list Document) :=
  let chunks := splitter_split_documents chunk_size chunk_overlap documents in
  print ("Split documents into " +:+ pretty (length chunks) +:+ " chunks.") ;;
  ret chunks.

(** [Chroma(persist_directory=..., embedding_function=...)] *)
Definition Chroma (persist_directory embeddings : string) : M VectorStore :=
  modify (set_store_ops (fun ops => ops ++ [OpLoad persist_directory])) ;;
  ret {| persist_directory := persist_directory; embedding_function := embeddings |}.

(** [Chroma.from_documents]: opens the directory's collection (creating
    it when absent) and adds the documents after whatever it holds.  When
    the process still holds the client of a directory that has been
    removed since, the write goes to the removed database: it raises and
    nothing is persisted. *)
Definition Chroma_from_documents (documents : list Document)
    (embedding persist_directory : string) : M VectorStore :=
  w <- get_world ;;
  if holds_client persist_directory (store_ops w)
     && negb (bool_decide (is_Some (fs_index w !! persist_directory)))
  then raise (readonly_database X)
  else
    modify (set_store_ops (fun ops => ops ++ [OpFromDocuments persist_directory documents])) ;;
    modify (set_fs_index (fun fs =>
      <[persist_directory := default [] (fs !! persist_directory) ++ documents]> fs)) ;;
    ret {| persist_directory := persist_directory; embedding_function := embedding |}.

(** [shutil.rmtree]: the directory goes; a client the process holds on
    it stays behind. *)
Definition rmtree (path : string) : M unit :=
  modify (set_store_ops (fun ops => ops ++ [OpRmtree path])) ;;
  modify (set_fs_index (delete path)).

Definition create_vector_store (chunks : list Document)
    (persist_directory : string) (force_recreate : bool) : M (option VectorStore) :=
  print ("Loading embedding model: " +:+ Config.EMBEDDING_MODEL) ;;
  let embeddings := Config.EMBEDDING_MODEL in
  (* Check if vector store already exists *)
  present <- path_exists persist_directory ;;
  if present && negb force_recreate then
    print ("Loading existing vector store from " +:+ persist_directory +:+ "...") ;;
    vector_store <- Chroma persist_directory embeddings ;;
    print "Vector store loaded successfully." ;;
    ret (Some vector_store)
  else
    present <- path_exists persist_directory ;;
    (if force_recreate && present then
       rmtree persist_directory ;;
       print "Removed existing vector store."
     else ret tt) ;;
    no_store <-
      (if negb (truthy_list chunks) then
         print "No chunks to index. Returning empty initialized store if possible, or None." ;;
         present <- path_exists persist_directory ;;
         ret (negb present)
       else ret false) ;;
    if (no_store : bool) then ret None
    else
      print "Creating new vector store..." ;;
      vector_store <- Chroma_from_documents chunks embeddings persist_directory ;;
      print ("Vector store created and persisted to " +:+ persist_directory +:+ ".") ;;
      ret (Some vector_store).

Definition initialize_rag_system (force_recreate : bool) : M (option VectorStore) :=
  (* Load Documents *)
  documents <- load_documents Config.DOCUMENT_DIRECTORY ;;
  if negb (truthy_list documents) && force_recreate then
    print "No documents found to index." ;;
    ret None
  else
    (* Split documents *)
    chunks <-
      (if truthy_list documents then
         split_documents documents Config.CHUNK_SIZE Config.CHUNK_OVERLAP
       else ret []) ;;
    (* Create vector store *)
    create_vector_store chunks Config.VECTOR_STORE_DIRECTORY force_recreate.

End WithExternals.
End Loader.

(** ** chatbot.py *)

Module Chatbot.

Record ChatGeneration := { message : Message }.
Record ChatResult := { generations : list ChatGeneration }.

(** The dict a chain call takes and the dict it returns. *)
Record ChainInputs := {
  question : string;
  chat_history : option (list Message);
}.

Record ChainOutput := {
  answer : string;
  source_documents : option (list Document);
}.

Record ChatAnswer := {
  chat_answer : string;
  chat_source_documents : list Document;
}.

Definition message_content (msg : Message) : string :=
  match msg with
  | HumanMessage c | AIMessage c | ChatMessage _ c | SystemMessage c
  | FunctionMessage _ c | ToolMessage _ c => c
  end.

Section WithExternals.
Context (X : Externals).

(** [GroqChatModel.__init__]; [api_key] is a required [str] field. *)
Definition GroqChatModel_init (model_name api_key : option string) (temperature : Q)
    : result GroqChatModel :=
  let model_name := py_or model_name (Some Config.GROQ_MODEL) in
  let api_key := py_or api_key (GROQ_API_KEY X) in
  match model_name, api_key with
  | Some model_name, Some api_key =>
      Ok {| model_name := model_name; api_key := api_key; temperature := temperature;
            api_base := "https://api.groq.com/openai/v1" |}
  | _, _ => Raise (LibraryError "ValidationError" "Input should be a valid string")
  end.

(** The loop body of [_generate] that converts one message. *)
Definition format_message (msg : Message) : WireMessage :=
  match msg with
  | HumanMessage content => {| wire_role := "user"; wire_content := content |}
  | AIMessage content => {| wire_role := "assistant"; wire_content := content |}
  | ChatMessage role content => {| wire_role := role; wire_content := content |}
  | SystemMessage content | FunctionMessage _ content | ToolMessage _ content =>
      {| wire_role := "user"; wire_content := content |}
  end.

(** [requests.post(url, headers=..., json=..., timeout=...)]: one request
    on the wire; a transport failure (a timeout among them) raises. *)
Definition requests_post (url : string) (headers : list (string * string))
    (json : Payload) (timeout : Z) : M HttpResponse :=
  fun w =>
    let req := {| req_url := url; req_headers := headers; req_json := json;
                  req_timeout := timeout |} in
    let w' := set_http_log (fun log => log ++ [req]) w in
    match server X (http_log w) req with
    | Responded r => (Ok r, w')
    | Failed e => (Raise e, w')
    end.

Definition _generate (self : GroqChatModel) (messages : list Message)
    (stop : option (list string)) : M ChatResult :=
  (* Convert LangChain messages to OpenAI-compatible format *)
  let formatted_messages := map format_message messages in
  (* Call Groq API *)
  let headers := [("Authorization", "Bearer " +:+ api_key self);
                  ("Content-Type", "application/json")] in
  let payload :=
    {| payload_model := model_name self;
       payload_messages := formatted_messages;
       payload_temperature := temperature self;
       payload_stop := if truthy_opt truthy_list stop then stop else None |} in
  response <- requests_post (api_base self +:+ "/chat/completions") headers payload 60 ;;
  if negb (bool_decide (status_code response = 200%Z)) then
    raise (ValueError ("Groq API error: " +:+ pretty (status_code response)
                       +:+ " - " +:+ text response))
  else
    match completion_content X (text response) with
    | Raise e => raise e
    | Ok content =>
        (* Return LangChain message *)
        ret {| generations := [ {| message := AIMessage content |} ] |}
    end.

(** The template of [custom_prompt], filled in. *)
Definition custom_prompt (context chat_history question : string) : string :=
  "You are a helpful AI assistant that answers questions based on the provided context from PDF documents."
  +:+ nl +:+ nl +:+ "Context from documents:" +:+ nl +:+ context
  +:+ nl +:+ nl +:+ "Chat history:" +:+ nl +:+ chat_history
  +:+ nl +:+ nl +:+ "User question: " +:+ question
  +:+ nl +:+ nl +:+ "Please provide a helpful and accurate answer based on the context. If the answer is not in the context, say so politely and use your general knowledge if appropriate. Always cite which document(s) you're referencing when possible."
  +:+ nl +:+ nl +:+ "Answer:".

(** [ConversationBufferMemory(...)]: a new, empty buffer. *)
Definition ConversationBufferMemory : M nat :=
  w <- get_world ;;
  modify (set_memories (fun ms => ms ++ [[]])) ;;
  ret (length (memories w)).

Definition create_chatbot (vector_store : VectorStore) (model_name : string) : M Chain :=
  if negb (truthy_opt truthy_str (GROQ_API_KEY X)) then
    raise (ValueError "GROQ_API_KEY not found. Please set it in your .env file. Get a free key from https://console.groq.com/")
  else
    (* Initialize Groq LLM using custom implementation *)
    match GroqChatModel_init (Some model_name) (GROQ_API_KEY X) (7 # 10) with
    | Raise e => raise e
    | Ok llm =>
        (* Create a retriever from the vector store *)
        let retriever := {| vectorstore := vector_store; search_k := Config.RETRIEVER_K |} in
        (* Create memory for conversation history *)
        memory <- ConversationBufferMemory ;;
        (* Create the conversational retrieval chain *)
        ret {| llm := llm; retriever := retriever; combine_prompt := custom_prompt;
               memory := memory; return_source_documents := true |}
    end.

(** *** The chain library's call protocol

    What [ConversationalRetrievalChain.from_llm(...)] with the arguments of
    [create_chatbot] does on [chain.invoke(inputs)]. *)

(** One model call of the chain: the prompt text goes out as a single
    human message and the top generation's content comes back. *)
Definition llm_predict (self : GroqChatModel) (prompt : string) : M string :=
  r <- _generate self [HumanMessage prompt] None ;;
  match generations r with
  | g :: _ => ret (message_content (message g))
  | [] => raise (LibraryError "IndexError" "list index out of range")
  end.

(** The retriever: a similarity search of the store's entries for the
    [search_k] nearest to the query. *)
Definition get_relevant_documents (r : Retriever) (query : string) : M (list Document) :=
  fun w =>
    let dir := persist_directory (vectorstore r) in
    let w' := set_store_ops (fun ops => ops ++ [OpSearch dir query (search_k r)]) w in
    match similarity_search X (default [] (fs_index w !! dir)) query (search_k r) with
    | Ok docs => (Ok docs, w')
    | Raise e => (Raise e, w')
    end.

(** [chain.invoke]: the memory's buffer is loaded as the chat history (it
    replaces a history passed by the caller); a non-empty history makes
    the chain ask the model for a standalone question first; the documents
    are retrieved for that question; the model answers from the filled
    prompt; only then is the turn saved to the memory. *)
Definition invoke (chain : Chain) (inputs : ChainInputs) : M ChainOutput :=
  w <- get_world ;;
  let buffer := default [] (memories w !! memory chain) in
  let chat_history_str := get_chat_history X buffer in
  new_question <-
    (if truthy_str chat_history_str then
       llm_predict (llm chain)
         (condense_question_prompt X chat_history_str (question inputs))
     else ret (question inputs)) ;;
  docs <- get_relevant_documents (retriever chain) new_question ;;
  answer <- llm_predict (llm chain)
              (combine_prompt chain (format_documents X docs) chat_history_str new_question) ;;
  modify (set_memories
            (alter (fun buf => buf ++ [HumanMessage (question inputs); AIMessage answer])
                   (memory chain))) ;;
  ret {| answer := answer;
         source_documents := if return_source_documents chain then Some docs else None |}.

Definition chat (chain : Chain) (question : string)
    (chat_history : option (list Message)) : M ChatAnswer :=
  result <-
    match chat_history with
    | None => invoke chain {| question := question; chat_history := None |}
    | Some h => invoke chain {| question := question; chat_history := Some h |}
    end ;;
  ret {| chat_answer := answer result;
         chat_source_documents := default [] (source_documents result) |}.

End WithExternals.
End Chatbot.

(** ** api.py *)

Module Api.

Record InitRequest := { force_recreate : bool }.

Record ChatRequest := {
  request_question : string;
  request_chat_history : option (list Message);
}.

Record SourceDocument := {
  source : string;
  source_page_content : string;
  page : option Z;
  type : option string;
}.

Record ChatResponse := {
  response_answer : string;
  sources : list SourceDocument;
}.

Record HealthResponse := {
  status : string;
  initialized : bool;
}.

Record InitResponse := {
  init_message : string;
  success : bool;
}.

(** The value of [app_state] when the module is imported. *)
Definition initial_app_state : AppState :=
  {| st_vector_store := None; st_chain := None; st_initialized := false |}.

(** Assignments to the three keys of [app_state]. *)
Definition set_vector_store (v : option VectorStore) : M unit :=
  modify (set_app_state (fun st =>
    {| st_vector_store := v; st_chain := st_chain st; st_initialized := st_initialized st |})).

Definition set_chain (c : option Chain) : M unit :=
  modify (set_app_state (fun st =>
    {| st_vector_store := st_vector_store st; st_chain := c; st_initialized := st_initialized st |})).

Definition set_initialized (b : bool) : M unit :=
  modify (set_app_state (fun st =>
    {| st_vector_store := st_vector_store st; st_chain := st_chain st; st_initialized := b |})).

Section WithExternals.
Context (X : Externals).

(** [SourceDocument(source=..., page_content=..., page=..., type=...)]
    with the response model's field validation: [source] and [type] are
    strings, [page] an optional integer. *)
Definition SourceDocument_init (src : MetaVal) (content : string)
    (pg : option MetaVal) (ty : MetaVal) : result SourceDocument :=
  let invalid := Raise (LibraryError "ValidationError" "validation error for SourceDocument") in
  match src, ty with
  | MStr s, MStr t =>
      match pg with
      | None =>
          Ok {| source := s; source_page_content := content; page := None; type := Some t |}
      | Some (MInt n) =>
          Ok {| source := s; source_page_content := content; page := Some n; type := Some t |}
      | Some (MStr digits) =>
          match parse_int X digits with
          | Some n =>
              Ok {| source := s; source_page_content := content; page := Some n;
                    type := Some t |}
          | None => invalid
          end
      end
  | _, _ => invalid
  end.

(** The loop that builds [formatted_sources]. *)
Fixpoint format_sources (source_docs : list Document) : result (list SourceDocument) :=
  match source_docs with
  | [] => Ok []
  | doc :: rest =>
      match SourceDocument_init (default (MStr "Unknown") (metadata doc !! "source"))
              (page_content doc) (metadata doc !! "page")
              (default (MStr "unknown") (metadata doc !! "type")) with
      | Raise e => Raise e
      | Ok s => match format_sources rest with
                | Raise e => Raise e
                | Ok ss => Ok (s :: ss)
                end
      end
  end.

(** The start-up half of [lifespan]; it tells whether it initialised. *)
Definition lifespan_startup : M bool :=
  try_except
    (print "Starting up... Attempting to load existing vector store." ;;
     (* We don't force recreate on startup to be faster *)
     vector_store <- Loader.initialize_rag_system X false ;;
     match vector_store with
     | Some vs =>
         set_vector_store (Some vs) ;;
         chain <- Chatbot.create_chatbot X vs Config.GROQ_MODEL ;;
         set_chain (Some chain) ;;
         set_initialized true ;;
         print "Startup initialization successful." ;;
         ret true
     | None =>
         print "No vector store found or created. System needs initialization." ;;
         ret false
     end)
    (fun e =>
       print ("Startup initialization failed (non-critical): " +:+ str_exn e) ;;
       print "System will need explicit initialization via /initialize endpoint." ;;
       ret false).

(** The shut-down half of [lifespan]. *)
Definition lifespan_shutdown : M unit :=
  print "Shutting down..." ;;
  set_vector_store None ;;
  set_chain None ;;
  set_initialized false.

Definition health_check : M HealthResponse :=
  w <- get_world ;;
  ret {| status := "healthy"; initialized := st_initialized (app_state w) |}.

Definition initialize_system (request : InitRequest) : M InitResponse :=
  try_except
    (vector_store <- Loader.initialize_rag_system X (force_recreate request) ;;
     match vector_store with
     | None =>
         raise (PyException "Failed to create vector store. Check if documents exist in 'documents' folder.")
     | Some vs =>
         set_vector_store (Some vs) ;;
         chain <- Chatbot.create_chatbot X vs Config.GROQ_MODEL ;;
         set_chain (Some chain) ;;
         set_initialized true ;;
         ret {| init_message := "System initialized successfully"; success := true |}
     end)
    (fun e => raise (HTTPException 500 ("Initialization failed: " +:+ str_exn e))).

Definition chat (request : ChatRequest) : M ChatResponse :=
  w <- get_world ;;
  match st_initialized (app_state w), st_chain (app_state w) with
  | true, Some chain =>
      try_except
        ((* Prepare inputs *)
         let inputs :=
           {| Chatbot.question := request_question request;
              Chatbot.chat_history :=
                if truthy_opt truthy_list (request_chat_history request)
                then request_chat_history request else None |} in
         (* Get response *)
         result <- Chatbot.invoke X chain inputs ;;
         (* Process answer and sources *)
         let answer := Chatbot.answer result in
         let source_docs := default [] (Chatbot.source_documents result) in
         match format_sources source_docs with
         | Raise e => raise e
         | Ok formatted_sources =>
             ret {| response_answer := answer; sources := formatted_sources |}
         end)
        (fun e => raise (HTTPException 500 ("Error generating response: " +:+ str_exn e)))
  | _, _ =>
      raise (HTTPException 400 "System not initialized. Please call /initialize first.")
  end.

(** The calls the server process receives, and its run over a sequence
    of them.  A reply records whether the call answered without an
    error status. *)
Inductive Call :=
| Startup
| Shutdown
| Health
| Initialize (request : InitRequest)
| Chat (request : ChatRequest).

Inductive Reply :=
| StartupDone (initialised : bool)
| ShutdownDone
| HealthReply (r : HealthResponse)
| InitReply (r : result InitResponse)
| ChatReply (r : result ChatResponse).

Definition handle (c : Call) (w : World) : Reply * World :=
  match c with
  | Startup =>
      match lifespan_startup w with
      | (Ok b, w') => (StartupDone b, w')
      | (Raise _, w') => (StartupDone false, w')
      end
  | Shutdown => (ShutdownDone, snd (lifespan_shutdown w))
  | Health =>
      match health_check w with
      | (Ok r, w') => (HealthReply r, w')
      | (Raise _, w') =>
          (HealthReply {| status := "healthy"; initialized := st_initialized (app_state w') |}, w')
      end
  | Initialize request => let '(r, w') := initialize_system request w in (InitReply r, w')
  | Chat request => let '(r, w') := chat request w in (ChatReply r, w')
  end.

Fixpoint serve (calls : list Call) (w : World) : list Reply * World :=
  match calls with
  | [] => ([], w)
  | c :: rest =>
      let '(r, w') := handle c w in
      let '(rs, w'') := serve rest w' in
      (r :: rs, w'')
  end.

(** A reply that reports a successful initialisation. *)
Definition initialised_by (r : Reply) : bool :=
  match r with
  | StartupDone b => b
  | InitReply (Ok _) => true
  | _ => false
  end.

End WithExternals.
End Api.

(** ** Concrete collaborators

    A small, fully computable instance of [Externals], used to run the
    program on explicit inputs. *)

Module Demo.

(** A PDF loader that reads files starting with the PDF magic number as
    one page and rejects the rest. *)
Definition pdf_loader (path bytes : string) : result (list Document) :=
  if String.prefix "%PDF" bytes then
    Ok [ {| page_content := bytes;
            metadata := <["page" := MInt 0]> (<["source" := MStr path]> ∅) |} ]
  else Raise (LibraryError "PdfStreamError" "Stream has ended unexpectedly").

Definition text_loader (path bytes : string) : result (list Document) :=
  Ok [ {| page_content := bytes; metadata := <["source" := MStr path]> ∅ |} ].

(** Texts below the chunk size stay in one piece. *)
Definition one_piece (chunk_size chunk_overlap : nat) (s : string) : list string :=
  match s with EmptyString => [] | _ => [s] end.

Definition first_k (entries : list Document) (query : string) (k : nat)
    : result (list Document) :=
  Ok (take k entries).

(** An endpoint that answers every request with one status; its body is
    a standalone question when the request asks to rephrase a follow-up
    question, and one fixed answer otherwise. *)
Definition asks_to_rephrase (req : HttpRequest) : bool :=
  match payload_messages (req_json req) with
  | m :: _ => String.prefix "Given the following conversation" (wire_content m)
  | [] => false
  end.

Definition endpoint (status : Z) (body : string)
    (history : list HttpRequest) (req : HttpRequest) : HttpOutcome :=
  Responded {| status_code := status;
               text := if asks_to_rephrase req && bool_decide (status = 200%Z)
                       then "What is the capital of Italy?" else body |}.

(** The chain library's default rendering of a message buffer. *)
Definition render_turn (msg : Message) : string :=
  match msg with
  | HumanMessage c => if truthy_str c then nl +:+ "Human: " +:+ c else EmptyString
  | AIMessage c => if truthy_str c then nl +:+ "Assistant: " +:+ c else EmptyString
  | ChatMessage _ c => if truthy_str c then nl +:+ "chat: " +:+ c else EmptyString
  | SystemMessage c => if truthy_str c then nl +:+ "system: " +:+ c else EmptyString
  | FunctionMessage _ c => if truthy_str c then nl +:+ "function: " +:+ c else EmptyString
  | ToolMessage _ c => if truthy_str c then nl +:+ "tool: " +:+ c else EmptyString
  end.

Definition render_history (buffer : list Message) : string :=
  String.concat EmptyString (map render_turn buffer).

Definition condense (history question : string) : string :=
  "Given the following conversation and a follow up question, rephrase the follow up question to be a standalone question, in its original language."
  +:+ nl +:+ nl +:+ "Chat History:" +:+ nl +:+ history
  +:+ nl +:+ "Follow Up Input: " +:+ question
  +:+ nl +:+ "Standalone question:".

Definition join_documents (docs : list Document) : string :=
  String.concat (nl +:+ nl) (map page_content docs).

Definition externals (key : option string) (status : Z) (body : string) : Externals :=
  {| GROQ_API_KEY := key;
     PyPDFLoader_load := pdf_loader;
     TextLoader_load := text_loader;
     split_text := one_piece;
     similarity_search := first_k;
     server := endpoint status body;
     completion_content := fun body => Ok body;
     get_chat_history := render_history;
     condense_question_prompt := condense;
     format_documents := join_documents;
     parse_int := fun _ => None;
     readonly_database_message := "attempt to write a readonly database" |}.

(** The endpoint up (every request answered 200) and down (500). *)
Definition up : Externals := externals (Some "gsk_demo") 200 "Paris".
Definition down : Externals := externals (Some "gsk_demo") 500 "Internal Server Error".
Definition no_key : Externals := externals None 200 "Paris".

(** A fresh process on an empty disk. *)
Definition empty_world : World :=
  {| fs_documents := ∅; fs_index := ∅; stdout := []; store_ops := [];
     http_log := []; memories := []; app_state := Api.initial_app_state |}.

Definition with_documents (files : list File) (w : World) : World :=
  set_fs_documents (<[Config.DOCUMENT_DIRECTORY := files]>) w.

Definition with_index (path : string) (entries : list Document) (w : World) : World :=
  set_fs_index (<[path := entries]>) w.

Definition notes_txt : File := {| file_name := "notes.txt"; file_bytes := "Paris is in France." |}.
Definition manual_pdf : File := {| file_name := "manual.pdf"; file_bytes := "%PDF-1.7 manual" |}.
Definition broken_pdf : File := {| file_name := "broken.pdf"; file_bytes := "garbage" |}.

Definition old_entry : Document :=
  {| page_content := "An entry indexed earlier.";
     metadata := <["type" := MStr "txt"]> (<["source" := MStr "old.txt"]> ∅) |}.

(** The chain that [create_chatbot] makes in a fresh process, and that
    process with an index on disk: before the first turn, and after one. *)
Definition demo_llm : GroqChatModel :=
  {| model_name := Config.GROQ_MODEL; api_key := "gsk_demo"; temperature := 7 # 10;
     api_base := "https://api.groq.com/openai/v1" |}.

Definition demo_store : VectorStore :=
  {| persist_directory := Config.VECTOR_STORE_DIRECTORY;
     embedding_function := Config.EMBEDDING_MODEL |}.

Definition demo_chain : Chain :=
  {| llm := demo_llm;
     retriever := {| vectorstore := demo_store; search_k := Config.RETRIEVER_K |};
     combine_prompt := Chatbot.custom_prompt;
     memory := 0;
     return_source_documents := true |}.

Definition indexed_world : World :=
  with_index Config.VECTOR_STORE_DIRECTORY [old_entry] empty_world.

Definition first_turn : World := set_memories (fun _ => [[]]) indexed_world.

Definition second_turn : World :=
  set_memories (fun _ => [[HumanMessage "What is the capital of France?";
                           AIMessage "Paris"]]) indexed_world.

(** The process once it is initialised on that index, before any question:
    the engine and its store are in [app_state]. *)
Definition serving : World :=
  set_app_state (fun _ => {| st_vector_store := Some demo_store;
                             st_chain := Some demo_chain;
                             st_initialized := true |}) first_turn.

(** That process with a document to index, and with the client that
    start-up took when it opened the index. *)
Definition started : World :=
  set_store_ops (fun _ => [OpLoad Config.VECTOR_STORE_DIRECTORY])
    (with_documents [notes_txt] serving).

End Demo.

(** ** Vocabulary of the statements *)

(** The entries of a directory that each loading loop visits. *)
Definition pdf_files (files : list File) : list File :=
  filter (fun f => endswith (file_name f) ".pdf" = true) files.

Definition txt_files (files : list File) : list File :=
  filter (fun f => endswith (file_name f) ".txt" = true) files.

(** What one file contributes: its records, tagged, when its loader
    returns; nothing when its loader raises. *)
Definition records_of (load : string -> string -> result (list Document))
    (doc_directory type : string) (file : File) : list Document :=
  match load (doc_directory +:+ "/" +:+ file_name file) (file_bytes file) with
  | Ok documents => map (Loader.tag_document (file_name file) type) documents
  | Raise _ => []
  end.

(** What one file prints. *)
Definition file_log (load : string -> string -> result (list Document))
    (doc_directory : string) (file : File) : list string :=
  ("Loading: " +:+ file_name file) ::
  match load (doc_directory +:+ "/" +:+ file_name file) (file_bytes file) with
  | Ok _ => []
  | Raise e => ["Error loading " +:+ file_name file +:+ ": " +:+ str_exn e]
  end.

Definition group_log (kind : string) (load : string -> string -> result (list Document))
    (doc_directory : string) (files : list File) : list string :=
  if truthy_list files then
    ("Found " +:+ pretty (length files) +:+ kind) :: flat_map (file_log load doc_directory) files
  else [].

Definition pdf_records (X : Externals) (doc_directory : string) (files : list File)
    : list Document :=
  flat_map (records_of (PyPDFLoader_load X) doc_directory "pdf") (pdf_files files).

Definition txt_records (X : Externals) (doc_directory : string) (files : list File)
    : list Document :=
  flat_map (records_of (TextLoader_load X) doc_directory "txt") (txt_files files).

Definition summary_line (doc_directory : string) (docs : list Document) : string :=
  if negb (truthy_list docs) then "No documents found in '" +:+ doc_directory +:+ "'."
  else "Successfully loaded " +:+ pretty (length docs) +:+ " chunks/pages.".

Definition load_log (X : Externals) (doc_directory : string) (files : list File)
    : list string :=
  group_log " PDF file(s)." (PyPDFLoader_load X) doc_directory (pdf_files files)
  ++ group_log " TXT file(s)." (TextLoader_load X) doc_directory (txt_files files)
  ++ [summary_line doc_directory
        (pdf_records X doc_directory files ++ txt_records X doc_directory files)].

(** What [load_documents] returns in a world. *)
Definition loaded_records (X : Externals) (doc_directory : string) (w : World)
    : list Document :=
  match fs_documents w !! doc_directory with
  | Some files => pdf_records X doc_directory files ++ txt_records X doc_directory files
  | None => []
  end.

(** The one request that [_generate] puts on the wire. *)
Definition sent_request (self : GroqChatModel) (messages : list Message)
    (stop : option (list string)) : HttpRequest :=
  {| req_url := api_base self +:+ "/chat/completions";
     req_headers := [("Authorization", "Bearer " +:+ api_key self);
                     ("Content-Type", "application/json")];
     req_json := {| payload_model := model_name self;
                    payload_messages := map Chatbot.format_message messages;
                    payload_temperature := temperature self;
                    payload_stop := if truthy_opt truthy_list stop then stop else None |};
     req_timeout := 60 |}.

(** What comes back to [_generate] for an outcome of that request. *)
Definition generate_outcome (X : Externals) (o : HttpOutcome) : result Chatbot.ChatResult :=
  match o with
  | Failed e => Raise e
  | Responded r =>
      if bool_decide (status_code r = 200%Z) then
        match completion_content X (text r) with
        | Ok content =>
            Ok {| Chatbot.generations := [ {| Chatbot.message := AIMessage content |} ] |}
        | Raise e => Raise e
        end
      else Raise (ValueError ("Groq API error: " +:+ pretty (status_code r)
                              +:+ " - " +:+ text r))
  end.

(** The text a model call of the chain gets back. *)
Definition predict_outcome (X : Externals) (o : HttpOutcome) : result string :=
  match generate_outcome X o with
  | Ok r => match Chatbot.generations r with
            | g :: _ => Ok (Chatbot.message_content (Chatbot.message g))
            | [] => Raise (LibraryError "IndexError" "list index out of range")
            end
  | Raise e => Raise e
  end.

(** HTTP success statuses: the 2xx class. *)
Definition is_success (status : Z) : bool :=
  bool_decide (200 <= status < 300)%Z.

(** The role a message has by its class. *)
Definition role_of (msg : Message) : string :=
  match msg with
  | HumanMessage _ => "user"
  | AIMessage _ => "assistant"
  | ChatMessage role _ => role
  | SystemMessage _ => "system"
  | FunctionMessage _ _ => "function"
  | ToolMessage _ _ => "tool"
  end.

Definition recognized (role : string) : Prop := role = "user" \/ role = "assistant".

(** A record's [metadata['type']]. *)
Definition has_type (t : string) (d : Document) : Prop :=
  metadata d !! "type" = Some (MStr t).

(** The handle that [create_vector_store] returns for a directory. *)
Definition chroma_handle (dir : string) : VectorStore :=
  {| persist_directory := dir; embedding_function := Config.EMBEDDING_MODEL |}.

(** The second half of [invoke]: retrieval for the question it is given,
    the answering model call, and the save to memory. *)
Definition answer_from (X : Externals) (chain : Chain) (inputs : Chatbot.ChainInputs)
    (chat_history_str new_question : string) : M Chatbot.ChainOutput :=
  docs <- Chatbot.get_relevant_documents X (retriever chain) new_question ;;
  answer <- Chatbot.llm_predict X (llm chain)
              (combine_prompt chain (format_documents X docs) chat_history_str new_question) ;;
  modify (set_memories
            (alter (fun buf => buf ++ [HumanMessage (Chatbot.question inputs); AIMessage answer])
                   (memory chain))) ;;
  ret {| Chatbot.answer := answer;
         Chatbot.source_documents :=
           if return_source_documents chain then Some docs else None |}.

(** A directory entry that one of the two loading loops reads. *)
Definition supported (f : File) : bool :=
  endswith (file_name f) ".pdf" || endswith (file_name f) ".txt".

(** The chunks that [initialize_rag_system] hands to [create_vector_store]
    in a world: what it loads, split with the configured sizes. *)
Definition indexed_chunks (X : Externals) (w : World) : list Document :=
  Loader.splitter_split_documents X Config.CHUNK_SIZE Config.CHUNK_OVERLAP
    (loaded_records X Config.DOCUMENT_DIRECTORY w).

(** Where a loaded record comes from: a directory entry with the suffix of
    its type, whose loader returned the untagged record. *)
Definition record_origin (X : Externals) (dir : string) (files : list File)
    (d : Document) (f : File) (d0 : Document) (ty : string) : Prop :=
  f ∈ files
  /\ d = Loader.tag_document (file_name f) ty d0
  /\ ((ty = "pdf" /\ endswith (file_name f) ".pdf" = true
       /\ exists ds, PyPDFLoader_load X (dir +:+ "/" +:+ file_name f) (file_bytes f) = Ok ds
                     /\ d0 ∈ ds)
      \/ (ty = "txt" /\ endswith (file_name f) ".txt" = true
          /\ exists ds, TextLoader_load X (dir +:+ "/" +:+ file_name f) (file_bytes f) = Ok ds
                        /\ d0 ∈ ds)).

(** The [initialized] flag after a run of the server, read off the replies:
    a successful initialisation sets it, shut-down clears it, every other
    call leaves it. *)
Definition flag_step (flag : bool) (r : Api.Reply) : bool :=
  if Api.initialised_by r then true
  else match r with
       | Api.ShutdownDone => false
       | _ => flag
       end.

Definition flag_after (replies : list Api.Reply) (flag : bool) : bool :=
  foldl flag_step flag replies.


(** What a successful initialisation leaves, by either way in. *)
Definition initialised_state (X : Externals) (w w' : World) : Prop :=
  exists vs chain,
    app_state w' = {| st_vector_store := Some vs; st_chain := Some chain;
                      st_initialized := true |}
    /\ vectorstore (retriever chain) = vs
    /\ search_k (retriever chain) = Config.RETRIEVER_K
    /\ memory chain = length (memories w)
    /\ memories w' = memories w ++ [[]]
    /\ truthy_opt truthy_str (GROQ_API_KEY X) = true.

(** Unfold the monad and the field updates down to a record of fields. *)
Ltac world_simpl :=
  unfold Loader.Chroma, Loader.Chroma_from_documents, Loader.rmtree,
    Loader.path_exists, print, modify, get_world, bind, ret, raise,
    set_stdout, set_store_ops, set_fs_index, set_fs_documents, set_http_log,
    set_memories, set_app_state;
  cbn -[String.append pretty holds_client];
  rewrite <- ?app_assoc.

(** ** Worlds that differ in their standard output only *)

Lemma set_stdout_nil w : set_stdout (fun out => out ++ []) w = w.
Proof. destruct w; unfold set_stdout; cbn. by rewrite app_nil_r. Qed.

Lemma set_stdout_app l1 l2 w :
  set_stdout (fun out => out ++ l2) (set_stdout (fun out => out ++ l1) w)
  = set_stdout (fun out => out ++ (l1 ++ l2)) w.
Proof. unfold set_stdout; cbn. by rewrite app_assoc. Qed.

(** ** Running the monad *)

Lemma bind_run {A B} (m : M A) (k : A -> M B) w a w' :
  m w = (Ok a, w') -> bind m k w = k a w'.
Proof. unfold bind. by intros ->. Qed.

Lemma bind_raise {A B} (m : M A) (k : A -> M B) w e w' :
  m w = (Raise e, w') -> bind m k w = (Raise e, w').
Proof. unfold bind. by intros ->. Qed.

Lemma print_run s w : print s w = (Ok tt, set_stdout (fun out => out ++ [s]) w).
Proof. reflexivity. Qed.

(** ** The loader *)

Lemma for_each_load_file load dir ty files : forall acc w,
  for_each (Loader.load_file load dir ty) files acc w
  = (Ok (acc ++ flat_map (records_of load dir ty) files),
     set_stdout (fun out => out ++ flat_map (file_log load dir) files) w).
Proof.
  induction files as [|f files IH]; intros acc w.
  - cbn. by rewrite app_nil_r, set_stdout_nil.
  - cbn [for_each flat_map]. unfold bind at 1.
    unfold Loader.load_file at 1, try_except, bind, print, modify, ret, raise.
    unfold records_of at 1, file_log at 1.
    destruct (load (dir +:+ "/" +:+ file_name f) (file_bytes f)) as [docs|e].
    + rewrite IH, set_stdout_app. by rewrite <- app_assoc.
    + by rewrite IH, !set_stdout_app.
Qed.

Lemma load_documents_absent X dir w :
  fs_documents w !! dir = None ->
  Loader.load_documents X dir w
  = (Ok [], set_stdout (fun out => out ++ ["Created document directory at: " +:+ dir])
              (set_fs_documents (<[dir := []]>) w)).
Proof.
  intros Hdir.
  unfold Loader.load_documents, Loader.documents_dir_exists, Loader.makedirs,
    bind, get_world, print, modify, ret.
  rewrite Hdir. cbn. unfold set_fs_documents at 1. by rewrite Hdir.
Qed.

Lemma glob_run dir suffix w files :
  fs_documents w !! dir = Some files ->
  Loader.glob dir suffix w
  = (Ok (filter (fun f => endswith (file_name f) suffix = true) files), w).
Proof. intros Hdir. unfold Loader.glob, bind, get_world, ret. by rewrite Hdir. Qed.

Lemma load_group_run kind load dir ty files acc w :
  (if truthy_list files then
     print ("Found " +:+ pretty (length files) +:+ kind) ;;
     for_each (Loader.load_file load dir ty) files acc
   else ret acc) w
  = (Ok (acc ++ flat_map (records_of load dir ty) files),
     set_stdout (fun out => out ++ group_log kind load dir files) w).
Proof.
  unfold group_log. destruct files as [|f files].
  - cbn. by rewrite app_nil_r, set_stdout_nil.
  - cbn [truthy_list]. rewrite (bind_run _ _ _ _ _ (print_run _ _)).
    by rewrite for_each_load_file, set_stdout_app.
Qed.

Lemma summary_run dir (docs : list Document) w :
  (if negb (truthy_list docs) then
     print ("No documents found in '" +:+ dir +:+ "'.")
   else
     print ("Successfully loaded " +:+ pretty (length docs) +:+ " chunks/pages.")) w
  = (Ok tt, set_stdout (fun out => out ++ [summary_line dir docs]) w).
Proof. by destruct docs. Qed.

Lemma load_documents_present X dir w files :
  fs_documents w !! dir = Some files ->
  Loader.load_documents X dir w
  = (Ok (pdf_records X dir files ++ txt_records X dir files),
     set_stdout (fun out => out ++ load_log X dir files) w).
Proof.
  intros Hdir. unfold Loader.load_documents.
  erewrite bind_run by reflexivity.
  rewrite Hdir.
  assert (Hpresent : bool_decide (is_Some (Some files)) = true)
    by (apply bool_decide_eq_true; eauto).
  rewrite Hpresent. cbn [negb].
  erewrite bind_run by (by apply glob_run).
  erewrite bind_run by apply load_group_run.
  erewrite bind_run by (by apply glob_run).
  erewrite bind_run by apply load_group_run.
  fold (pdf_files files) (txt_files files). cbn [app].
  fold (pdf_records X dir files) (txt_records X dir files).
  erewrite bind_run by apply summary_run.
  unfold ret, load_log. by rewrite !set_stdout_app, <- ?app_assoc.
Qed.

(** ** The vector store *)

Lemma path_exists_run dir w :
  Loader.path_exists dir w = (Ok (bool_decide (is_Some (fs_index w !! dir))), w).
Proof. reflexivity. Qed.

Lemma present_true {A} (o : option A) : is_Some o -> bool_decide (is_Some o) = true.
Proof. intros H. by apply bool_decide_eq_true. Qed.

Lemma present_false {A} (o : option A) : o = None -> bool_decide (is_Some o) = false.
Proof. intros ->. apply bool_decide_eq_false. by intros [? ?]. Qed.

(** A persisted index and no [force_recreate]: the index is opened. *)
Lemma create_vector_store_load X chunks dir w :
  is_Some (fs_index w !! dir) ->
  Loader.create_vector_store X chunks dir false w
  = (Ok (Some (chroma_handle dir)),
     set_stdout (fun out => out ++
        ["Loading embedding model: " +:+ Config.EMBEDDING_MODEL;
         "Loading existing vector store from " +:+ dir +:+ "...";
         "Vector store loaded successfully."])
       (set_store_ops (fun ops => ops ++ [OpLoad dir]) w)).
Proof.
  intros Hdir. unfold Loader.create_vector_store.
  erewrite bind_run by apply print_run.
  erewrite bind_run by apply path_exists_run.
  cbn [set_stdout fs_index]. rewrite (present_true _ Hdir). cbn [andb negb].
  by world_simpl.
Qed.

(** The client the process holds on a directory: removing the directory
    leaves it as it is, opening or building a store there takes it. *)
Lemma holds_client_app path ops1 ops2 :
  holds_client path (ops1 ++ ops2) = holds_client path ops1 || holds_client path ops2.
Proof. apply existsb_app. Qed.

Lemma holds_client_rmtree path dir ops :
  holds_client path (ops ++ [OpRmtree dir]) = holds_client path ops.
Proof. rewrite holds_client_app. cbn. by rewrite !orb_false_r. Qed.

Lemma holds_client_load dir ops : holds_client dir (ops ++ [OpLoad dir]) = true.
Proof.
  rewrite holds_client_app. cbn. rewrite bool_decide_eq_true_2 by done.
  apply orb_true_r.
Qed.

Lemma holds_client_from_documents dir chunks ops :
  holds_client dir (ops ++ [OpFromDocuments dir chunks]) = true.
Proof.
  rewrite holds_client_app. cbn. rewrite bool_decide_eq_true_2 by done.
  apply orb_true_r.
Qed.

(** A persisted index and [force_recreate]: it is removed first, and a
    new one is built when there are chunks and the process holds no client
    on the directory. *)
Lemma create_vector_store_recreate X chunks dir w :
  is_Some (fs_index w !! dir) ->
  chunks <> [] ->
  holds_client dir (store_ops w) = false ->
  Loader.create_vector_store X chunks dir true w
  = (Ok (Some (chroma_handle dir)),
     set_stdout (fun out => out ++
        ["Loading embedding model: " +:+ Config.EMBEDDING_MODEL;
         "Removed existing vector store.";
         "Creating new vector store...";
         "Vector store created and persisted to " +:+ dir +:+ "."])
       (set_fs_index (fun fs => <[dir := chunks]> (delete dir fs))
          (set_store_ops (fun ops => ops ++ [OpRmtree dir; OpFromDocuments dir chunks]) w))).
Proof.
  intros Hdir Hchunks Hfree. unfold Loader.create_vector_store.
  erewrite bind_run by apply print_run.
  erewrite bind_run by apply path_exists_run.
  cbn [set_stdout fs_index]. rewrite (present_true _ Hdir). cbn [andb negb].
  erewrite bind_run by apply path_exists_run.
  cbn [set_stdout fs_index]. rewrite (present_true _ Hdir). cbn [andb negb].
  destruct chunks as [|c chunks]; [done|].
  world_simpl. rewrite holds_client_rmtree, Hfree. cbn [andb].
  world_simpl. rewrite lookup_delete_eq. by world_simpl.
Qed.

(** The same call in a process that holds the client: the index is
    removed, the build raises and nothing is persisted. *)
Lemma create_vector_store_recreate_stale X chunks dir w :
  is_Some (fs_index w !! dir) ->
  chunks <> [] ->
  holds_client dir (store_ops w) = true ->
  Loader.create_vector_store X chunks dir true w
  = (Raise (readonly_database X),
     set_stdout (fun out => out ++
        ["Loading embedding model: " +:+ Config.EMBEDDING_MODEL;
         "Removed existing vector store.";
         "Creating new vector store..."])
       (set_fs_index (delete dir)
          (set_store_ops (fun ops => ops ++ [OpRmtree dir]) w))).
Proof.
  intros Hdir Hchunks Hheld. unfold Loader.create_vector_store.
  erewrite bind_run by apply print_run.
  erewrite bind_run by apply path_exists_run.
  cbn [set_stdout fs_index]. rewrite (present_true _ Hdir). cbn [andb negb].
  erewrite bind_run by apply path_exists_run.
  cbn [set_stdout fs_index]. rewrite (present_true _ Hdir). cbn [andb negb].
  destruct chunks as [|c chunks]; [done|].
  world_simpl. rewrite holds_client_rmtree, Hheld, lookup_delete_eq.
  rewrite (present_false None eq_refl). by world_simpl.
Qed.

Lemma create_vector_store_recreate_empty X dir w :
  is_Some (fs_index w !! dir) ->
  Loader.create_vector_store X [] dir true w
  = (Ok None,
     set_stdout (fun out => out ++
        ["Loading embedding model: " +:+ Config.EMBEDDING_MODEL;
         "Removed existing vector store.";
         "No chunks to index. Returning empty initialized store if possible, or None."])
       (set_fs_index (delete dir)
          (set_store_ops (fun ops => ops ++ [OpRmtree dir]) w))).
Proof.
  intros Hdir. unfold Loader.create_vector_store.
  erewrite bind_run by apply print_run.
  erewrite bind_run by apply path_exists_run.
  cbn [set_stdout fs_index]. rewrite (present_true _ Hdir). cbn [andb negb].
  erewrite bind_run by apply path_exists_run.
  cbn [set_stdout fs_index]. rewrite (present_true _ Hdir). cbn [andb negb].
  world_simpl. rewrite lookup_delete_eq. by world_simpl.
Qed.

(** No persisted index: a new one is built from the chunks when there are
    some and the process holds no client on the directory, and nothing is
    built when there are none. *)
Lemma create_vector_store_build X chunks dir force w :
  fs_index w !! dir = None ->
  chunks <> [] ->
  holds_client dir (store_ops w) = false ->
  Loader.create_vector_store X chunks dir force w
  = (Ok (Some (chroma_handle dir)),
     set_stdout (fun out => out ++
        ["Loading embedding model: " +:+ Config.EMBEDDING_MODEL;
         "Creating new vector store...";
         "Vector store created and persisted to " +:+ dir +:+ "."])
       (set_fs_index (<[dir := chunks]>)
          (set_store_ops (fun ops => ops ++ [OpFromDocuments dir chunks]) w))).
Proof.
  intros Hdir Hchunks Hfree. unfold Loader.create_vector_store.
  erewrite bind_run by apply print_run.
  erewrite bind_run by apply path_exists_run.
  cbn [set_stdout fs_index]. rewrite (present_false _ Hdir). cbn [andb negb].
  erewrite bind_run by apply path_exists_run.
  cbn [set_stdout fs_index]. rewrite (present_false _ Hdir). rewrite andb_false_r.
  destruct chunks as [|c chunks]; [done|].
  world_simpl. rewrite Hfree. cbn [andb]. world_simpl. rewrite Hdir. by world_simpl.
Qed.

(** The directory was removed under a client the process still holds: the
    build raises and nothing is persisted. *)
Lemma create_vector_store_build_stale X chunks dir force w :
  fs_index w !! dir = None ->
  chunks <> [] ->
  holds_client dir (store_ops w) = true ->
  Loader.create_vector_store X chunks dir force w
  = (Raise (readonly_database X),
     set_stdout (fun out => out ++
        ["Loading embedding model: " +:+ Config.EMBEDDING_MODEL;
         "Creating new vector store..."]) w).
Proof.
  intros Hdir Hchunks Hheld. unfold Loader.create_vector_store.
  erewrite bind_run by apply print_run.
  erewrite bind_run by apply path_exists_run.
  cbn [set_stdout fs_index]. rewrite (present_false _ Hdir). cbn [andb negb].
  erewrite bind_run by apply path_exists_run.
  cbn [set_stdout fs_index]. rewrite (present_false _ Hdir). rewrite andb_false_r.
  destruct chunks as [|c chunks]; [done|].
  world_simpl. rewrite Hheld, (present_false _ Hdir). by world_simpl.
Qed.

Lemma create_vector_store_nothing X dir force w :
  fs_index w !! dir = None ->
  Loader.create_vector_store X [] dir force w
  = (Ok None,
     set_stdout (fun out => out ++
        ["Loading embedding model: " +:+ Config.EMBEDDING_MODEL;
         "No chunks to index. Returning empty initialized store if possible, or None."]) w).
Proof.
  intros Hdir. unfold Loader.create_vector_store.
  erewrite bind_run by apply print_run.
  erewrite bind_run by apply path_exists_run.
  cbn [set_stdout fs_index]. rewrite (present_false _ Hdir). cbn [andb negb].
  erewrite bind_run by apply path_exists_run.
  cbn [set_stdout fs_index]. rewrite (present_false _ Hdir). rewrite andb_false_r.
  world_simpl. rewrite Hdir. by world_simpl.
Qed.

(** The seven ways a call can go, by the index on disk, [force_recreate],
    the chunks and the client. *)
Ltac create_vector_store_by_cases X chunks dir force w :=
  let entries := fresh "entries" in
  let Hdir := fresh "Hdir" in
  let Hsome := fresh "Hsome" in
  let Hheld := fresh "Hheld" in
  let c0 := fresh "c0" in
  destruct (fs_index w !! dir) as [entries|] eqn:Hdir;
  [ assert (Hsome : is_Some (fs_index w !! dir)) by (rewrite Hdir; eauto);
    destruct force;
    [ destruct chunks as [|c0 chunks];
      [ rewrite (create_vector_store_recreate_empty X dir w Hsome)
      | destruct (holds_client dir (store_ops w)) eqn:Hheld;
        [ rewrite (create_vector_store_recreate_stale X (c0 :: chunks) dir w Hsome
                     ltac:(done) Hheld)
        | rewrite (create_vector_store_recreate X (c0 :: chunks) dir w Hsome
                     ltac:(done) Hheld) ] ]
    | rewrite (create_vector_store_load X chunks dir w Hsome) ]
  | destruct chunks as [|c0 chunks];
    [ rewrite (create_vector_store_nothing X dir force w Hdir)
    | destruct (holds_client dir (store_ops w)) eqn:Hheld;
      [ rewrite (create_vector_store_build_stale X (c0 :: chunks) dir force w Hdir
                   ltac:(done) Hheld)
      | rewrite (create_vector_store_build X (c0 :: chunks) dir force w Hdir
                   ltac:(done) Hheld) ] ] ].

(** Whatever the call does, the store operations it adds build at most one
    index, from exactly the chunks it was given. *)
Lemma create_vector_store_ops X chunks dir force w :
  exists new,
    store_ops (Loader.create_vector_store X chunks dir force w).2 = store_ops w ++ new
    /\ forall path c, OpFromDocuments path c ∈ new ->
         path = dir /\ c = chunks
         /\ fs_index (Loader.create_vector_store X chunks dir force w).2 !! dir = Some chunks.
Proof.
  create_vector_store_by_cases X chunks dir force w.
  - exists [OpRmtree dir]. split; [done|].
    intros path c Hin. apply list_elem_of_singleton in Hin. discriminate.
  - exists [OpRmtree dir]. split; [done|].
    intros path c Hin. apply list_elem_of_singleton in Hin. discriminate.
  - exists [OpRmtree dir; OpFromDocuments dir (c0 :: chunks)]. split; [done|].
    intros path c Hin. cbn.
    apply elem_of_cons in Hin as [Hin|Hin]; [discriminate|].
    apply list_elem_of_singleton in Hin. injection Hin as -> ->.
    by rewrite lookup_insert_eq.
  - exists [OpLoad dir]. split; [done|].
    intros path c Hin. apply list_elem_of_singleton in Hin. discriminate.
  - exists []. split; [cbn; by rewrite app_nil_r|].
    intros path c Hin. by apply elem_of_nil in Hin.
  - exists []. split; [cbn; by rewrite app_nil_r|].
    intros path c Hin. by apply elem_of_nil in Hin.
  - exists [OpFromDocuments dir (c0 :: chunks)]. split; [done|].
    intros path c Hin. cbn.
    apply list_elem_of_singleton in Hin. injection Hin as -> ->.
    by rewrite lookup_insert_eq.
Qed.




(** C9: with a persisted index at the path, two calls without
    [force_recreate] both open that index: the same handle comes back, the
    persisted entries are the ones that were there (none added, none
    duplicated), and every retrieval through either handle gives the same
    result. *)
Theorem create_vector_store_twice X chunks chunks' dir w :
  is_Some (fs_index w !! dir) ->
  let r1 := Loader.create_vector_store X chunks dir false w in
  let r2 := Loader.create_vector_store X chunks' dir false r1.2 in
  r1.1 = Ok (Some (chroma_handle dir))
  /\ r2.1 = Ok (Some (chroma_handle dir))
  /\ fs_index r1.2 = fs_index w
  /\ fs_index r2.2 = fs_index w
  /\ store_ops r2.2 = store_ops w ++ [OpLoad dir; OpLoad dir]
  /\ forall query k,
       (Chatbot.get_relevant_documents X
          {| vectorstore := chroma_handle dir; search_k := k |} query r1.2).1
       = (Chatbot.get_relevant_documents X
            {| vectorstore := chroma_handle dir; search_k := k |} query r2.2).1.
Proof.
  intros Hsome. cbn zeta.
  rewrite (create_vector_store_load X chunks dir w Hsome). cbn [fst snd].
  rewrite create_vector_store_load by done. cbn [fst snd].
  repeat split; try done.
  - cbn. by rewrite <- app_assoc.
  - intros query k. unfold Chatbot.get_relevant_documents. cbn.
    by destruct (similarity_search X _ query k).
Qed.

Lemma create_vector_store_twice_witness :
  let w := Demo.with_index "vector_store" [Demo.old_entry] Demo.empty_world in
  let r1 := Loader.create_vector_store Demo.up [Demo.old_entry] "vector_store" false w in
  let r2 := Loader.create_vector_store Demo.up [Demo.old_entry] "vector_store" false r1.2 in
  is_Some (fs_index w !! "vector_store")
  /\ r1.1 = r2.1
  /\ fs_index r2.2 !! "vector_store" = Some [Demo.old_entry].
Proof.
  cbn zeta.
  assert (Hsome : is_Some (fs_index (Demo.with_index "vector_store" [Demo.old_entry]
                                       Demo.empty_world) !! "vector_store"))
    by (vm_compute; eauto).
  destruct (create_vector_store_twice Demo.up [Demo.old_entry] [Demo.old_entry]
              "vector_store" _ Hsome) as (H1 & H2 & _ & H4 & _).
  split; [exact Hsome|]. split; [by rewrite H1, H2|].
  rewrite H4. vm_compute. reflexivity.
Defined.

(** ** What the loader returns *)

Lemma records_of_tagged load dir ty f :
  Forall (has_type ty) (records_of load dir ty f).
Proof.
  unfold records_of. destruct (load _ _) as [docs|e]; [|constructor].
  apply Forall_forall. intros d Hd. apply list_elem_of_fmap in Hd as (d0 & -> & _).
  unfold has_type, Loader.tag_document. cbn. by rewrite lookup_insert_eq.
Qed.

Lemma flat_map_Forall {A B} (P : B -> Prop) (f : A -> list B) (l : list A) :
  (forall a, Forall P (f a)) -> Forall P (flat_map f l).
Proof.
  intros Hf. induction l as [|a l IH]; cbn; [constructor|].
  apply Forall_app. split; [apply Hf | apply IH].
Qed.

Lemma elem_of_flat_map {A B} (f : A -> list B) (l : list A) (b : B) :
  b ∈ flat_map f l <-> exists a, a ∈ l /\ b ∈ f a.
Proof.
  rewrite list_elem_of_In, in_flat_map.
  split; intros (a & Ha & Hb); exists a; by rewrite ?list_elem_of_In in *.
Qed.

Lemma file_log_in_group kind load dir files f line :
  f ∈ files -> line ∈ file_log load dir f -> line ∈ group_log kind load dir files.
Proof.
  intros Hf Hline. unfold group_log.
  destruct files as [|f0 files]; [by apply elem_of_nil in Hf|].
  cbn [truthy_list]. apply elem_of_cons. right.
  apply elem_of_flat_map. eauto.
Qed.

(** The split keeps the order and the metadata of the records it splits. *)
Lemma splitter_split_documents_app X size overlap docs1 docs2 :
  Loader.splitter_split_documents X size overlap (docs1 ++ docs2)
  = Loader.splitter_split_documents X size overlap docs1
    ++ Loader.splitter_split_documents X size overlap docs2.
Proof. unfold Loader.splitter_split_documents. apply flat_map_app. Qed.

Lemma splitter_split_documents_type X size overlap ty docs :
  Forall (has_type ty) docs ->
  Forall (has_type ty) (Loader.splitter_split_documents X size overlap docs).
Proof.
  intros Hdocs. unfold Loader.splitter_split_documents.
  induction Hdocs as [|d docs Hd _ IH]; cbn; [constructor|].
  apply Forall_app. split; [|exact IH].
  apply Forall_forall. intros c Hc. apply list_elem_of_fmap in Hc as (piece & -> & _).
  exact Hd.
Qed.

(** C7: in a directory of loadable and unloadable files, [load_documents]
    returns normally; what it returns is exactly the tagged records of every
    PDF and TXT file whose loader succeeded, so each such record is there; a
    file whose loader raises contributes nothing, has its error printed, and
    takes no other file's records away; nothing but the standard output
    changes. *)
Theorem load_documents_skips_unloadable_files X dir w files :
  fs_documents w !! dir = Some files ->
  let r := Loader.load_documents X dir w in
  r.1 = Ok (pdf_records X dir files ++ txt_records X dir files)
  /\ (forall f docs d,
        f ∈ pdf_files files ->
        PyPDFLoader_load X (dir +:+ "/" +:+ file_name f) (file_bytes f) = Ok docs ->
        d ∈ docs ->
        Loader.tag_document (file_name f) "pdf" d
          ∈ pdf_records X dir files ++ txt_records X dir files)
  /\ (forall f docs d,
        f ∈ txt_files files ->
        TextLoader_load X (dir +:+ "/" +:+ file_name f) (file_bytes f) = Ok docs ->
        d ∈ docs ->
        Loader.tag_document (file_name f) "txt" d
          ∈ pdf_records X dir files ++ txt_records X dir files)
  /\ (forall f e,
        f ∈ pdf_files files ->
        PyPDFLoader_load X (dir +:+ "/" +:+ file_name f) (file_bytes f) = Raise e ->
        records_of (PyPDFLoader_load X) dir "pdf" f = []
        /\ ("Error loading " +:+ file_name f +:+ ": " +:+ str_exn e) ∈ stdout r.2)
  /\ (forall f e,
        f ∈ txt_files files ->
        TextLoader_load X (dir +:+ "/" +:+ file_name f) (file_bytes f) = Raise e ->
        records_of (TextLoader_load X) dir "txt" f = []
        /\ ("Error loading " +:+ file_name f +:+ ": " +:+ str_exn e) ∈ stdout r.2)
  /\ fs_documents r.2 = fs_documents w
  /\ fs_index r.2 = fs_index w.
Proof.
  intros Hdir. cbn zeta. rewrite (load_documents_present X dir w files Hdir). cbn [fst snd].
  split; [done|]. split; [|split; [|split; [|split; [|done]]]].
  - intros f docs d Hf Hload Hd. apply elem_of_app. left.
    apply elem_of_flat_map. exists f. split; [done|].
    unfold records_of. rewrite Hload. by apply list_elem_of_fmap_2.
  - intros f docs d Hf Hload Hd. apply elem_of_app. right.
    apply elem_of_flat_map. exists f. split; [done|].
    unfold records_of. rewrite Hload. by apply list_elem_of_fmap_2.
  - intros f e Hf Hload. split; [unfold records_of; by rewrite Hload|].
    cbn. apply elem_of_app. right. unfold load_log. apply elem_of_app. left.
    apply (file_log_in_group _ _ _ _ f); [done|].
    unfold file_log. rewrite Hload. apply elem_of_cons. right. by apply list_elem_of_singleton.
  - intros f e Hf Hload. split; [unfold records_of; by rewrite Hload|].
    cbn. apply elem_of_app. right. unfold load_log.
    apply elem_of_app. right. apply elem_of_app. left.
    apply (file_log_in_group _ _ _ _ f); [done|].
    unfold file_log. rewrite Hload. apply elem_of_cons. right. by apply list_elem_of_singleton.
Qed.

(** One valid TXT file next to one corrupt PDF file: the TXT record comes
    back, the PDF's error is printed. *)
Lemma load_documents_skips_unloadable_files_witness :
  let w := Demo.with_documents [Demo.notes_txt; Demo.broken_pdf] Demo.empty_world in
  let r := Loader.load_documents Demo.up "documents" w in
  fs_documents w !! "documents" = Some [Demo.notes_txt; Demo.broken_pdf]
  /\ r.1 = Ok (pdf_records Demo.up "documents" [Demo.notes_txt; Demo.broken_pdf]
               ++ txt_records Demo.up "documents" [Demo.notes_txt; Demo.broken_pdf])
  /\ "Error loading broken.pdf: Stream has ended unexpectedly" ∈ stdout r.2.
Proof.
  cbn zeta.
  assert (Hdir : fs_documents (Demo.with_documents [Demo.notes_txt; Demo.broken_pdf]
                                 Demo.empty_world) !! "documents"
                 = Some [Demo.notes_txt; Demo.broken_pdf])
    by (vm_compute; reflexivity).
  destruct (load_documents_skips_unloadable_files Demo.up "documents" _ _ Hdir)
    as (Hres & _ & _ & Hpdf & _).
  split; [exact Hdir|]. split; [exact Hres|].
  refine (proj2 (Hpdf Demo.broken_pdf
                   (LibraryError "PdfStreamError" "Stream has ended unexpectedly") _ _)).
  - vm_compute. apply list_elem_of_here.
  - reflexivity.
Defined.

Lemma load_documents_fst X dir w :
  (Loader.load_documents X dir w).1 = Ok (loaded_records X dir w).
Proof.
  unfold loaded_records. destruct (fs_documents w !! dir) as [files|] eqn:Hdir.
  - by rewrite (load_documents_present X dir w files Hdir).
  - by rewrite (load_documents_absent X dir w Hdir).
Qed.

(** Loading touches the document directory and the standard output only. *)
Lemma load_documents_frame X dir w :
  let w' := (Loader.load_documents X dir w).2 in
  fs_index w' = fs_index w /\ store_ops w' = store_ops w /\ http_log w' = http_log w
  /\ memories w' = memories w /\ app_state w' = app_state w.
Proof.
  cbn zeta. destruct (fs_documents w !! dir) as [files|] eqn:Hdir.
  - by rewrite (load_documents_present X dir w files Hdir).
  - by rewrite (load_documents_absent X dir w Hdir).
Qed.

(** [initialize_rag_system], step by step: load, then either stop (nothing
    loaded and [force_recreate]) or split what was loaded and go on to
    [create_vector_store]. *)
Lemma initialize_rag_system_run X force w :
  let docs := loaded_records X Config.DOCUMENT_DIRECTORY w in
  let w1 := (Loader.load_documents X Config.DOCUMENT_DIRECTORY w).2 in
  let chunks := Loader.splitter_split_documents X Config.CHUNK_SIZE Config.CHUNK_OVERLAP docs in
  Loader.initialize_rag_system X force w
  = if negb (truthy_list docs) && force then
      (Ok None, set_stdout (fun out => out ++ ["No documents found to index."]) w1)
    else
      Loader.create_vector_store X chunks Config.VECTOR_STORE_DIRECTORY force
        (if truthy_list docs then
           set_stdout (fun out => out ++
             ["Split documents into " +:+ pretty (length chunks) +:+ " chunks."]) w1
         else w1).
Proof.
  cbn zeta. unfold Loader.initialize_rag_system.
  pose proof (load_documents_fst X Config.DOCUMENT_DIRECTORY w) as Hfst.
  destruct (Loader.load_documents X Config.DOCUMENT_DIRECTORY w) as [r w1] eqn:Hload.
  cbn [fst snd] in *. subst r.
  erewrite bind_run by exact Hload.
  destruct (loaded_records X Config.DOCUMENT_DIRECTORY w) as [|d docs]; cbn [truthy_list negb andb].
  - destruct force; [reflexivity|]. by erewrite bind_run by reflexivity.
  - unfold Loader.split_documents.
    erewrite bind_run; [reflexivity|].
    by erewrite bind_run by apply print_run.
Qed.

(** C10: the sequence that [load_documents] returns is the records of the
    PDF files followed by the records of the TXT files, whatever the names
    and the order of the directory's entries; splitting keeps that grouping,
    and an index that [initialize_rag_system] builds receives the chunks in
    that order. *)
Theorem pdf_records_precede_txt_records X dir w :
  exists pdfs txts,
    (Loader.load_documents X dir w).1 = Ok (pdfs ++ txts)
    /\ Forall (has_type "pdf") pdfs
    /\ Forall (has_type "txt") txts
    /\ (forall files, fs_documents w !! dir = Some files ->
          pdfs = pdf_records X dir files /\ txts = txt_records X dir files)
    /\ (forall size overlap,
          Loader.splitter_split_documents X size overlap (pdfs ++ txts)
          = Loader.splitter_split_documents X size overlap pdfs
            ++ Loader.splitter_split_documents X size overlap txts
          /\ Forall (has_type "pdf") (Loader.splitter_split_documents X size overlap pdfs)
          /\ Forall (has_type "txt") (Loader.splitter_split_documents X size overlap txts))
    /\ (dir = Config.DOCUMENT_DIRECTORY -> forall force,
          exists new,
            store_ops (Loader.initialize_rag_system X force w).2 = store_ops w ++ new
            /\ forall path chunks, OpFromDocuments path chunks ∈ new ->
                 chunks = Loader.splitter_split_documents X Config.CHUNK_SIZE
                            Config.CHUNK_OVERLAP pdfs
                          ++ Loader.splitter_split_documents X Config.CHUNK_SIZE
                               Config.CHUNK_OVERLAP txts
                 /\ fs_index (Loader.initialize_rag_system X force w).2 !! path
                    = Some chunks).
Proof.
  set (pdfs := match fs_documents w !! dir with
               | Some files => pdf_records X dir files | None => [] end).
  set (txts := match fs_documents w !! dir with
               | Some files => txt_records X dir files | None => [] end).
  assert (Hloaded : loaded_records X dir w = pdfs ++ txts).
  { unfold loaded_records, pdfs, txts. by destruct (fs_documents w !! dir). }
  assert (Hpdf : Forall (has_type "pdf") pdfs).
  { unfold pdfs. destruct (fs_documents w !! dir); [|constructor].
    apply flat_map_Forall. intros f. apply records_of_tagged. }
  assert (Htxt : Forall (has_type "txt") txts).
  { unfold txts. destruct (fs_documents w !! dir); [|constructor].
    apply flat_map_Forall. intros f. apply records_of_tagged. }
  exists pdfs, txts.
  split; [by rewrite load_documents_fst, Hloaded|]. split; [done|]. split; [done|].
  split; [|split].
  - intros files Hdir. unfold pdfs, txts. by rewrite Hdir.
  - intros size overlap. split; [apply splitter_split_documents_app|].
    split; by apply splitter_split_documents_type.
  - intros -> force. rewrite initialize_rag_system_run. cbn zeta.
    rewrite Hloaded, <- splitter_split_documents_app.
    destruct (load_documents_frame X Config.DOCUMENT_DIRECTORY w) as (_ & Hops & _).
    cbn zeta in Hops.
    destruct (negb (truthy_list (pdfs ++ txts)) && force).
    + exists []. cbn. split; [by rewrite app_nil_r|].
      intros path chunks Hin. by apply elem_of_nil in Hin.
    + match goal with
      | |- context [Loader.create_vector_store X ?c ?d ?f ?w0] =>
          destruct (create_vector_store_ops X c d f w0) as (new & Hnew & Hbuilt);
          assert (Hops0 : store_ops w0 = store_ops w)
            by (destruct (truthy_list (pdfs ++ txts)); exact Hops)
      end.
      exists new. split; [by rewrite Hnew, Hops0|].
      intros path chunks Hin. destruct (Hbuilt path chunks Hin) as (-> & -> & Hidx).
      by split.
Qed.

(** ** The language-model adapter *)

Lemma _generate_run X self messages stop w :
  Chatbot._generate X self messages stop w
  = (generate_outcome X (server X (http_log w) (sent_request self messages stop)),
     set_http_log (fun log => log ++ [sent_request self messages stop]) w).
Proof.
  unfold Chatbot._generate, Chatbot.requests_post, bind, generate_outcome.
  fold (sent_request self messages stop).
  destruct (server X (http_log w) (sent_request self messages stop)) as [r|e]; [|done].
  destruct (bool_decide (status_code r = 200%Z)); cbn [negb]; [|done].
  by destruct (completion_content X (text r)).
Qed.

Lemma llm_predict_run X self prompt w :
  Chatbot.llm_predict X self prompt w
  = (predict_outcome X (server X (http_log w) (sent_request self [HumanMessage prompt] None)),
     set_http_log (fun log => log ++ [sent_request self [HumanMessage prompt] None]) w).
Proof.
  unfold Chatbot.llm_predict, bind, predict_outcome. rewrite _generate_run.
  destruct (generate_outcome X _) as [r|e]; [|done].
  by destruct (Chatbot.generations r).
Qed.

Lemma not_success_not_200 status : is_success status = false -> status <> 200%Z.
Proof. unfold is_success. intros H ->. by rewrite bool_decide_eq_true_2 in H by lia. Qed.

(** C3: when the endpoint answers a [generate] call with a non-success
    status, the call raises an error whose message holds the status code and
    the response body as they came; it raises after exactly one request, so
    nothing is retried and nothing is swallowed; and the request of every
    call, whatever its outcome, carries a timeout of 60 seconds. *)
Theorem generate_surfaces_http_failure X self messages stop w status body :
  server X (http_log w) (sent_request self messages stop)
    = Responded {| status_code := status; text := body |} ->
  is_success status = false ->
  let r := Chatbot._generate X self messages stop w in
  r.1 = Raise (ValueError ("Groq API error: " +:+ pretty status +:+ " - " +:+ body))
  /\ http_log r.2 = http_log w ++ [sent_request self messages stop]
  /\ (forall self' messages' stop' w',
        exists req,
          http_log (Chatbot._generate X self' messages' stop' w').2 = http_log w' ++ [req]
          /\ req_timeout req = 60%Z).
Proof.
  intros Hserver Hstatus. cbn zeta. rewrite _generate_run, Hserver.
  unfold generate_outcome. cbn [status_code text fst snd].
  rewrite bool_decide_eq_false_2 by by apply not_success_not_200.
  split; [done|]. split; [done|].
  intros self' messages' stop' w'. rewrite _generate_run.
  by exists (sent_request self' messages' stop').
Qed.

(** A non-success status from the demo endpoint that is down. *)
Lemma generate_surfaces_http_failure_witness :
  let r := Chatbot._generate Demo.down Demo.demo_llm [HumanMessage "Hello"] None
             Demo.empty_world in
  r.1 = Raise (ValueError "Groq API error: 500 - Internal Server Error")
  /\ length (http_log r.2) = 1.
Proof.
  cbn zeta.
  destruct (generate_surfaces_http_failure Demo.down Demo.demo_llm [HumanMessage "Hello"]
              None Demo.empty_world 500 "Internal Server Error" eq_refl eq_refl)
    as (Hres & Hlog & _).
  split; [exact Hres|]. rewrite Hlog. reflexivity.
Defined.

(** C4 does not hold as stated: a [ChatMessage] goes out under its own
    role, also when that role is neither [user] nor [assistant]. *)
Lemma chat_message_role_not_coerced :
  ~ (forall msg, ~ recognized (role_of msg) ->
                 wire_role (Chatbot.format_message msg) = "user").
Proof.
  intros H. specialize (H (ChatMessage "moderator" "hi")).
  cbn in H. discriminate H. intros [Habs|Habs]; discriminate Habs.
Qed.

(** C4, as the program has it: a message that is neither a [HumanMessage],
    an [AIMessage] nor a [ChatMessage] goes out with role [user]; a
    [ChatMessage] goes out with the role it carries, unchanged; the content
    is kept; and the conversion never raises: whatever the messages, the call
    reaches the wire with every message converted. *)
Theorem format_message_roles msg :
  (forall role content, msg = ChatMessage role content ->
     wire_role (Chatbot.format_message msg) = role)
  /\ ((forall role content, msg <> ChatMessage role content) ->
      ~ recognized (role_of msg) ->
      wire_role (Chatbot.format_message msg) = "user")
  /\ wire_content (Chatbot.format_message msg) = Chatbot.message_content msg
  /\ (forall X self messages stop w,
        exists req,
          http_log (Chatbot._generate X self messages stop w).2 = http_log w ++ [req]
          /\ payload_messages (req_json req) = map Chatbot.format_message messages).
Proof.
  split; [|split; [|split]].
  - by intros role content ->.
  - intros Hnot_chat Hrole. destruct msg as [c|c|role c|c|n c|t c]; try reflexivity.
    + exfalso. apply Hrole. by right.
    + by destruct (Hnot_chat role c).
  - by destruct msg.
  - intros X self messages stop w. rewrite _generate_run.
    by exists (sent_request self messages stop).
Qed.

(** A system message is sent as [user]; a chat message keeps its role. *)
Lemma format_message_roles_witness :
  wire_role (Chatbot.format_message (SystemMessage "Be brief.")) = "user"
  /\ wire_role (Chatbot.format_message (ChatMessage "moderator" "hi")) = "moderator".
Proof.
  split.
  - apply (proj1 (proj2 (format_message_roles (SystemMessage "Be brief.")))).
    + intros role content Habs. discriminate Habs.
    + intros [Habs|Habs]; discriminate Habs.
  - exact (proj1 (format_message_roles (ChatMessage "moderator" "hi")) "moderator" "hi" eq_refl).
Defined.

(** ** The conversational chain *)

Lemma get_relevant_documents_run X r query w :
  Chatbot.get_relevant_documents X r query w
  = (similarity_search X (default [] (fs_index w !! persist_directory (vectorstore r)))
       query (search_k r),
     set_store_ops (fun ops => ops ++ [OpSearch (persist_directory (vectorstore r)) query
                                         (search_k r)]) w).
Proof.
  unfold Chatbot.get_relevant_documents.
  by destruct (similarity_search X _ query (search_k r)).
Qed.

Lemma invoke_first_turn X chain inputs w :
  truthy_str (get_chat_history X (default [] (memories w !! memory chain))) = false ->
  Chatbot.invoke X chain inputs w
  = answer_from X chain inputs (get_chat_history X (default [] (memories w !! memory chain)))
      (Chatbot.question inputs) w.
Proof.
  intros Hempty. unfold Chatbot.invoke. erewrite bind_run by reflexivity.
  rewrite Hempty. by erewrite bind_run by reflexivity.
Qed.

Lemma invoke_later_turn X chain inputs w :
  truthy_str (get_chat_history X (default [] (memories w !! memory chain))) = true ->
  Chatbot.invoke X chain inputs w
  = bind (Chatbot.llm_predict X (llm chain)
            (condense_question_prompt X
               (get_chat_history X (default [] (memories w !! memory chain)))
               (Chatbot.question inputs)))
         (answer_from X chain inputs
            (get_chat_history X (default [] (memories w !! memory chain)))) w.
Proof.
  intros Hsome. unfold Chatbot.invoke. erewrite bind_run by reflexivity.
  by rewrite Hsome.
Qed.

(** [answer_from] saves the turn when it returns and leaves the memory as
    it was when it raises; it searches once, for the question it was given. *)
Lemma answer_from_effects X chain inputs h q w :
  let r := answer_from X chain inputs h q w in
  store_ops r.2
    = store_ops w ++ [OpSearch (persist_directory (vectorstore (retriever chain))) q
                        (search_k (retriever chain))]
  /\ match r.1 with
     | Ok out =>
         memories r.2
         = alter (fun buf => buf ++ [HumanMessage (Chatbot.question inputs);
                                     AIMessage (Chatbot.answer out)])
                 (memory chain) (memories w)
     | Raise _ => memories r.2 = memories w
     end.
Proof.
  cbn zeta. unfold answer_from, bind. rewrite get_relevant_documents_run.
  destruct (similarity_search X _ q _) as [docs|e]; [|done].
  rewrite llm_predict_run.
  destruct (predict_outcome X _) as [answer|e]; done.
Qed.

Lemma llm_predict_frame X self prompt w :
  let r := Chatbot.llm_predict X self prompt w in
  store_ops r.2 = store_ops w /\ memories r.2 = memories w /\ fs_index r.2 = fs_index w.
Proof. cbn zeta. by rewrite llm_predict_run. Qed.

(** What a call of the chain does to the memory. *)
Lemma invoke_memory X chain inputs w :
  match (Chatbot.invoke X chain inputs w).1 with
  | Ok out =>
      memories (Chatbot.invoke X chain inputs w).2
      = alter (fun buf => buf ++ [HumanMessage (Chatbot.question inputs);
                                  AIMessage (Chatbot.answer out)])
              (memory chain) (memories w)
  | Raise _ => memories (Chatbot.invoke X chain inputs w).2 = memories w
  end.
Proof.
  destruct (truthy_str (get_chat_history X (default [] (memories w !! memory chain))))
    eqn:Hhist.
  - rewrite (invoke_later_turn X chain inputs w Hhist). unfold bind.
    destruct (llm_predict_frame X (llm chain)
                (condense_question_prompt X
                   (get_chat_history X (default [] (memories w !! memory chain)))
                   (Chatbot.question inputs)) w) as (_ & Hmem & _).
    cbn zeta in Hmem.
    destruct (Chatbot.llm_predict X (llm chain) _ w) as [[q|e] w1]; cbn [fst snd] in *; [|done].
    destruct (answer_from_effects X chain inputs
                (get_chat_history X (default [] (memories w !! memory chain))) q w1)
      as (_ & Hans).
    cbn zeta in Hans. rewrite Hmem in Hans. exact Hans.
  - rewrite (invoke_first_turn X chain inputs w Hhist).
    by destruct (answer_from_effects X chain inputs
                   (get_chat_history X (default [] (memories w !! memory chain)))
                   (Chatbot.question inputs) w) as (_ & Hans).
Qed.

(** C6: when a call to answer a question fails, whether in the engine's
    [invoke] or in [chat] around it, the memory of the engine is the same
    after the call as before it; the memory changes only when the call
    returns, and then by the question together with its answer. *)
Theorem failed_answer_keeps_history X chain question chat_history w e w' :
  Chatbot.chat X chain question chat_history w = (Raise e, w') ->
  memories w' = memories w
  /\ (forall inputs e1 w1,
        Chatbot.invoke X chain inputs w = (Raise e1, w1) -> memories w1 = memories w)
  /\ (forall a w2,
        Chatbot.chat X chain question chat_history w = (Ok a, w2) ->
        memories w2
        = alter (fun buf => buf ++ [HumanMessage question; AIMessage (Chatbot.chat_answer a)])
                (memory chain) (memories w)).
Proof.
  assert (Hinvoke : forall inputs e1 w1,
             Chatbot.invoke X chain inputs w = (Raise e1, w1) -> memories w1 = memories w).
  { intros inputs e1 w1 Hrun. pose proof (invoke_memory X chain inputs w) as Hmem.
    by rewrite Hrun in Hmem. }
  assert (Hchat : forall r w0,
             Chatbot.chat X chain question chat_history w = (r, w0) ->
             exists inputs, Chatbot.question inputs = question /\
               match r with
               | Ok a => exists out, Chatbot.invoke X chain inputs w = (Ok out, w0)
                                     /\ Chatbot.chat_answer a = Chatbot.answer out
               | Raise e0 => Chatbot.invoke X chain inputs w = (Raise e0, w0)
               end).
  { intros r w0. unfold Chatbot.chat.
    destruct chat_history as [h|]; unfold bind;
      match goal with
      | |- context [Chatbot.invoke X chain ?i w] =>
          intros Hrun; exists i; split; [done|];
          destruct (Chatbot.invoke X chain i w) as [[out|e0] w3]
      end;
      unfold ret in Hrun; injection Hrun as <- <-; eauto. }
  intros Hfail. split; [|split; [exact Hinvoke|]].
  - destruct (Hchat _ _ Hfail) as (inputs & _ & Hrun). by apply (Hinvoke inputs e).
  - intros a w2 Hok. destruct (Hchat _ _ Hok) as (inputs & Hq & out & Hrun & Hans).
    pose proof (invoke_memory X chain inputs w) as Hmem.
    rewrite Hrun in Hmem. cbn [fst snd] in Hmem. by rewrite Hmem, Hq, Hans.
Qed.

(** The endpoint answers 500: the call fails with that status and body,
    and the memory is what it was. *)
Lemma failed_answer_keeps_history_witness :
  let r := Chatbot.chat Demo.down Demo.demo_chain "And of Italy?" None Demo.second_turn in
  r.1 = Raise (ValueError "Groq API error: 500 - Internal Server Error")
  /\ memories r.2 = memories Demo.second_turn.
Proof.
  cbn zeta. split; [vm_compute; reflexivity|].
  refine (proj1 (failed_answer_keeps_history Demo.down Demo.demo_chain "And of Italy?" None
                   Demo.second_turn
                   (ValueError "Groq API error: 500 - Internal Server Error")
                   (Chatbot.chat Demo.down Demo.demo_chain "And of Italy?" None
                      Demo.second_turn).2 _)).
  vm_compute. reflexivity.
Defined.

(** The chain that [create_chatbot] returns, and the world it leaves. *)
Lemma create_chatbot_chain X vs model w0 chain w1 :
  Chatbot.create_chatbot X vs model w0 = (Ok chain, w1) ->
  retriever chain = {| vectorstore := vs; search_k := Config.RETRIEVER_K |}
  /\ memory chain = length (memories w0)
  /\ w1 = set_memories (fun ms => ms ++ [[]]) w0
  /\ truthy_opt truthy_str (GROQ_API_KEY X) = true.
Proof.
  unfold Chatbot.create_chatbot.
  destruct (truthy_opt truthy_str (GROQ_API_KEY X)); cbn [negb]; [|discriminate].
  destruct (Chatbot.GroqChatModel_init X (Some model) (GROQ_API_KEY X) (7 # 10)) as [l|e];
    [|discriminate].
  unfold Chatbot.ConversationBufferMemory, bind, get_world, modify, ret.
  intros Hrun. injection Hrun as <- <-. done.
Qed.

(** C1, as the program has it: a chain made by [create_chatbot] asks the
    index for [RETRIEVER_K] = 3 entries; when the history rendered from its
    memory is empty, it searches for the question as given; when that history
    is not empty, the chain first sends history and question to the model and
    searches for the standalone question the model returns, and it does not
    search at all when that model call fails. *)
Theorem retrieval_query X vs model w0 chain w1 inputs w :
  Chatbot.create_chatbot X vs model w0 = (Ok chain, w1) ->
  let h := get_chat_history X (default [] (memories w !! memory chain)) in
  let r := Chatbot.invoke X chain inputs w in
  Config.RETRIEVER_K = 3
  /\ (truthy_str h = false ->
      store_ops r.2
      = store_ops w ++ [OpSearch (persist_directory vs) (Chatbot.question inputs)
                          Config.RETRIEVER_K])
  /\ (truthy_str h = true ->
      match (Chatbot.llm_predict X (llm chain)
               (condense_question_prompt X h (Chatbot.question inputs)) w).1 with
      | Ok standalone =>
          store_ops r.2
          = store_ops w ++ [OpSearch (persist_directory vs) standalone Config.RETRIEVER_K]
      | Raise _ => store_ops r.2 = store_ops w
      end).
Proof.
  intros Hchain. destruct (create_chatbot_chain _ _ _ _ _ _ Hchain) as (Hret & _).
  cbn zeta. split; [reflexivity|]. split.
  - intros Hempty. rewrite (invoke_first_turn X chain inputs w Hempty).
    destruct (answer_from_effects X chain inputs
                (get_chat_history X (default [] (memories w !! memory chain)))
                (Chatbot.question inputs) w) as (Hops & _).
    cbn zeta in Hops. by rewrite Hops, Hret.
  - intros Hsome. rewrite (invoke_later_turn X chain inputs w Hsome). unfold bind.
    destruct (llm_predict_frame X (llm chain)
                (condense_question_prompt X
                   (get_chat_history X (default [] (memories w !! memory chain)))
                   (Chatbot.question inputs)) w) as (Hops1 & _).
    cbn zeta in Hops1.
    destruct (Chatbot.llm_predict X (llm chain) _ w) as [[q|e] w2]; cbn [fst snd] in *;
      [|done].
    destruct (answer_from_effects X chain inputs
                (get_chat_history X (default [] (memories w !! memory chain))) q w2)
      as (Hops & _).
    cbn zeta in Hops. by rewrite Hops, Hops1, Hret.
Qed.

(** The first turn of a session searches for the question itself. *)
Lemma retrieval_query_witness :
  let r := Chatbot.invoke Demo.up Demo.demo_chain
             {| Chatbot.question := "What is the capital of France?";
                Chatbot.chat_history := None |} Demo.first_turn in
  Chatbot.create_chatbot Demo.up Demo.demo_store Config.GROQ_MODEL Demo.indexed_world
    = (Ok Demo.demo_chain, Demo.first_turn)
  /\ store_ops r.2 = [OpSearch "vector_store" "What is the capital of France?" 3].
Proof.
  cbn zeta.
  assert (Hchain : Chatbot.create_chatbot Demo.up Demo.demo_store Config.GROQ_MODEL
                     Demo.indexed_world = (Ok Demo.demo_chain, Demo.first_turn))
    by (vm_compute; reflexivity).
  split; [exact Hchain|].
  destruct (retrieval_query Demo.up Demo.demo_store Config.GROQ_MODEL Demo.indexed_world
              Demo.demo_chain Demo.first_turn
              {| Chatbot.question := "What is the capital of France?";
                 Chatbot.chat_history := None |} Demo.first_turn Hchain)
    as (_ & Hfirst & _).
  exact (Hfirst eq_refl).
Defined.

(** C1 does not hold as stated: on the second turn of a session the index
    is searched for the standalone question that the model made from the
    history, not for the question the caller gave. *)
Lemma retrieval_query_follows_history :
  ~ (forall X vs model w0 chain w1 inputs w path query k,
       Chatbot.create_chatbot X vs model w0 = (Ok chain, w1) ->
       store_ops (Chatbot.invoke X chain inputs w).2 = store_ops w ++ [OpSearch path query k] ->
       query = Chatbot.question inputs).
Proof.
  intros H.
  specialize (H Demo.up Demo.demo_store Config.GROQ_MODEL Demo.indexed_world
                Demo.demo_chain Demo.first_turn
                {| Chatbot.question := "And of Italy?"; Chatbot.chat_history := None |}
                Demo.second_turn "vector_store" "What is the capital of Italy?" 3).
  assert (Habs : "What is the capital of Italy?" = "And of Italy?"); [|discriminate Habs].
  apply H; vm_compute; reflexivity.
Qed.

(** ** The API *)

(** Opening or building the store leaves the process state, the memories
    and the network alone. *)
Lemma create_vector_store_frame X chunks dir force w :
  let w' := (Loader.create_vector_store X chunks dir force w).2 in
  app_state w' = app_state w /\ memories w' = memories w /\ http_log w' = http_log w.
Proof.
  cbn zeta. create_vector_store_by_cases X chunks dir force w; done.
Qed.

Lemma initialize_rag_system_frame X force w :
  let w' := (Loader.initialize_rag_system X force w).2 in
  app_state w' = app_state w /\ memories w' = memories w /\ http_log w' = http_log w.
Proof.
  cbn zeta. rewrite initialize_rag_system_run. cbn zeta.
  destruct (load_documents_frame X Config.DOCUMENT_DIRECTORY w) as (_ & _ & Hh & Hm & Ha).
  cbn zeta in Hh, Hm, Ha.
  destruct (negb (truthy_list (loaded_records X Config.DOCUMENT_DIRECTORY w)) && force).
  - done.
  - match goal with
    | |- context [Loader.create_vector_store X ?c ?d ?f ?w0] =>
        destruct (create_vector_store_frame X c d f w0) as (Ha' & Hm' & Hh');
        cbn zeta in Ha', Hm', Hh'; rewrite Ha', Hm', Hh'
    end.
    by destruct (truthy_list (loaded_records X Config.DOCUMENT_DIRECTORY w)).
Qed.

(** The one exception the loader lets through is the store's. *)
Lemma initialize_rag_system_raises X force w e :
  (Loader.initialize_rag_system X force w).1 = Raise e -> e = readonly_database X.
Proof.
  rewrite initialize_rag_system_run. cbn zeta.
  destruct (negb (truthy_list (loaded_records X Config.DOCUMENT_DIRECTORY w)) && force);
    [done|].
  match goal with
  | |- context [Loader.create_vector_store X ?c ?d ?f ?w0] =>
      generalize w0; intros w1; generalize c; intros chunks
  end.
  create_vector_store_by_cases X chunks Config.VECTOR_STORE_DIRECTORY force w1;
    cbn [fst]; congruence.
Qed.

(** [create_chatbot] raises before it touches anything, and only for want
    of a key. *)
Lemma create_chatbot_run X vs model w :
  Chatbot.create_chatbot X vs model w
  = match GROQ_API_KEY X with
    | Some key =>
        if truthy_str key then
          (Ok {| llm := {| model_name := if truthy_str model then model else Config.GROQ_MODEL;
                           api_key := key; temperature := 7 # 10;
                           api_base := "https://api.groq.com/openai/v1" |};
                 retriever := {| vectorstore := vs; search_k := Config.RETRIEVER_K |};
                 combine_prompt := Chatbot.custom_prompt;
                 memory := length (memories w);
                 return_source_documents := true |},
           set_memories (fun ms => ms ++ [[]]) w)
        else (Raise (ValueError "GROQ_API_KEY not found. Please set it in your .env file. Get a free key from https://console.groq.com/"), w)
    | None => (Raise (ValueError "GROQ_API_KEY not found. Please set it in your .env file. Get a free key from https://console.groq.com/"), w)
    end.
Proof.
  unfold Chatbot.create_chatbot, Chatbot.GroqChatModel_init, py_or.
  destruct (GROQ_API_KEY X) as [key|]; cbn [truthy_opt negb]; [|done].
  destruct (truthy_str key) eqn:Hkey; cbn [negb]; [|done].
  by destruct (truthy_str model).
Qed.

(** The two ways [initialize_system] ends, by what [initialize_rag_system]
    returns. *)
Lemma initialize_system_no_store X request w w1 :
  Loader.initialize_rag_system X (Api.force_recreate request) w = (Ok None, w1) ->
  Api.initialize_system X request w
  = (Raise (HTTPException 500
       "Initialization failed: Failed to create vector store. Check if documents exist in 'documents' folder."),
     w1).
Proof.
  intros Hrun. unfold Api.initialize_system, try_except, bind. by rewrite Hrun.
Qed.

Lemma initialize_system_store X request w vs w1 :
  Loader.initialize_rag_system X (Api.force_recreate request) w = (Ok (Some vs), w1) ->
  Api.initialize_system X request w
  = match Chatbot.create_chatbot X vs Config.GROQ_MODEL
            (Api.set_vector_store (Some vs) w1).2 with
    | (Ok chain, w2) =>
        (Ok {| Api.init_message := "System initialized successfully"; Api.success := true |},
         (Api.set_initialized true (Api.set_chain (Some chain) w2).2).2)
    | (Raise e, w2) =>
        (Raise (HTTPException 500 ("Initialization failed: " +:+ str_exn e)), w2)
    end.
Proof.
  intros Hrun. unfold Api.initialize_system, try_except, bind. rewrite Hrun.
  cbn [Api.set_vector_store modify fst snd].
  by destruct (Chatbot.create_chatbot X vs Config.GROQ_MODEL _) as [[chain|e] w2].
Qed.

Lemma initialize_system_loader_raises X request w e w1 :
  Loader.initialize_rag_system X (Api.force_recreate request) w = (Raise e, w1) ->
  Api.initialize_system X request w
  = (Raise (HTTPException 500 ("Initialization failed: " +:+ str_exn e)), w1).
Proof.
  intros Hrun. unfold Api.initialize_system, try_except, bind. by rewrite Hrun.
Qed.

Lemma initialize_rag_system_nothing_forced X w :
  loaded_records X Config.DOCUMENT_DIRECTORY w = [] ->
  Loader.initialize_rag_system X true w
  = (Ok None, set_stdout (fun out => out ++ ["No documents found to index."])
                (Loader.load_documents X Config.DOCUMENT_DIRECTORY w).2).
Proof. intros Hnone. rewrite initialize_rag_system_run. cbn zeta. by rewrite Hnone. Qed.

Lemma initialize_rag_system_reuses_index X w :
  loaded_records X Config.DOCUMENT_DIRECTORY w = [] ->
  is_Some (fs_index w !! Config.VECTOR_STORE_DIRECTORY) ->
  Loader.initialize_rag_system X false w
  = (Ok (Some (chroma_handle Config.VECTOR_STORE_DIRECTORY)),
     set_stdout (fun out => out ++
        ["Loading embedding model: " +:+ Config.EMBEDDING_MODEL;
         "Loading existing vector store from " +:+ Config.VECTOR_STORE_DIRECTORY +:+ "...";
         "Vector store loaded successfully."])
       (set_store_ops (fun ops => ops ++ [OpLoad Config.VECTOR_STORE_DIRECTORY])
          (Loader.load_documents X Config.DOCUMENT_DIRECTORY w).2)).
Proof.
  intros Hnone Hsome. rewrite initialize_rag_system_run. cbn zeta. rewrite Hnone.
  cbn [truthy_list negb andb Loader.splitter_split_documents flat_map].
  apply create_vector_store_load.
  destruct (load_documents_frame X Config.DOCUMENT_DIRECTORY w) as (Hidx & _).
  cbn zeta in Hidx. by rewrite Hidx.
Qed.

(** C5, as the program has it: with no loadable documents, an initialize
    request with [force_recreate] fails with an HTTP error whose detail says
    that no vector store could be made; the process state, the persisted
    index and the network are left as they were and the process goes on
    answering.  Without [force_recreate], with a persisted index and with an
    API key configured, the request succeeds on the index that was there,
    which is opened and not changed; with no API key configured it fails at
    the construction of the engine. *)
Theorem initialize_without_documents X w :
  loaded_records X Config.DOCUMENT_DIRECTORY w = [] ->
  (let r := Api.initialize_system X {| Api.force_recreate := true |} w in
   r.1 = Raise (HTTPException 500
           "Initialization failed: Failed to create vector store. Check if documents exist in 'documents' folder.")
   /\ app_state r.2 = app_state w
   /\ fs_index r.2 = fs_index w
   /\ http_log r.2 = http_log w
   /\ (Api.health_check r.2).1
      = Ok {| Api.status := "healthy";
              Api.initialized := st_initialized (app_state w) |})
  /\ (is_Some (fs_index w !! Config.VECTOR_STORE_DIRECTORY) ->
      truthy_opt truthy_str (GROQ_API_KEY X) = true ->
      let r := Api.initialize_system X {| Api.force_recreate := false |} w in
      r.1 = Ok {| Api.init_message := "System initialized successfully";
                  Api.success := true |}
      /\ st_vector_store (app_state r.2) = Some (chroma_handle Config.VECTOR_STORE_DIRECTORY)
      /\ st_initialized (app_state r.2) = true
      /\ (exists chain, st_chain (app_state r.2) = Some chain
            /\ vectorstore (retriever chain) = chroma_handle Config.VECTOR_STORE_DIRECTORY)
      /\ fs_index r.2 = fs_index w
      /\ store_ops r.2 = store_ops w ++ [OpLoad Config.VECTOR_STORE_DIRECTORY])
  /\ (is_Some (fs_index w !! Config.VECTOR_STORE_DIRECTORY) ->
      truthy_opt truthy_str (GROQ_API_KEY X) = false ->
      let r := Api.initialize_system X {| Api.force_recreate := false |} w in
      r.1 = Raise (HTTPException 500
              "Initialization failed: GROQ_API_KEY not found. Please set it in your .env file. Get a free key from https://console.groq.com/")
      /\ st_initialized (app_state r.2) = st_initialized (app_state w)
      /\ fs_index r.2 = fs_index w).
Proof.
  intros Hnone.
  destruct (load_documents_frame X Config.DOCUMENT_DIRECTORY w) as (Hidx & Hops & Hh & Hm & Ha).
  cbn zeta in Hidx, Hops, Hh, Hm, Ha.
  split; [|split].
  - cbn zeta.
    rewrite (initialize_system_no_store X {| Api.force_recreate := true |} w _
               (initialize_rag_system_nothing_forced X w Hnone)).
    cbn [fst snd]. repeat split; try done.
    unfold Api.health_check, bind, get_world, ret. cbn -[Loader.load_documents]. by rewrite Ha.
  - intros Hsome Hkey. cbn zeta.
    rewrite (initialize_system_store X {| Api.force_recreate := false |} w _ _
               (initialize_rag_system_reuses_index X w Hnone Hsome)).
    rewrite create_chatbot_run.
    destruct (GROQ_API_KEY X) as [key|]; [|discriminate Hkey].
    cbn [truthy_opt] in Hkey. rewrite Hkey.
    cbn -[Loader.load_documents]. rewrite Hidx, Hops. repeat split; try done.
    eexists. split; reflexivity.
  - intros Hsome Hkey. cbn zeta.
    rewrite (initialize_system_store X {| Api.force_recreate := false |} w _ _
               (initialize_rag_system_reuses_index X w Hnone Hsome)).
    rewrite create_chatbot_run.
    destruct (GROQ_API_KEY X) as [key|]; cbn [truthy_opt] in Hkey; rewrite ?Hkey;
      cbn -[Loader.load_documents]; by rewrite Hidx, Ha.
Qed.

(** An empty document directory next to an index persisted earlier. *)
Lemma initialize_without_documents_witness :
  let w := Demo.with_documents [] Demo.indexed_world in
  (Api.initialize_system Demo.up {| Api.force_recreate := true |} w).1
    = Raise (HTTPException 500
        "Initialization failed: Failed to create vector store. Check if documents exist in 'documents' folder.")
  /\ (Api.initialize_system Demo.up {| Api.force_recreate := false |} w).1
     = Ok {| Api.init_message := "System initialized successfully"; Api.success := true |}
  /\ fs_index (Api.initialize_system Demo.up {| Api.force_recreate := false |} w).2
     = fs_index w.
Proof.
  cbn zeta.
  destruct (initialize_without_documents Demo.up
              (Demo.with_documents [] Demo.indexed_world) eq_refl)
    as ((Hforce & _) & Hreuse & _).
  destruct (Hreuse ltac:(vm_compute; eauto) eq_refl) as (Hok & _ & _ & _ & Hidx & _).
  auto.
Defined.

(** C5 does not hold as stated: with a persisted index and no documents,
    an initialize request without [force_recreate] still fails when no API
    key is configured. *)
Lemma initialize_needs_api_key :
  ~ (forall X w,
       loaded_records X Config.DOCUMENT_DIRECTORY w = [] ->
       is_Some (fs_index w !! Config.VECTOR_STORE_DIRECTORY) ->
       exists reply,
         (Api.initialize_system X {| Api.force_recreate := false |} w).1 = Ok reply).
Proof.
  intros H.
  destruct (H Demo.no_key (Demo.with_documents [] Demo.indexed_world) eq_refl
              ltac:(vm_compute; eauto)) as (reply & Hok).
  vm_compute in Hok. discriminate Hok.
Qed.

(** A chat request in a process that is not initialised is refused before
    anything else happens. *)
Lemma chat_uninitialised X request w :
  st_initialized (app_state w) = false ->
  Api.chat X request w
  = (Raise (HTTPException 400 "System not initialized. Please call /initialize first."), w).
Proof.
  intros Hinit. unfold Api.chat. erewrite bind_run by reflexivity. by rewrite Hinit.
Qed.

(** Start-up and [initialize_system] either report success or leave the
    [initialized] flag as it was. *)
Lemma try_except_run {A} (body : M A) handler w :
  try_except body handler w
  = match body w with
    | (Ok a, w') => (Ok a, w')
    | (Raise e, w') => handler e w'
    end.
Proof. reflexivity. Qed.

Lemma create_chatbot_raise X vs model w e w' :
  Chatbot.create_chatbot X vs model w = (Raise e, w') -> w' = w.
Proof.
  rewrite create_chatbot_run.
  destruct (GROQ_API_KEY X) as [key|]; [destruct (truthy_str key)|];
    intros Hrun; by injection Hrun.
Qed.

Lemma lifespan_startup_flag X w :
  (Api.lifespan_startup X w).1 = Ok true
  \/ ((Api.lifespan_startup X w).1 = Ok false
      /\ st_initialized (app_state (Api.lifespan_startup X w).2)
         = st_initialized (app_state w)).
Proof.
  unfold Api.lifespan_startup. rewrite try_except_run.
  erewrite bind_run by apply print_run.
  set (w0 := set_stdout _ w).
  pose proof (initialize_rag_system_frame X false w0) as (Ha & _).
  cbn zeta in Ha.
  destruct (Loader.initialize_rag_system X false w0) as [[[vs|]|e] w1] eqn:Hrun;
    cbn [fst snd] in *.
  - rewrite (bind_run _ _ _ _ _ Hrun).
    erewrite bind_run by reflexivity.
    destruct (Chatbot.create_chatbot X vs Config.GROQ_MODEL
                (Api.set_vector_store (Some vs) w1).2) as [[chain|e] w2] eqn:Hchat.
    + rewrite (bind_run _ _ _ _ _ Hchat). by left.
    + rewrite (bind_raise _ _ _ _ _ Hchat). right.
      apply create_chatbot_raise in Hchat as ->. cbn. by rewrite Ha.
  - rewrite (bind_run _ _ _ _ _ Hrun). right. cbn. by rewrite Ha.
  - rewrite (bind_raise _ _ _ _ _ Hrun). right. cbn. by rewrite Ha.
Qed.

Lemma initialize_system_flag X request w :
  (exists reply, (Api.initialize_system X request w).1 = Ok reply)
  \/ ((exists e, (Api.initialize_system X request w).1 = Raise e)
      /\ st_initialized (app_state (Api.initialize_system X request w).2)
         = st_initialized (app_state w)).
Proof.
  pose proof (initialize_rag_system_frame X (Api.force_recreate request) w) as (Ha & _).
  cbn zeta in Ha.
  destruct (Loader.initialize_rag_system X (Api.force_recreate request) w)
    as [[[vs|]|e] w1] eqn:Hrun; cbn [fst snd] in *.
  - rewrite (initialize_system_store X request w vs w1 Hrun), create_chatbot_run.
    destruct (GROQ_API_KEY X) as [key|]; [destruct (truthy_str key)|].
    + left. by eexists.
    + right. cbn. rewrite Ha. split; [by eexists|done].
    + right. cbn. rewrite Ha. split; [by eexists|done].
  - rewrite (initialize_system_no_store X request w w1 Hrun).
    right. cbn. rewrite Ha. split; [by eexists|done].
  - rewrite (initialize_system_loader_raises X request w e w1 Hrun).
    right. cbn. rewrite Ha. split; [by eexists|done].
Qed.

Lemma handle_keeps_uninitialised X c w :
  st_initialized (app_state w) = false ->
  Api.initialised_by (Api.handle X c w).1 = false ->
  st_initialized (app_state (Api.handle X c w).2) = false.
Proof.
  intros Hinit. destruct c as [| | |request|request]; cbn [Api.handle].
  - destruct (lifespan_startup_flag X w) as [Hup|[Hup Hflag]];
      destruct (Api.lifespan_startup X w) as [[b|e] w1]; cbn [fst snd] in *;
      try discriminate; injection Hup as ->; cbn; congruence.
  - done.
  - done.
  - destruct (initialize_system_flag X request w) as [[reply Hup]|[[e Hup] Hflag]];
      destruct (Api.initialize_system X request w) as [[r|e0] w1]; cbn [fst snd] in *;
      try discriminate; cbn; congruence.
  - by rewrite (chat_uninitialised X request w Hinit).
Qed.

Lemma serve_keeps_uninitialised X calls : forall w,
  st_initialized (app_state w) = false ->
  Forall (fun r => Api.initialised_by r = false) (Api.serve X calls w).1 ->
  st_initialized (app_state (Api.serve X calls w).2) = false.
Proof.
  induction calls as [|c calls IH]; intros w Hinit Hreplies; [done|].
  cbn [Api.serve] in *.
  pose proof (handle_keeps_uninitialised X c w Hinit) as Hstep.
  destruct (Api.handle X c w) as [r w1]. cbn [fst snd] in *.
  specialize (IH w1).
  destruct (Api.serve X calls w1) as [rs w2]. cbn [fst snd] in *.
  apply Forall_cons in Hreplies as [Hr Hrs]. by apply IH; [apply Hstep|].
Qed.

(** C8: in a process that starts with the initial [app_state], after any
    sequence of calls none of which reported a successful initialisation
    (start-up included), every chat request is refused with HTTP status 400
    and the detail that the system is not initialised, which no other failure
    of the chat handler has; the world is returned untouched, so no request
    went to the language model. *)
Theorem chat_before_initialization X calls w0 request :
  app_state w0 = Api.initial_app_state ->
  Forall (fun r => Api.initialised_by r = false) (Api.serve X calls w0).1 ->
  let w := (Api.serve X calls w0).2 in
  Api.chat X request w
  = (Raise (HTTPException 400 "System not initialized. Please call /initialize first."), w)
  /\ http_log (Api.chat X request w).2 = http_log w
  /\ (forall request' w' e w'',
        Api.chat X request' w' = (Raise e, w'') ->
        st_initialized (app_state w') = true ->
        st_chain (app_state w') <> None ->
        exists detail, e = HTTPException 500 detail).
Proof.
  intros Hstart Hreplies. cbn zeta.
  assert (Hinit : st_initialized (app_state (Api.serve X calls w0).2) = false).
  { apply serve_keeps_uninitialised; [by rewrite Hstart|done]. }
  rewrite (chat_uninitialised X request _ Hinit). split; [done|]. split; [done|].
  intros request' w' e w'' Hrun Hinit' Hchain. unfold Api.chat in Hrun.
  erewrite bind_run in Hrun by reflexivity. rewrite Hinit' in Hrun.
  destruct (st_chain (app_state w')) as [chain|]; [|done].
  unfold try_except in Hrun.
  match type of Hrun with
  | context [match ?body w' with _ => _ end] => destruct (body w') as [[a|e1] w1]
  end; [discriminate|].
  unfold raise in Hrun. injection Hrun as <- <-. by eexists.
Qed.

(** A process without an API key: start-up and an explicit initialize both
    fail, and the chat request that follows is refused. *)
Lemma chat_before_initialization_witness :
  let calls := [Api.Startup; Api.Initialize {| Api.force_recreate := false |}; Api.Health] in
  let w := (Api.serve Demo.no_key calls Demo.indexed_world).2 in
  Api.chat Demo.no_key
    {| Api.request_question := "What is X?"; Api.request_chat_history := None |} w
  = (Raise (HTTPException 400 "System not initialized. Please call /initialize first."), w)
  /\ http_log w = [].
Proof.
  cbn zeta. split; [|vm_compute; reflexivity].
  refine (proj1 (chat_before_initialization Demo.no_key
                   [Api.Startup; Api.Initialize {| Api.force_recreate := false |}; Api.Health]
                   Demo.indexed_world
                   {| Api.request_question := "What is X?";
                      Api.request_chat_history := None |} eq_refl _)).
  vm_compute. repeat constructor.
Defined.

(** A TXT file listed before a PDF file: the PDF's record still comes
    first. *)
Lemma pdf_records_precede_txt_records_witness :
  exists docs,
    (Loader.load_documents Demo.up "documents"
       (Demo.with_documents [Demo.notes_txt; Demo.manual_pdf] Demo.empty_world)).1 = Ok docs
    /\ map page_content docs = ["%PDF-1.7 manual"; "Paris is in France."].
Proof.
  destruct (pdf_records_precede_txt_records Demo.up "documents"
              (Demo.with_documents [Demo.notes_txt; Demo.manual_pdf] Demo.empty_world))
    as (pdfs & txts & Hload & _ & _ & Hfiles & _).
  destruct (Hfiles [Demo.notes_txt; Demo.manual_pdf] ltac:(vm_compute; reflexivity))
    as (-> & ->).
  eexists. split; [exact Hload|]. vm_compute. reflexivity.
Defined.

(** A whole session through the API: start-up opens the persisted index,
    the first question is searched for as it is, the follow-up is searched
    for as the standalone question the model returned. *)
Example session_store_operations :
  store_ops
    (Api.serve Demo.up
       [Api.Startup;
        Api.Chat {| Api.request_question := "What is the capital of France?";
                    Api.request_chat_history := None |};
        Api.Chat {| Api.request_question := "And of Italy?";
                    Api.request_chat_history := None |}]
       Demo.indexed_world).2
  = [OpLoad "vector_store";
     OpSearch "vector_store" "What is the capital of France?" 3;
     OpSearch "vector_store" "What is the capital of Italy?" 3].
Proof. vm_compute. reflexivity. Qed.

(** The same session against an endpoint that is down: both requests fail
    with the endpoint's status and body, and the memory stays empty. *)
Example session_endpoint_down :
  let r := Api.serve Demo.down
             [Api.Startup;
              Api.Chat {| Api.request_question := "What is the capital of France?";
                          Api.request_chat_history := None |}]
             Demo.indexed_world in
  r.1 = [Api.StartupDone true;
         Api.ChatReply (Raise (HTTPException 500
           "Error generating response: Groq API error: 500 - Internal Server Error"))]
  /\ memories r.2 = [[]]
  /\ length (http_log r.2) = 1.
Proof. vm_compute. repeat split; reflexivity. Qed.

(** ** Which directory entries the loader reads *)

Lemma append_cons a (s t : string) : String a s +:+ t = String a (s +:+ t).
Proof. reflexivity. Qed.

Lemma append_assoc (s t u : string) : (s +:+ t) +:+ u = s +:+ (t +:+ u).
Proof. induction s as [|a s IH]; [done|]. by rewrite !append_cons, IH. Qed.

Lemma append_empty_r (s : string) : s +:+ EmptyString = s.
Proof. induction s as [|a s IH]; [done|]. by rewrite append_cons, IH. Qed.

Lemma rev_app_append s t : String.rev_app s t = String.rev s +:+ t.
Proof.
  unfold String.rev. revert t. induction s as [|a s IH]; intros t; [done|].
  cbn [String.rev_app]. rewrite IH, (IH (String a EmptyString)).
  by rewrite append_assoc.
Qed.

Lemma rev_append s t : String.rev (s +:+ t) = String.rev t +:+ String.rev s.
Proof.
  induction s as [|a s IH].
  - change (EmptyString +:+ t) with t. change (String.rev EmptyString) with EmptyString.
    by rewrite append_empty_r.
  - rewrite append_cons. unfold String.rev at 1 3. cbn [String.rev_app].
    rewrite !rev_app_append, IH. by rewrite append_assoc.
Qed.

Lemma rev_involutive s : String.rev (String.rev s) = s.
Proof.
  induction s as [|a s IH]; [done|].
  unfold String.rev at 2. cbn [String.rev_app]. by rewrite rev_app_append, rev_append, IH.
Qed.

Lemma prefix_append s t : String.prefix s (s +:+ t) = true.
Proof.
  induction s as [|a s IH]; [by destruct t|].
  rewrite append_cons. cbn [String.prefix].
  by destruct (Ascii.ascii_dec a a).
Qed.

Lemma prefix_split s : forall t, String.prefix s t = true -> exists r, t = s +:+ r.
Proof.
  induction s as [|a s IH]; intros t Hp.
  - by exists t.
  - destruct t as [|b t]; cbn [String.prefix] in Hp; [discriminate|].
    destruct (Ascii.ascii_dec a b) as [->|]; [|discriminate].
    destruct (IH t Hp) as (r & ->). by exists r.
Qed.

(** The selection of [glob("*suffix")] is Python's [str.endswith]: an entry
    is read exactly when its name is some text followed by the suffix. *)
Theorem endswith_iff s suffix :
  endswith s suffix = true <-> exists stem, s = stem +:+ suffix.
Proof.
  unfold endswith. split.
  - intros Hp. apply prefix_split in Hp as (r & Hr).
    exists (String.rev r).
    rewrite <- (rev_involutive s), Hr, rev_append, rev_involutive. done.
  - intros (stem & ->). rewrite rev_append. apply prefix_append.
Qed.

(** No entry is read by both loops, so no file is ingested twice: an
    entry that the PDF loop reads is not among those the TXT loop reads. *)
Theorem pdf_and_txt_files_disjoint files f :
  f ∈ pdf_files files -> f ∉ txt_files files.
Proof.
  unfold pdf_files, txt_files. intros Hpdf Htxt.
  apply list_elem_of_filter in Hpdf as [Hpdf _].
  apply list_elem_of_filter in Htxt as [Htxt _].
  unfold endswith in *.
  destruct (String.rev (file_name f)) as [|a r]; [discriminate|].
  change (String.rev ".pdf") with "fdp." in Hpdf.
  change (String.rev ".txt") with "txt." in Htxt.
  cbn [String.prefix] in Hpdf, Htxt.
  match type of Hpdf with
  | context [Ascii.ascii_dec ?c a] =>
      destruct (Ascii.ascii_dec c a) as [<-|]; [|discriminate]
  end.
  vm_compute in Htxt. discriminate.
Qed.

Lemma pdf_and_txt_files_disjoint_witness :
  Demo.manual_pdf ∈ pdf_files [Demo.notes_txt; Demo.manual_pdf]
  /\ Demo.manual_pdf ∉ txt_files [Demo.notes_txt; Demo.manual_pdf].
Proof.
  assert (Hin : Demo.manual_pdf ∈ pdf_files [Demo.notes_txt; Demo.manual_pdf])
    by (vm_compute; apply list_elem_of_here).
  split; [exact Hin|].
  exact (pdf_and_txt_files_disjoint [Demo.notes_txt; Demo.manual_pdf] Demo.manual_pdf Hin).
Defined.

(** ** More on the loader *)

(** First run: a missing document directory is created empty and nothing
    is loaded; the next scan finds the empty directory, loads nothing again
    and leaves the disk as the first scan left it. *)
Theorem load_documents_bootstrap X dir w :
  fs_documents w !! dir = None ->
  let r1 := Loader.load_documents X dir w in
  let r2 := Loader.load_documents X dir r1.2 in
  r1.1 = Ok []
  /\ fs_documents r1.2 = <[dir := []]> (fs_documents w)
  /\ r2.1 = Ok []
  /\ fs_documents r2.2 = fs_documents r1.2
  /\ fs_index r2.2 = fs_index w
  /\ stdout r2.2 = stdout w ++ ["Created document directory at: " +:+ dir;
                                "No documents found in '" +:+ dir +:+ "'."].
Proof.
  intros Hdir. cbn zeta. rewrite (load_documents_absent X dir w Hdir). cbn [fst snd].
  rewrite (load_documents_present X dir _ []); [|cbn; by rewrite lookup_insert_eq].
  cbn. by rewrite <- app_assoc.
Qed.

Lemma load_documents_bootstrap_witness :
  let r1 := Loader.load_documents Demo.up "documents" Demo.empty_world in
  r1.1 = Ok [] /\ fs_documents r1.2 !! "documents" = Some []
  /\ (Loader.load_documents Demo.up "documents" r1.2).1 = Ok [].
Proof.
  cbn zeta.
  destruct (load_documents_bootstrap Demo.up "documents" Demo.empty_world
              ltac:(vm_compute; reflexivity)) as (H1 & H2 & H3 & _).
  split; [exact H1|]. split; [|exact H3].
  rewrite H2. apply lookup_insert_eq.
Defined.

Lemma loaded_record_origin X dir files d :
  d ∈ pdf_records X dir files ++ txt_records X dir files ->
  exists f d0 ty, record_origin X dir files d f d0 ty.
Proof.
  intros Hd. apply elem_of_app in Hd as [Hd|Hd];
    apply elem_of_flat_map in Hd as (f & Hf & Hd);
    apply list_elem_of_filter in Hf as [Hsuffix Hf];
    unfold records_of in Hd;
    match type of Hd with
    | context [match ?l with _ => _ end] => destruct l as [ds|e] eqn:Hload
    end; try (by apply elem_of_nil in Hd);
    apply list_elem_of_fmap in Hd as (d0 & -> & Hd0).
  - exists f, d0, "pdf". split; [done|]. split; [done|]. left. eauto.
  - exists f, d0, "txt". split; [done|]. split; [done|]. right. eauto.
Qed.

(** Every record that [load_documents] returns comes from an entry of the
    directory with the suffix of its type: it has the text the loader gave,
    the entry's bare name as [source] (over the loader's own value), the
    type as [type], and every other metadata key (the page number) as the
    loader gave it. *)
Theorem load_documents_records_traceable X dir w files d :
  fs_documents w !! dir = Some files ->
  d ∈ pdf_records X dir files ++ txt_records X dir files ->
  (Loader.load_documents X dir w).1
    = Ok (pdf_records X dir files ++ txt_records X dir files)
  /\ exists f d0 ty,
       record_origin X dir files d f d0 ty
       /\ page_content d = page_content d0
       /\ metadata d !! "source" = Some (MStr (file_name f))
       /\ metadata d !! "type" = Some (MStr ty)
       /\ forall key, key <> "source" -> key <> "type" ->
            metadata d !! key = metadata d0 !! key.
Proof.
  intros Hdir Hd. split; [by rewrite (load_documents_present X dir w files Hdir)|].
  destruct (loaded_record_origin X dir files d Hd) as (f & d0 & ty & Horigin).
  exists f, d0, ty. split; [exact Horigin|].
  destruct Horigin as (_ & -> & _). unfold Loader.tag_document. cbn.
  split; [done|]. split; [by rewrite lookup_insert_ne, lookup_insert_eq|].
  split; [by rewrite lookup_insert_eq|].
  intros key Hs Ht. by rewrite !lookup_insert_ne.
Qed.

Lemma load_documents_records_traceable_witness :
  let w := Demo.with_documents [Demo.notes_txt; Demo.manual_pdf] Demo.empty_world in
  exists d f d0 ty,
    record_origin Demo.up "documents" [Demo.notes_txt; Demo.manual_pdf] d f d0 ty
    /\ metadata d !! "source" = Some (MStr "manual.pdf")
    /\ metadata d !! "page" = metadata d0 !! "page".
Proof.
  cbn zeta.
  destruct (load_documents_records_traceable Demo.up "documents"
              (Demo.with_documents [Demo.notes_txt; Demo.manual_pdf] Demo.empty_world)
              [Demo.notes_txt; Demo.manual_pdf]
              (Loader.tag_document "manual.pdf" "pdf"
                 {| page_content := "%PDF-1.7 manual";
                    metadata := <["page" := MInt 0]>
                                  (<["source" := MStr "documents/manual.pdf"]> ∅) |})
              ltac:(vm_compute; reflexivity)
              ltac:(vm_compute; apply list_elem_of_here))
    as (_ & f & d0 & ty & Horigin & _ & Hsource & _ & Hkeys).
  eexists _, f, d0, ty. split; [exact Horigin|].
  split; [reflexivity|]. by apply Hkeys.
Defined.

Lemma filter_supported_pdf files :
  pdf_files (filter (fun f => supported f = true) files) = pdf_files files.
Proof.
  unfold pdf_files, supported. rewrite list_filter_filter.
  apply list_filter_iff. intros f. split; [by intros [? _]|].
  intros Hpdf. split; [done|]. by rewrite Hpdf.
Qed.

Lemma filter_supported_txt files :
  txt_files (filter (fun f => supported f = true) files) = txt_files files.
Proof.
  unfold txt_files, supported. rewrite list_filter_filter.
  apply list_filter_iff. intros f. split; [by intros [? _]|].
  intros Htxt. split; [done|]. rewrite Htxt. apply orb_true_r.
Qed.

(** Entries whose name ends neither in [.pdf] nor in [.txt] do not matter:
    the scan returns and prints the same as on the directory without
    them. *)
Theorem load_documents_ignores_other_files X dir w files :
  fs_documents w !! dir = Some files ->
  let w0 := set_fs_documents (<[dir := filter (fun f => supported f = true) files]>) w in
  (Loader.load_documents X dir w0).1 = (Loader.load_documents X dir w).1
  /\ stdout (Loader.load_documents X dir w0).2 = stdout (Loader.load_documents X dir w).2.
Proof.
  intros Hdir. cbn zeta.
  rewrite (load_documents_present X dir w files Hdir).
  rewrite (load_documents_present X dir _ (filter (fun f => supported f = true) files));
    [|cbn; by rewrite lookup_insert_eq].
  unfold load_log, pdf_records, txt_records.
  by rewrite !filter_supported_pdf, !filter_supported_txt.
Qed.

Lemma load_documents_ignores_other_files_witness :
  let readme := {| file_name := "README.md"; file_bytes := "# notes" |} in
  (Loader.load_documents Demo.up "documents"
     (Demo.with_documents [Demo.notes_txt] Demo.empty_world)).1
  = (Loader.load_documents Demo.up "documents"
       (Demo.with_documents [readme; Demo.notes_txt] Demo.empty_world)).1.
Proof.
  cbn zeta.
  destruct (load_documents_ignores_other_files Demo.up "documents"
              (Demo.with_documents [{| file_name := "README.md"; file_bytes := "# notes" |};
                                    Demo.notes_txt] Demo.empty_world)
              [{| file_name := "README.md"; file_bytes := "# notes" |}; Demo.notes_txt]
              ltac:(vm_compute; reflexivity)) as (Hres & _).
  rewrite <- Hres. vm_compute. reflexivity.
Defined.

(** ** More on the vector store *)

(** Build, then open: after an index was built from chunks in a directory
    that had none, by a process that held no client on it, a call without
    [force_recreate] returns the same handle and finds exactly those
    chunks, whatever chunks it is given. *)
Theorem build_then_load X chunks chunks' dir force w :
  fs_index w !! dir = None ->
  chunks <> [] ->
  holds_client dir (store_ops w) = false ->
  let r1 := Loader.create_vector_store X chunks dir force w in
  let r2 := Loader.create_vector_store X chunks' dir false r1.2 in
  r1.1 = Ok (Some (chroma_handle dir))
  /\ r2.1 = r1.1
  /\ fs_index r1.2 !! dir = Some chunks
  /\ fs_index r2.2 = fs_index r1.2
  /\ store_ops r2.2 = store_ops w ++ [OpFromDocuments dir chunks; OpLoad dir].
Proof.
  intros Hdir Hne Hfree. cbn zeta.
  rewrite (create_vector_store_build X chunks dir force w Hdir Hne Hfree). cbn [fst snd].
  rewrite create_vector_store_load; [|cbn; rewrite lookup_insert_eq; eauto].
  cbn. rewrite lookup_insert_eq, <- app_assoc. done.
Qed.

Lemma build_then_load_witness :
  let r1 := Loader.create_vector_store Demo.up [Demo.old_entry] "vector_store" false
              Demo.empty_world in
  let r2 := Loader.create_vector_store Demo.up [] "vector_store" false r1.2 in
  r2.1 = Ok (Some (chroma_handle "vector_store"))
  /\ fs_index r2.2 !! "vector_store" = Some [Demo.old_entry].
Proof.
  cbn zeta.
  destruct (build_then_load Demo.up [Demo.old_entry] [] "vector_store" false Demo.empty_world
              ltac:(vm_compute; reflexivity) ltac:(discriminate)
              ltac:(vm_compute; reflexivity))
    as (H1 & H2 & H3 & H4 & _).
  split; [by rewrite H2, H1|]. by rewrite H4, H3.
Defined.

(** A forced rebuild works once in a process.  In a process that holds no
    client on the directory, [force_recreate] with chunks leaves exactly
    those chunks in the directory, whatever it held before.  The process
    then holds the client: a second forced rebuild removes the index that
    the first one built, raises on the build and leaves no index. *)
Theorem forced_rebuild_works_once X chunks chunks' dir w :
  chunks <> [] ->
  chunks' <> [] ->
  holds_client dir (store_ops w) = false ->
  let r1 := Loader.create_vector_store X chunks dir true w in
  let r2 := Loader.create_vector_store X chunks' dir true r1.2 in
  r1.1 = Ok (Some (chroma_handle dir))
  /\ fs_index r1.2 = <[dir := chunks]> (fs_index w)
  /\ r2.1 = Raise (readonly_database X)
  /\ fs_index r2.2 = delete dir (fs_index w)
  /\ exists removed,
       store_ops r2.2 = store_ops w ++ removed ++ [OpFromDocuments dir chunks; OpRmtree dir]
       /\ (removed = [] \/ removed = [OpRmtree dir]).
Proof.
  intros Hne Hne' Hfree. cbn zeta.
  assert (H1 : exists removed,
             (Loader.create_vector_store X chunks dir true w).1 = Ok (Some (chroma_handle dir))
             /\ fs_index (Loader.create_vector_store X chunks dir true w).2
                = <[dir := chunks]> (fs_index w)
             /\ store_ops (Loader.create_vector_store X chunks dir true w).2
                = store_ops w ++ removed ++ [OpFromDocuments dir chunks]
             /\ (removed = [] \/ removed = [OpRmtree dir])).
  { destruct (fs_index w !! dir) as [entries|] eqn:Hdir.
    - exists [OpRmtree dir].
      rewrite create_vector_store_recreate by (rewrite ?Hdir; eauto).
      cbn. rewrite insert_delete_eq. auto.
    - exists [].
      rewrite (create_vector_store_build X chunks dir true w Hdir Hne Hfree). cbn. auto. }
  destruct H1 as (removed & Hres & Hidx & Hops & Hremoved).
  split; [done|]. split; [done|].
  rewrite create_vector_store_recreate_stale;
    [|rewrite Hidx, lookup_insert_eq; eauto|done
     |rewrite Hops, app_assoc; apply holds_client_from_documents].
  cbn [fst snd set_stdout set_fs_index set_store_ops fs_index store_ops].
  rewrite Hidx, Hops, delete_insert_eq. split; [done|]. split; [done|].
  exists removed. split; [|done]. by rewrite <- !app_assoc.
Qed.

Lemma forced_rebuild_works_once_witness :
  let w := Demo.with_index "vector_store" [Demo.old_entry; Demo.old_entry] Demo.empty_world in
  let r1 := Loader.create_vector_store Demo.up [Demo.old_entry] "vector_store" true w in
  let r2 := Loader.create_vector_store Demo.up [Demo.old_entry] "vector_store" true r1.2 in
  fs_index r1.2 !! "vector_store" = Some [Demo.old_entry]
  /\ r2.1 = Raise (readonly_database Demo.up)
  /\ fs_index r2.2 !! "vector_store" = None.
Proof.
  cbn zeta.
  destruct (forced_rebuild_works_once Demo.up [Demo.old_entry] [Demo.old_entry] "vector_store"
              (Demo.with_index "vector_store" [Demo.old_entry; Demo.old_entry]
                 Demo.empty_world)
              ltac:(discriminate) ltac:(discriminate) ltac:(vm_compute; reflexivity))
    as (_ & H2 & H3 & H4 & _).
  split; [rewrite H2; apply lookup_insert_eq|]. split; [exact H3|].
  rewrite H4. apply lookup_delete_eq.
Defined.

(** ** The ingestion pipeline *)

(** Unless it stops for want of documents, [initialize_rag_system] is
    [create_vector_store] on the split of what was loaded, in a world whose
    index and store operations are those it started with. *)
Lemma initialize_rag_system_via_store X force w :
  negb (truthy_list (loaded_records X Config.DOCUMENT_DIRECTORY w)) && force = false ->
  exists w0,
    fs_index w0 = fs_index w /\ store_ops w0 = store_ops w
    /\ Loader.initialize_rag_system X force w
       = Loader.create_vector_store X (indexed_chunks X w) Config.VECTOR_STORE_DIRECTORY
           force w0.
Proof.
  intros Hgo. rewrite initialize_rag_system_run. cbn zeta. rewrite Hgo.
  destruct (load_documents_frame X Config.DOCUMENT_DIRECTORY w) as (Hidx & Hops & _).
  cbn zeta in Hidx, Hops.
  eexists. split; [|split; [|reflexivity]];
    by destruct (truthy_list (loaded_records X Config.DOCUMENT_DIRECTORY w)).
Qed.

Lemma indexed_chunks_nonempty X w :
  indexed_chunks X w <> [] -> truthy_list (loaded_records X Config.DOCUMENT_DIRECTORY w) = true.
Proof.
  unfold indexed_chunks. by destruct (loaded_records X Config.DOCUMENT_DIRECTORY w).
Qed.

Lemma initialize_rag_system_store_cases X force w :
  ((Loader.initialize_rag_system X force w).1
     = Ok (Some (chroma_handle Config.VECTOR_STORE_DIRECTORY))
   <-> (force = false /\ is_Some (fs_index w !! Config.VECTOR_STORE_DIRECTORY))
       \/ (indexed_chunks X w <> []
           /\ holds_client Config.VECTOR_STORE_DIRECTORY (store_ops w) = false))
  /\ ((Loader.initialize_rag_system X force w).1 = Ok None
      <-> ~ ((force = false /\ is_Some (fs_index w !! Config.VECTOR_STORE_DIRECTORY))
             \/ indexed_chunks X w <> []))
  /\ ((Loader.initialize_rag_system X force w).1 = Raise (readonly_database X)
      <-> ~ (force = false /\ is_Some (fs_index w !! Config.VECTOR_STORE_DIRECTORY))
          /\ indexed_chunks X w <> []
          /\ holds_client Config.VECTOR_STORE_DIRECTORY (store_ops w) = true).
Proof.
  destruct (negb (truthy_list (loaded_records X Config.DOCUMENT_DIRECTORY w)) && force)
    eqn:Hgo.
  - (* nothing loaded and force_recreate *)
    apply andb_true_iff in Hgo as [Hnone ->].
    assert (Hchunks : indexed_chunks X w = []).
    { unfold indexed_chunks.
      by destruct (loaded_records X Config.DOCUMENT_DIRECTORY w). }
    rewrite initialize_rag_system_run. cbn zeta. rewrite Hnone. cbn [andb fst].
    rewrite Hchunks. split; [|split]; split; try done.
    + intros [[Habs _]|[Habs _]]; done.
    + intros _ [[Habs _]|Habs]; done.
    + intros (_ & Habs & _). done.
  - destruct (initialize_rag_system_via_store X force w Hgo) as (w0 & Hidx & Hops & ->).
    rewrite <- Hidx, <- Hops.
    generalize (indexed_chunks X w). intros chunks.
    create_vector_store_by_cases X chunks Config.VECTOR_STORE_DIRECTORY force w0;
      cbn [fst]; (split; [|split]); split; try done.
    + intros [[Habs _]|[Habs _]]; done.
    + intros _ [[Habs _]|Habs]; done.
    + intros (_ & Habs & _). done.
    + intros [[Habs _]|[_ Habs]]; done.
    + intros Habs. destruct Habs. by right.
    + intros _. split; [by intros [Habs _]|done].
    + intros _. right. done.
    + intros Habs. destruct Habs. by right.
    + intros (_ & _ & Habs). done.
    + intros _. by left.
    + intros Habs. destruct Habs. by left.
    + intros (Habs & _). by destruct Habs.
    + intros [[_ [x Habs]]|[Habs _]]; done.
    + intros _ [[_ [x Habs]]|Habs]; done.
    + intros (_ & Habs & _). done.
    + intros [[_ [x Habs]]|[_ Habs]]; done.
    + intros Habs. destruct Habs. by right.
    + intros _. split; [by intros [_ [x Habs]]|done].
    + intros _. right. done.
    + intros Habs. destruct Habs. by right.
    + intros (_ & _ & Habs). done.
Qed.

(** What [initialize_rag_system] comes back with.  A store, the handle of
    the configured directory: exactly when a persisted index is reused (no
    [force_recreate], index present) or the documents give at least one
    chunk and the process holds no client on the directory.  [None]:
    exactly when no index is reused and the documents give no chunk.  The
    store's exception: exactly when no index is reused, the documents give
    chunks and the process holds the client. *)
Theorem initialize_rag_system_returns_store_iff X force w :
  ((Loader.initialize_rag_system X force w).1
     = Ok (Some (chroma_handle Config.VECTOR_STORE_DIRECTORY))
   <-> (force = false /\ is_Some (fs_index w !! Config.VECTOR_STORE_DIRECTORY))
       \/ (indexed_chunks X w <> []
           /\ holds_client Config.VECTOR_STORE_DIRECTORY (store_ops w) = false))
  /\ ((Loader.initialize_rag_system X force w).1 = Ok None
      <-> ~ ((force = false /\ is_Some (fs_index w !! Config.VECTOR_STORE_DIRECTORY))
             \/ indexed_chunks X w <> []))
  /\ ((Loader.initialize_rag_system X force w).1 = Raise (readonly_database X)
      <-> ~ (force = false /\ is_Some (fs_index w !! Config.VECTOR_STORE_DIRECTORY))
          /\ indexed_chunks X w <> []
          /\ holds_client Config.VECTOR_STORE_DIRECTORY (store_ops w) = true).
Proof. apply initialize_rag_system_store_cases. Qed.

(** Without [force_recreate], a persisted index wins over the documents:
    it is opened and left as it is, and what is in the document directory,
    new files included, is loaded and split but not added to it. *)
Theorem initialize_keeps_existing_index X w :
  is_Some (fs_index w !! Config.VECTOR_STORE_DIRECTORY) ->
  let r := Loader.initialize_rag_system X false w in
  r.1 = Ok (Some (chroma_handle Config.VECTOR_STORE_DIRECTORY))
  /\ fs_index r.2 = fs_index w
  /\ store_ops r.2 = store_ops w ++ [OpLoad Config.VECTOR_STORE_DIRECTORY].
Proof.
  intros Hsome. cbn zeta.
  destruct (initialize_rag_system_via_store X false w) as (w0 & Hidx & Hops & ->);
    [apply andb_false_r|].
  rewrite create_vector_store_load by (by rewrite Hidx).
  cbn. by rewrite Hidx, Hops.
Qed.

Lemma initialize_keeps_existing_index_witness :
  let w := Demo.with_documents [Demo.notes_txt] Demo.indexed_world in
  let r := Loader.initialize_rag_system Demo.up false w in
  loaded_records Demo.up "documents" w <> []
  /\ fs_index r.2 !! "vector_store" = Some [Demo.old_entry].
Proof.
  cbn zeta. split; [vm_compute; discriminate|].
  destruct (initialize_keeps_existing_index Demo.up
              (Demo.with_documents [Demo.notes_txt] Demo.indexed_world)
              ltac:(vm_compute; eauto)) as (_ & Hidx & _).
  rewrite Hidx. vm_compute. reflexivity.
Defined.

Lemma initialize_rag_system_builds X force w :
  indexed_chunks X w <> [] ->
  force = true \/ fs_index w !! Config.VECTOR_STORE_DIRECTORY = None ->
  holds_client Config.VECTOR_STORE_DIRECTORY (store_ops w) = false ->
  let r := Loader.initialize_rag_system X force w in
  r.1 = Ok (Some (chroma_handle Config.VECTOR_STORE_DIRECTORY))
  /\ fs_index r.2 = <[Config.VECTOR_STORE_DIRECTORY := indexed_chunks X w]> (fs_index w)
  /\ store_ops r.2
     = store_ops w
       ++ (if bool_decide (is_Some (fs_index w !! Config.VECTOR_STORE_DIRECTORY))
           then [OpRmtree Config.VECTOR_STORE_DIRECTORY] else [])
       ++ [OpFromDocuments Config.VECTOR_STORE_DIRECTORY (indexed_chunks X w)].
Proof.
  intros Hne Hwhen Hfree. cbn zeta.
  destruct (initialize_rag_system_via_store X force w) as (w0 & Hidx & Hops & ->).
  { by rewrite (indexed_chunks_nonempty X w Hne). }
  destruct (fs_index w !! Config.VECTOR_STORE_DIRECTORY) as [entries|] eqn:Hdir.
  - destruct Hwhen as [->|Habs]; [|discriminate].
    rewrite create_vector_store_recreate by (rewrite ?Hidx, ?Hdir, ?Hops; eauto).
    rewrite bool_decide_eq_true_2 by eauto.
    cbn. by rewrite Hidx, Hops, insert_delete_eq.
  - rewrite create_vector_store_build by (by rewrite ?Hidx, ?Hops).
    rewrite bool_decide_eq_false_2 by (by intros [? ?]).
    cbn. by rewrite Hidx, Hops.
Qed.

(** The same call in a process that holds the client of the configured
    directory: the persisted index, if any, is removed, the build raises
    and no index is left. *)
Lemma initialize_rag_system_stale X force w :
  indexed_chunks X w <> [] ->
  force = true \/ fs_index w !! Config.VECTOR_STORE_DIRECTORY = None ->
  holds_client Config.VECTOR_STORE_DIRECTORY (store_ops w) = true ->
  let r := Loader.initialize_rag_system X force w in
  r.1 = Raise (readonly_database X)
  /\ fs_index r.2 = delete Config.VECTOR_STORE_DIRECTORY (fs_index w)
  /\ store_ops r.2
     = store_ops w
       ++ (if bool_decide (is_Some (fs_index w !! Config.VECTOR_STORE_DIRECTORY))
           then [OpRmtree Config.VECTOR_STORE_DIRECTORY] else []).
Proof.
  intros Hne Hwhen Hheld. cbn zeta.
  destruct (initialize_rag_system_via_store X force w) as (w0 & Hidx & Hops & ->).
  { by rewrite (indexed_chunks_nonempty X w Hne). }
  destruct (fs_index w !! Config.VECTOR_STORE_DIRECTORY) as [entries|] eqn:Hdir.
  - destruct Hwhen as [->|Habs]; [|discriminate].
    rewrite create_vector_store_recreate_stale by (rewrite ?Hidx, ?Hdir, ?Hops; eauto).
    rewrite bool_decide_eq_true_2 by eauto.
    cbn. by rewrite Hidx, Hops.
  - rewrite create_vector_store_build_stale by (by rewrite ?Hidx, ?Hops).
    rewrite bool_decide_eq_false_2 by (by intros [? ?]).
    cbn. by rewrite Hidx, Hops, app_nil_r, delete_id.
Qed.

(** When the documents give chunks, either [force_recreate] is set or no
    index is persisted, and the process holds no client on the configured
    directory, the persisted index afterwards is exactly those chunks, in
    order: entries persisted before are gone, not merged. *)
Theorem initialize_builds_exact_index X force w :
  indexed_chunks X w <> [] ->
  force = true \/ fs_index w !! Config.VECTOR_STORE_DIRECTORY = None ->
  holds_client Config.VECTOR_STORE_DIRECTORY (store_ops w) = false ->
  let r := Loader.initialize_rag_system X force w in
  r.1 = Ok (Some (chroma_handle Config.VECTOR_STORE_DIRECTORY))
  /\ fs_index r.2 = <[Config.VECTOR_STORE_DIRECTORY := indexed_chunks X w]> (fs_index w)
  /\ store_ops r.2
     = store_ops w
       ++ (if bool_decide (is_Some (fs_index w !! Config.VECTOR_STORE_DIRECTORY))
           then [OpRmtree Config.VECTOR_STORE_DIRECTORY] else [])
       ++ [OpFromDocuments Config.VECTOR_STORE_DIRECTORY (indexed_chunks X w)].
Proof. apply initialize_rag_system_builds. Qed.

Lemma initialize_builds_exact_index_witness :
  let w := Demo.with_documents [Demo.notes_txt] Demo.indexed_world in
  let r := Loader.initialize_rag_system Demo.up true w in
  map page_content <$> fs_index r.2 !! "vector_store" = Some ["Paris is in France."].
Proof.
  cbn zeta.
  destruct (initialize_builds_exact_index Demo.up true
              (Demo.with_documents [Demo.notes_txt] Demo.indexed_world)
              ltac:(vm_compute; discriminate) ltac:(by left)
              ltac:(vm_compute; reflexivity)) as (_ & Hidx & _).
  rewrite Hidx, lookup_insert_eq. vm_compute. reflexivity.
Defined.

(** [force_recreate] removes the persisted index before it is known that
    there is anything to put in its place: when documents load but give no
    chunk, the old index is deleted, nothing is built and [None] comes
    back. *)
Theorem force_recreate_without_chunks_drops_index X w :
  loaded_records X Config.DOCUMENT_DIRECTORY w <> [] ->
  indexed_chunks X w = [] ->
  is_Some (fs_index w !! Config.VECTOR_STORE_DIRECTORY) ->
  let r := Loader.initialize_rag_system X true w in
  r.1 = Ok None
  /\ fs_index r.2 = delete Config.VECTOR_STORE_DIRECTORY (fs_index w)
  /\ store_ops r.2 = store_ops w ++ [OpRmtree Config.VECTOR_STORE_DIRECTORY].
Proof.
  intros Hloaded Hchunks Hsome. cbn zeta.
  destruct (initialize_rag_system_via_store X true w) as (w0 & Hidx & Hops & ->).
  { by destruct (loaded_records X Config.DOCUMENT_DIRECTORY w). }
  rewrite Hchunks, create_vector_store_recreate_empty by (by rewrite Hidx).
  cbn. by rewrite Hidx, Hops.
Qed.

(** An empty text file is a document with no chunk. *)
Lemma force_recreate_without_chunks_drops_index_witness :
  let w := Demo.with_documents [{| file_name := "empty.txt"; file_bytes := EmptyString |}]
             Demo.indexed_world in
  let r := Loader.initialize_rag_system Demo.up true w in
  fs_index w !! "vector_store" = Some [Demo.old_entry]
  /\ r.1 = Ok None
  /\ fs_index r.2 !! "vector_store" = None.
Proof.
  cbn zeta.
  destruct (force_recreate_without_chunks_drops_index Demo.up
              (Demo.with_documents [{| file_name := "empty.txt"; file_bytes := EmptyString |}]
                 Demo.indexed_world)
              ltac:(vm_compute; discriminate) ltac:(vm_compute; reflexivity)
              ltac:(vm_compute; eauto)) as (Hres & Hidx & _).
  split; [vm_compute; reflexivity|]. split; [exact Hres|].
  rewrite Hidx. apply lookup_delete_eq.
Defined.

(** Every entry of an index that [initialize_rag_system] builds traces to a
    file of the document directory: its metadata name that file as [source]
    and the file's kind as [type], and its text is a piece of a record that
    the file's loader returned.  The index holds exactly those entries when
    the process held no client on the configured directory. *)
Theorem index_entries_trace_to_files X force w files entry :
  fs_documents w !! Config.DOCUMENT_DIRECTORY = Some files ->
  indexed_chunks X w <> [] ->
  force = true \/ fs_index w !! Config.VECTOR_STORE_DIRECTORY = None ->
  (holds_client Config.VECTOR_STORE_DIRECTORY (store_ops w) = false ->
   fs_index (Loader.initialize_rag_system X force w).2 !! Config.VECTOR_STORE_DIRECTORY
     = Some (indexed_chunks X w))
  /\ (entry ∈ indexed_chunks X w ->
      exists d f d0 ty,
        record_origin X Config.DOCUMENT_DIRECTORY files d f d0 ty
        /\ metadata entry = metadata d
        /\ page_content entry
             ∈ split_text X Config.CHUNK_SIZE Config.CHUNK_OVERLAP (page_content d0)
        /\ metadata entry !! "source" = Some (MStr (file_name f))
        /\ metadata entry !! "type" = Some (MStr ty)).
Proof.
  intros Hdir Hne Hwhen. split.
  { intros Hfree.
    destruct (initialize_rag_system_builds X force w Hne Hwhen Hfree) as (_ & Hidx & _).
    cbn zeta in Hidx. by rewrite Hidx, lookup_insert_eq. }
  intros Hentry. unfold indexed_chunks, Loader.splitter_split_documents in Hentry.
  apply elem_of_flat_map in Hentry as (d & Hd & Hentry).
  apply list_elem_of_fmap in Hentry as (piece & -> & Hpiece).
  unfold loaded_records in Hd. rewrite Hdir in Hd.
  destruct (loaded_record_origin X _ files d Hd) as (f & d0 & ty & Horigin).
  exists d, f, d0, ty. split; [exact Horigin|]. cbn.
  destruct Horigin as (_ & -> & _). cbn in *.
  split; [done|]. split; [done|].
  split; [by rewrite lookup_insert_ne, lookup_insert_eq|by rewrite lookup_insert_eq].
Qed.

Lemma index_entries_trace_to_files_witness :
  let w := Demo.with_documents [Demo.notes_txt; Demo.broken_pdf] Demo.empty_world in
  exists entry,
    fs_index (Loader.initialize_rag_system Demo.up false w).2 !! "vector_store"
      = Some [entry]
    /\ metadata entry !! "source" = Some (MStr "notes.txt")
    /\ metadata entry !! "type" = Some (MStr "txt").
Proof.
  cbn zeta.
  destruct (index_entries_trace_to_files Demo.up false
              (Demo.with_documents [Demo.notes_txt; Demo.broken_pdf] Demo.empty_world)
              [Demo.notes_txt; Demo.broken_pdf]
              (Loader.tag_document "notes.txt" "txt"
                 {| page_content := "Paris is in France.";
                    metadata := <["source" := MStr "documents/notes.txt"]> ∅ |})
              ltac:(vm_compute; reflexivity) ltac:(vm_compute; discriminate)
              ltac:(right; vm_compute; reflexivity)) as (Hidx & _).
  exists (Loader.tag_document "notes.txt" "txt"
            {| page_content := "Paris is in France.";
               metadata := <["source" := MStr "documents/notes.txt"]> ∅ |}).
  split; [etransitivity; [exact (Hidx ltac:(vm_compute; reflexivity))|]|split];
    vm_compute; reflexivity.
Defined.

(** ** More on the language-model adapter *)

(** Only status 200 counts: every other status, the other success statuses
    such as 201 and 204 included, makes the call raise the error that names
    status and body, after the one request. *)
Theorem generate_rejects_every_status_but_200 X self messages stop w r :
  server X (http_log w) (sent_request self messages stop) = Responded r ->
  status_code r <> 200%Z ->
  Chatbot._generate X self messages stop w
  = (Raise (ValueError ("Groq API error: " +:+ pretty (status_code r)
                        +:+ " - " +:+ text r)),
     set_http_log (fun log => log ++ [sent_request self messages stop]) w).
Proof.
  intros Hserver Hstatus. rewrite _generate_run, Hserver. unfold generate_outcome.
  by rewrite bool_decide_eq_false_2.
Qed.

Lemma generate_rejects_every_status_but_200_witness :
  (Chatbot._generate (Demo.externals (Some "gsk_demo") 201 "Created") Demo.demo_llm
     [HumanMessage "Hello"] None Demo.empty_world).1
  = Raise (ValueError "Groq API error: 201 - Created")
  /\ is_success 201 = true.
Proof.
  split; [|reflexivity].
  rewrite (generate_rejects_every_status_but_200
             (Demo.externals (Some "gsk_demo") 201 "Created") Demo.demo_llm
             [HumanMessage "Hello"] None Demo.empty_world
             {| status_code := 201; text := "Created" |} eq_refl ltac:(discriminate)).
  reflexivity.
Defined.

(** With status 200 the call returns one generation, an assistant message
    holding the completion's content; when the body has no such content the
    error of reading it comes out as it is.  One request either way. *)
Theorem generate_returns_completion X self messages stop w r :
  server X (http_log w) (sent_request self messages stop) = Responded r ->
  status_code r = 200%Z ->
  let out := Chatbot._generate X self messages stop w in
  http_log out.2 = http_log w ++ [sent_request self messages stop]
  /\ (forall content, completion_content X (text r) = Ok content ->
        out.1 = Ok {| Chatbot.generations :=
                        [ {| Chatbot.message := AIMessage content |} ] |})
  /\ (forall e, completion_content X (text r) = Raise e -> out.1 = Raise e).
Proof.
  intros Hserver Hstatus. cbn zeta. rewrite _generate_run, Hserver.
  unfold generate_outcome. rewrite bool_decide_eq_true_2 by done.
  split; [done|]. split.
  - by intros content ->.
  - by intros e ->.
Qed.

Lemma generate_returns_completion_witness :
  (Chatbot._generate Demo.up Demo.demo_llm [HumanMessage "Capital of France?"] None
     Demo.empty_world).1
  = Ok {| Chatbot.generations := [ {| Chatbot.message := AIMessage "Paris" |} ] |}.
Proof.
  exact (proj1 (proj2 (generate_returns_completion Demo.up Demo.demo_llm
                         [HumanMessage "Capital of France?"] None Demo.empty_world
                         {| status_code := 200; text := "Paris" |} eq_refl eq_refl))
           "Paris" eq_refl).
Defined.

(** A transport failure of the request (a timeout, a refused connection)
    is not caught: the same error leaves [_generate], after that one request
    and no second try. *)
Theorem generate_transport_failure X self messages stop w e :
  server X (http_log w) (sent_request self messages stop) = Failed e ->
  Chatbot._generate X self messages stop w
  = (Raise e, set_http_log (fun log => log ++ [sent_request self messages stop]) w).
Proof. intros Hserver. by rewrite _generate_run, Hserver. Qed.

Lemma generate_transport_failure_witness :
  let X := {| GROQ_API_KEY := Some "gsk_demo";
              PyPDFLoader_load := Demo.pdf_loader;
              TextLoader_load := Demo.text_loader;
              split_text := Demo.one_piece;
              similarity_search := Demo.first_k;
              server := fun _ _ => Failed (LibraryError "ReadTimeout" "Read timed out.");
              completion_content := fun body => Ok body;
              get_chat_history := Demo.render_history;
              condense_question_prompt := Demo.condense;
              format_documents := Demo.join_documents;
              parse_int := fun _ => None;
              readonly_database_message := "attempt to write a readonly database" |} in
  let r := Chatbot._generate X Demo.demo_llm [HumanMessage "Hello"] None Demo.empty_world in
  r.1 = Raise (LibraryError "ReadTimeout" "Read timed out.")
  /\ length (http_log r.2) = 1.
Proof.
  cbn zeta.
  match goal with
  | |- (Chatbot._generate ?X _ _ _ _).1 = _ /\ _ =>
      rewrite (generate_transport_failure X Demo.demo_llm [HumanMessage "Hello"] None
                 Demo.empty_world (LibraryError "ReadTimeout" "Read timed out.") eq_refl)
  end.
  split; reflexivity.
Defined.

(** What goes on the wire: one request to [api_base/chat/completions] with
    the key as bearer token, the model's name and temperature, one wire
    message for each message in the same order with its content unchanged,
    and a [stop] entry exactly when a non-empty stop list was given. *)
Theorem generate_request_shape X self messages stop w :
  exists req,
    http_log (Chatbot._generate X self messages stop w).2 = http_log w ++ [req]
    /\ req_url req = api_base self +:+ "/chat/completions"
    /\ ("Authorization", "Bearer " +:+ api_key self) ∈ req_headers req
    /\ payload_model (req_json req) = model_name self
    /\ payload_temperature (req_json req) = temperature self
    /\ length (payload_messages (req_json req)) = length messages
    /\ (forall i msg, messages !! i = Some msg ->
          exists wire, payload_messages (req_json req) !! i = Some wire
                       /\ wire_content wire = Chatbot.message_content msg)
    /\ (payload_stop (req_json req) = None <-> stop = None \/ stop = Some [])
    /\ (forall l, stop = Some l -> l <> [] -> payload_stop (req_json req) = Some l).
Proof.
  rewrite _generate_run. exists (sent_request self messages stop). cbn.
  split; [done|]. split; [done|]. split; [apply list_elem_of_here|].
  split; [done|]. split; [done|]. split; [apply length_map|].
  split; [|split].
  - intros i msg Hi. exists (Chatbot.format_message msg).
    split; [by rewrite list_lookup_fmap, Hi|by destruct msg].
  - destruct stop as [[|s l]|]; cbn; split; try done; auto.
    intros [Habs|Habs]; discriminate.
  - intros l -> Hl. by destruct l.
Qed.

(** ** Building the engine *)

(** Without a key (unset, or set to the empty string) [create_chatbot]
    raises its error before doing anything: no memory is made and nothing
    else in the world changes. *)
Theorem create_chatbot_without_key X vs model w :
  GROQ_API_KEY X = None \/ GROQ_API_KEY X = Some EmptyString ->
  Chatbot.create_chatbot X vs model w
  = (Raise (ValueError "GROQ_API_KEY not found. Please set it in your .env file. Get a free key from https://console.groq.com/"), w).
Proof.
  intros Hkey. rewrite create_chatbot_run. by destruct Hkey as [->| ->].
Qed.

Lemma create_chatbot_without_key_witness :
  (Chatbot.create_chatbot (Demo.externals (Some EmptyString) 200 "Paris") Demo.demo_store
     Config.GROQ_MODEL Demo.indexed_world).2 = Demo.indexed_world.
Proof.
  by rewrite (create_chatbot_without_key (Demo.externals (Some EmptyString) 200 "Paris")
                Demo.demo_store Config.GROQ_MODEL Demo.indexed_world
                ltac:(right; reflexivity)).
Defined.

(** With a key, [create_chatbot] returns an engine that retrieves from the
    store it was given, [RETRIEVER_K] entries at a time, with temperature
    0.7 and the given model name, and that owns a new, empty memory: the
    memory sits at a location no earlier engine has, the memories of earlier
    engines are untouched, and no request or store operation is made. *)
Theorem create_chatbot_fresh_memory X vs model w key :
  GROQ_API_KEY X = Some key ->
  key <> EmptyString ->
  exists chain,
    Chatbot.create_chatbot X vs model w
      = (Ok chain, set_memories (fun ms => ms ++ [[]]) w)
    /\ vectorstore (retriever chain) = vs
    /\ search_k (retriever chain) = Config.RETRIEVER_K
    /\ api_key (llm chain) = key
    /\ temperature (llm chain) = (7 # 10)%Q
    /\ (model <> EmptyString -> model_name (llm chain) = model)
    /\ (model = EmptyString -> model_name (llm chain) = Config.GROQ_MODEL)
    /\ memories w !! memory chain = None
    /\ (memories w ++ [[]]) !! memory chain = Some []
    /\ forall i buf, memories w !! i = Some buf ->
         (memories w ++ [[]]) !! i = Some buf.
Proof.
  intros Hkey Hne. rewrite create_chatbot_run, Hkey.
  assert (Htruthy : truthy_str key = true) by (by destruct key).
  rewrite Htruthy. eexists. split; [reflexivity|]. cbn.
  split; [done|]. split; [done|]. split; [done|]. split; [done|].
  split; [by destruct model|]. split; [by intros ->|].
  split; [by apply lookup_ge_None_2|].
  split.
  - rewrite lookup_app_r by done. by rewrite Nat.sub_diag.
  - intros i buf Hi. by apply lookup_app_l_Some.
Qed.

Lemma create_chatbot_fresh_memory_witness :
  exists chain,
    (Chatbot.create_chatbot Demo.up Demo.demo_store Config.GROQ_MODEL Demo.second_turn).1
      = Ok chain
    /\ memory chain = 1
    /\ memories (Chatbot.create_chatbot Demo.up Demo.demo_store Config.GROQ_MODEL
                   Demo.second_turn).2
       = [[HumanMessage "What is the capital of France?"; AIMessage "Paris"]; []].
Proof.
  destruct (create_chatbot_fresh_memory Demo.up Demo.demo_store Config.GROQ_MODEL
              Demo.second_turn "gsk_demo" eq_refl ltac:(discriminate))
    as (chain & Hrun & _).
  exists chain. rewrite Hrun. cbn [fst snd].
  split; [reflexivity|].
  split; [|reflexivity].
  pose proof (create_chatbot_chain _ _ _ _ _ _ Hrun) as (_ & Hmem & _).
  exact Hmem.
Defined.

(** ** More on the conversational chain *)

(** What a returning [answer_from] did: one search, one request with the
    filled prompt, whose completion is the answer. *)
Lemma answer_from_ok X chain inputs h q w out w' :
  answer_from X chain inputs h q w = (Ok out, w') ->
  exists docs,
    similarity_search X
      (default [] (fs_index w !! persist_directory (vectorstore (retriever chain))))
      q (search_k (retriever chain)) = Ok docs
    /\ Chatbot.source_documents out
       = (if return_source_documents chain then Some docs else None)
    /\ http_log w'
       = http_log w
         ++ [sent_request (llm chain)
               [HumanMessage (combine_prompt chain (format_documents X docs) h q)] None]
    /\ predict_outcome X
         (server X (http_log w)
            (sent_request (llm chain)
               [HumanMessage (combine_prompt chain (format_documents X docs) h q)] None))
       = Ok (Chatbot.answer out)
    /\ app_state w' = app_state w.
Proof.
  unfold answer_from, bind. rewrite get_relevant_documents_run.
  destruct (similarity_search X _ q _) as [docs|e]; [|discriminate].
  rewrite llm_predict_run.
  cbn [set_store_ops http_log].
  destruct (predict_outcome X _) as [answer|e] eqn:Hpredict; [|discriminate].
  unfold modify, ret. intros Hrun. injection Hrun as <- <-.
  exists docs. by cbn.
Qed.

Lemma answer_from_frame X chain inputs h q w :
  app_state (answer_from X chain inputs h q w).2 = app_state w
  /\ length (memories (answer_from X chain inputs h q w).2) = length (memories w)
  /\ fs_index (answer_from X chain inputs h q w).2 = fs_index w.
Proof.
  unfold answer_from, bind. rewrite get_relevant_documents_run.
  destruct (similarity_search X _ q _) as [docs|e]; [|done].
  rewrite llm_predict_run.
  destruct (predict_outcome X _) as [answer|e]; [|done].
  cbn. by rewrite length_alter.
Qed.

(** A call of the chain leaves the process state and the index alone and
    keeps every memory in its place. *)
Lemma invoke_frame X chain inputs w :
  app_state (Chatbot.invoke X chain inputs w).2 = app_state w
  /\ length (memories (Chatbot.invoke X chain inputs w).2) = length (memories w)
  /\ fs_index (Chatbot.invoke X chain inputs w).2 = fs_index w.
Proof.
  destruct (truthy_str (get_chat_history X (default [] (memories w !! memory chain))))
    eqn:Hhist.
  - rewrite (invoke_later_turn X chain inputs w Hhist). unfold bind.
    rewrite llm_predict_run.
    destruct (predict_outcome X _) as [q|e]; [|done].
    match goal with
    | |- context [answer_from X chain inputs ?h q ?w1] =>
        destruct (answer_from_frame X chain inputs h q w1) as (Ha & Hm & Hi)
    end.
    by rewrite Ha, Hm, Hi.
  - rewrite (invoke_first_turn X chain inputs w Hhist). apply answer_from_frame.
Qed.

(** The prompt of the answering call.  For an engine made by
    [create_chatbot], an answer that comes back was completed from one user
    message: the template of [custom_prompt] filled with the retrieved
    documents, the rendered history and the question that was searched for.
    On an empty history that question is the caller's and the answering call
    is the only request; otherwise it is the second of two. *)
Theorem answer_prompt X vs model w0 chain w1 inputs w out w' :
  Chatbot.create_chatbot X vs model w0 = (Ok chain, w1) ->
  Chatbot.invoke X chain inputs w = (Ok out, w') ->
  let h := get_chat_history X (default [] (memories w !! memory chain)) in
  exists docs searched earlier,
    Chatbot.source_documents out = Some docs
    /\ store_ops w' = store_ops w ++ [OpSearch (persist_directory vs) searched
                                       Config.RETRIEVER_K]
    /\ http_log w'
       = http_log w ++ earlier
         ++ [sent_request (llm chain)
               [HumanMessage (Chatbot.custom_prompt (format_documents X docs) h searched)]
               None]
    /\ (truthy_str h = false -> earlier = [] /\ searched = Chatbot.question inputs)
    /\ (truthy_str h = true ->
        earlier = [sent_request (llm chain)
                     [HumanMessage (condense_question_prompt X h (Chatbot.question inputs))]
                     None]).
Proof.
  intros Hchain Hrun. cbn zeta.
  assert (Hcfg : retriever chain = {| vectorstore := vs; search_k := Config.RETRIEVER_K |}
                 /\ combine_prompt chain = Chatbot.custom_prompt
                 /\ return_source_documents chain = true).
  { rewrite create_chatbot_run in Hchain.
    destruct (GROQ_API_KEY X) as [key|]; [destruct (truthy_str key)|];
      try discriminate.
    by injection Hchain as <- <-. }
  destruct Hcfg as (Hret & Hprompt & Hsrc).
  destruct (truthy_str (get_chat_history X (default [] (memories w !! memory chain))))
    eqn:Hhist.
  - rewrite (invoke_later_turn X chain inputs w Hhist) in Hrun. unfold bind in Hrun.
    rewrite llm_predict_run in Hrun.
    destruct (predict_outcome X _) as [q|e]; [|discriminate].
    match type of Hrun with
    | answer_from _ _ _ ?h0 _ ?w2 = _ =>
        destruct (answer_from_effects X chain inputs h0 q w2) as (Hops & _)
    end.
    cbn zeta in Hops. rewrite Hrun in Hops. cbn [fst snd set_http_log store_ops] in Hops.
    apply answer_from_ok in Hrun as (docs & _ & Hdocs & Hlog & _).
    exists docs, q. eexists.
    rewrite Hsrc in Hdocs. rewrite Hret in Hops. rewrite Hprompt in Hlog.
    split; [done|]. split; [exact Hops|].
    split; [|split; [done|]].
    + rewrite Hlog. cbn [set_http_log http_log]. by rewrite <- app_assoc.
    + by intros _.
  - rewrite (invoke_first_turn X chain inputs w Hhist) in Hrun.
    destruct (answer_from_effects X chain inputs
                (get_chat_history X (default [] (memories w !! memory chain)))
                (Chatbot.question inputs) w) as (Hops & _).
    cbn zeta in Hops. rewrite Hrun in Hops. cbn [fst snd] in Hops.
    apply answer_from_ok in Hrun as (docs & _ & Hdocs & Hlog & _).
    exists docs, (Chatbot.question inputs), [].
    rewrite Hsrc in Hdocs. rewrite Hret in Hops. rewrite Hprompt in Hlog.
    split; [done|]. split; [exact Hops|]. split; [exact Hlog|].
    split; [done|]. discriminate.
Qed.

Lemma answer_prompt_witness :
  let inputs := {| Chatbot.question := "And of Italy?"; Chatbot.chat_history := None |} in
  let r := Chatbot.invoke Demo.up Demo.demo_chain inputs Demo.second_turn in
  length (http_log r.2) = 2
  /\ store_ops r.2 = [OpSearch "vector_store" "What is the capital of Italy?" 3].
Proof.
  cbn zeta.
  destruct (Chatbot.invoke Demo.up Demo.demo_chain
              {| Chatbot.question := "And of Italy?"; Chatbot.chat_history := None |}
              Demo.second_turn) as [[out|e] w'] eqn:Hrun; [|vm_compute in Hrun; discriminate].
  destruct (answer_prompt Demo.up Demo.demo_store Config.GROQ_MODEL Demo.indexed_world
              Demo.demo_chain Demo.first_turn _ Demo.second_turn out w'
              ltac:(vm_compute; reflexivity) Hrun)
    as (docs & searched & earlier & _ & Hops & Hlog & _ & Hlater).
  rewrite (Hlater eq_refl) in Hlog. cbn [snd]. split; [by rewrite Hlog|].
  vm_compute in Hrun. by injection Hrun as <- <-.
Defined.

(** ** More on the API *)

Lemma SourceDocument_init_ok X src content pg ty s :
  Api.SourceDocument_init X src content pg ty = Ok s ->
  Api.source_page_content s = content
  /\ src = MStr (Api.source s)
  /\ ty = MStr (default EmptyString (Api.type s))
  /\ Api.type s <> None
  /\ (pg = None -> Api.page s = None)
  /\ (forall n, pg = Some (MInt n) -> Api.page s = Some n).
Proof.
  unfold Api.SourceDocument_init.
  destruct src as [name|]; [|discriminate]. destruct ty as [t|]; [|discriminate].
  destruct pg as [[digits|n]|].
  - destruct (parse_int X digits); [|discriminate]. intros Hs. injection Hs as <-. by cbn.
  - intros Hs. injection Hs as <-. cbn. repeat split; try done. by intros ? [= ->].
  - intros Hs. injection Hs as <-. by cbn.
Qed.

Lemma format_sources_length X docs : forall formatted,
  Api.format_sources X docs = Ok formatted -> length formatted = length docs.
Proof.
  induction docs as [|doc0 docs IH]; intros formatted Hfmt.
  - by injection Hfmt as <-.
  - cbn [Api.format_sources] in Hfmt.
    destruct (Api.SourceDocument_init X _ _ _ _) as [s0|e]; [|discriminate].
    destruct (Api.format_sources X docs) as [ss|e]; [|discriminate].
    injection Hfmt as <-. cbn. by rewrite (IH ss).
Qed.

(** The sources of a reply: one for each retrieved document, in retrieval
    order, with the document's text; the [source] of the metadata, or
    ["Unknown"] when the metadata has none; the [type], or ["unknown"]; and
    the [page], or none. *)
Theorem format_sources_defaults X docs formatted :
  Api.format_sources X docs = Ok formatted ->
  length formatted = length docs
  /\ forall i doc s, docs !! i = Some doc -> formatted !! i = Some s ->
       Api.source_page_content s = page_content doc
       /\ (metadata doc !! "source" = None -> Api.source s = "Unknown")
       /\ (forall name, metadata doc !! "source" = Some (MStr name) -> Api.source s = name)
       /\ (metadata doc !! "type" = None -> Api.type s = Some "unknown")
       /\ (forall t, metadata doc !! "type" = Some (MStr t) -> Api.type s = Some t)
       /\ (metadata doc !! "page" = None -> Api.page s = None)
       /\ (forall n, metadata doc !! "page" = Some (MInt n) -> Api.page s = Some n).
Proof.
  revert formatted. induction docs as [|doc0 docs IH]; intros formatted Hfmt.
  - injection Hfmt as <-. split; [done|]. intros i doc s Hi. by rewrite lookup_nil in Hi.
  - cbn [Api.format_sources] in Hfmt.
    destruct (Api.SourceDocument_init X _ _ _ _) as [s0|e] eqn:Hinit; [|discriminate].
    destruct (Api.format_sources X docs) as [ss|e]; [|discriminate].
    injection Hfmt as <-. destruct (IH ss eq_refl) as (Hlen & Hrest).
    split; [cbn; by rewrite Hlen|].
    intros [|i] doc s Hi Hs; [|by apply (Hrest i)].
    injection Hi as <-. injection Hs as <-.
    apply SourceDocument_init_ok in Hinit as (Hcontent & Hsrc & Hty & Hsome & Hnopage & Hpage).
    split; [done|]. repeat split.
    + intros Hnone. rewrite Hnone in Hsrc. cbn in Hsrc. by injection Hsrc as <-.
    + intros name Hname. rewrite Hname in Hsrc. cbn in Hsrc. by injection Hsrc as <-.
    + intros Hnone. rewrite Hnone in Hty. cbn in Hty.
      destruct (Api.type s0) as [t|]; [|done]. cbn in Hty. by injection Hty as <-.
    + intros t Ht. rewrite Ht in Hty. cbn in Hty.
      destruct (Api.type s0) as [t0|]; [|done]. cbn in Hty. by injection Hty as <-.
    + exact Hnopage.
    + exact Hpage.
Qed.

Lemma format_sources_defaults_witness :
  exists s,
    Api.format_sources Demo.up
      [ {| page_content := "No metadata here."; metadata := ∅ |} ] = Ok [s]
    /\ Api.source s = "Unknown" /\ Api.type s = Some "unknown" /\ Api.page s = None.
Proof.
  destruct (Api.format_sources Demo.up [ {| page_content := "No metadata here.";
                                            metadata := ∅ |} ])
    as [[|s [|s' ss]]|e] eqn:Hfmt; try (vm_compute in Hfmt; discriminate).
  destruct (format_sources_defaults Demo.up _ _ Hfmt) as (_ & Hfields).
  destruct (Hfields 0 _ s eq_refl eq_refl) as (_ & Hsrc & _ & Hty & _ & Hpg & _).
  exists s. split; [reflexivity|]. split; [by apply Hsrc|]. split; [by apply Hty|].
  by apply Hpg.
Defined.

(** The inputs that the chat handler passes to the chain. *)
Lemma chat_run X request w chain :
  st_initialized (app_state w) = true ->
  st_chain (app_state w) = Some chain ->
  Api.chat X request w
  = match Chatbot.invoke X chain
            {| Chatbot.question := Api.request_question request;
               Chatbot.chat_history :=
                 if truthy_opt truthy_list (Api.request_chat_history request)
                 then Api.request_chat_history request else None |} w with
    | (Ok result, w1) =>
        match Api.format_sources X (default [] (Chatbot.source_documents result)) with
        | Ok formatted =>
            (Ok {| Api.response_answer := Chatbot.answer result;
                   Api.sources := formatted |}, w1)
        | Raise e =>
            (Raise (HTTPException 500 ("Error generating response: " +:+ str_exn e)), w1)
        end
    | (Raise e, w1) =>
        (Raise (HTTPException 500 ("Error generating response: " +:+ str_exn e)), w1)
    end.
Proof.
  intros Hinit Hchain. unfold Api.chat. erewrite bind_run by reflexivity.
  rewrite Hinit, Hchain. rewrite try_except_run. unfold bind.
  destruct (Chatbot.invoke X chain _ w) as [[result|e] w1]; [|done].
  by destruct (Api.format_sources X _).
Qed.

(** The chat handler changes neither the process state nor the index, and
    keeps every memory in its place. *)
Lemma chat_frame X request w :
  app_state (Api.chat X request w).2 = app_state w
  /\ length (memories (Api.chat X request w).2) = length (memories w)
  /\ fs_index (Api.chat X request w).2 = fs_index w.
Proof.
  destruct (st_initialized (app_state w)) eqn:Hinit.
  - destruct (st_chain (app_state w)) as [chain|] eqn:Hchain.
    + rewrite (chat_run X request w chain Hinit Hchain).
      match goal with
      | |- context [Chatbot.invoke X chain ?i w] =>
          pose proof (invoke_frame X chain i w) as Hframe;
          destruct (Chatbot.invoke X chain i w) as [[result|e] w1]
      end; cbn [fst snd] in *; [|done].
      by destruct (Api.format_sources X _).
    + unfold Api.chat. erewrite bind_run by reflexivity. by rewrite Hinit, Hchain.
  - by rewrite (chat_uninitialised X request w Hinit).
Qed.

(** A failure of the engine inside the chat handler reaches the client as
    HTTP 500 with the error's text after a fixed prefix, so the status and
    body of a failed model call are in the reply; the conversation memory
    and the process state are as before the request. *)
Theorem chat_failure_is_http_500 X request w chain inputs e w1 :
  st_initialized (app_state w) = true ->
  st_chain (app_state w) = Some chain ->
  inputs = {| Chatbot.question := Api.request_question request;
              Chatbot.chat_history :=
                if truthy_opt truthy_list (Api.request_chat_history request)
                then Api.request_chat_history request else None |} ->
  Chatbot.invoke X chain inputs w = (Raise e, w1) ->
  Api.chat X request w
  = (Raise (HTTPException 500 ("Error generating response: " +:+ str_exn e)), w1)
  /\ memories w1 = memories w
  /\ app_state w1 = app_state w.
Proof.
  intros Hinit Hchain -> Hrun. rewrite (chat_run X request w chain Hinit Hchain), Hrun.
  split; [done|].
  match type of Hrun with
  | Chatbot.invoke _ _ ?i _ = _ =>
      pose proof (invoke_memory X chain i w) as Hmem;
      pose proof (invoke_frame X chain i w) as (Hstate & _)
  end.
  rewrite Hrun in Hmem, Hstate. done.
Qed.

(** A successful chat request answers with the chain's answer and one
    source for each retrieved document, and it adds exactly the question and
    that answer to the engine's memory. *)
Theorem chat_success_records_turn X request w chain response w1 :
  st_initialized (app_state w) = true ->
  st_chain (app_state w) = Some chain ->
  Api.chat X request w = (Ok response, w1) ->
  memories w1
    = alter (fun buf => buf ++ [HumanMessage (Api.request_question request);
                                AIMessage (Api.response_answer response)])
            (memory chain) (memories w)
  /\ app_state w1 = app_state w
  /\ exists inputs result,
       Chatbot.invoke X chain inputs w = (Ok result, w1)
       /\ Api.response_answer response = Chatbot.answer result
       /\ length (Api.sources response)
          = length (default [] (Chatbot.source_documents result)).
Proof.
  intros Hinit Hchain. rewrite (chat_run X request w chain Hinit Hchain).
  match goal with
  | |- context [Chatbot.invoke X chain ?i w] =>
      pose proof (invoke_memory X chain i w) as Hmem;
      pose proof (invoke_frame X chain i w) as (Hstate & _);
      destruct (Chatbot.invoke X chain i w) as [[result|e] w2] eqn:Hrun
  end; cbn [fst snd] in *; [|discriminate].
  destruct (Api.format_sources X _) as [formatted|e] eqn:Hfmt; [|discriminate].
  intros Hok. injection Hok as <- <-. cbn.
  split; [exact Hmem|]. split; [exact Hstate|].
  eexists _, result. split; [exact Hrun|]. split; [done|].
  by apply (format_sources_length X).
Qed.

Lemma chat_failure_is_http_500_witness :
  let request := {| Api.request_question := "What is the capital of France?";
                    Api.request_chat_history := None |} in
  let inputs := {| Chatbot.question := "What is the capital of France?";
                   Chatbot.chat_history := None |} in
  Api.chat Demo.down request Demo.serving
  = (Raise (HTTPException 500
              "Error generating response: Groq API error: 500 - Internal Server Error"),
     (Chatbot.invoke Demo.down Demo.demo_chain inputs Demo.serving).2)
  /\ memories (Chatbot.invoke Demo.down Demo.demo_chain inputs Demo.serving).2
     = memories Demo.serving.
Proof.
  cbn zeta.
  destruct (chat_failure_is_http_500 Demo.down
              {| Api.request_question := "What is the capital of France?";
                 Api.request_chat_history := None |}
              Demo.serving Demo.demo_chain
              {| Chatbot.question := "What is the capital of France?";
                 Chatbot.chat_history := None |}
              (ValueError "Groq API error: 500 - Internal Server Error")
              (Chatbot.invoke Demo.down Demo.demo_chain
                 {| Chatbot.question := "What is the capital of France?";
                    Chatbot.chat_history := None |} Demo.serving).2
              eq_refl eq_refl eq_refl ltac:(vm_compute; reflexivity))
    as (Hchat & Hmem & _).
  split; [exact Hchat|exact Hmem].
Defined.

Lemma chat_success_records_turn_witness :
  let request := {| Api.request_question := "What is the capital of France?";
                    Api.request_chat_history := None |} in
  exists response w1,
    Api.chat Demo.up request Demo.serving = (Ok response, w1)
    /\ memories w1
       = alter (fun buf => buf ++ [HumanMessage "What is the capital of France?";
                                   AIMessage (Api.response_answer response)])
               0 (memories Demo.serving).
Proof.
  cbn zeta.
  destruct (Api.chat Demo.up
              {| Api.request_question := "What is the capital of France?";
                 Api.request_chat_history := None |} Demo.serving)
    as [[response|e] w1] eqn:Hchat; [|vm_compute in Hchat; discriminate].
  exists response, w1. split; [reflexivity|].
  exact (proj1 (chat_success_records_turn Demo.up _ Demo.serving Demo.demo_chain
                  response w1 eq_refl eq_refl Hchat)).
Defined.

(** ** The life of the process *)

(** Start-up, step by step: it never raises. *)
Lemma lifespan_startup_run X w :
  Api.lifespan_startup X w
  = match Loader.initialize_rag_system X false
            (set_stdout (fun out => out ++
               ["Starting up... Attempting to load existing vector store."]) w) with
    | (Ok (Some vs), w1) =>
        match Chatbot.create_chatbot X vs Config.GROQ_MODEL
                (Api.set_vector_store (Some vs) w1).2 with
        | (Ok chain, w2) =>
            (Ok true,
             set_stdout (fun out => out ++ ["Startup initialization successful."])
               (Api.set_initialized true (Api.set_chain (Some chain) w2).2).2)
        | (Raise e, w2) =>
            (Ok false,
             set_stdout (fun out => out ++
               ["Startup initialization failed (non-critical): " +:+ str_exn e;
                "System will need explicit initialization via /initialize endpoint."]) w2)
        end
    | (Ok None, w1) =>
        (Ok false,
         set_stdout (fun out => out ++
           ["No vector store found or created. System needs initialization."]) w1)
    | (Raise e, w1) =>
        (Ok false,
         set_stdout (fun out => out ++
           ["Startup initialization failed (non-critical): " +:+ str_exn e;
            "System will need explicit initialization via /initialize endpoint."]) w1)
    end.
Proof.
  unfold Api.lifespan_startup. rewrite try_except_run.
  erewrite bind_run by apply print_run.
  set (w0 := set_stdout _ w).
  destruct (Loader.initialize_rag_system X false w0) as [[[vs|]|e] w1] eqn:Hrun.
  - rewrite (bind_run _ _ _ _ _ Hrun). erewrite bind_run by reflexivity.
    destruct (Chatbot.create_chatbot X vs Config.GROQ_MODEL
                (Api.set_vector_store (Some vs) w1).2) as [[chain|e] w2] eqn:Hchat.
    + rewrite (bind_run _ _ _ _ _ Hchat). reflexivity.
    + rewrite (bind_raise _ _ _ _ _ Hchat). by world_simpl.
  - rewrite (bind_run _ _ _ _ _ Hrun). reflexivity.
  - rewrite (bind_raise _ _ _ _ _ Hrun). by world_simpl.
Qed.

Lemma create_chatbot_ok X vs model w chain w' :
  Chatbot.create_chatbot X vs model w = (Ok chain, w') ->
  vectorstore (retriever chain) = vs
  /\ search_k (retriever chain) = Config.RETRIEVER_K
  /\ memory chain = length (memories w)
  /\ w' = set_memories (fun ms => ms ++ [[]]) w
  /\ truthy_opt truthy_str (GROQ_API_KEY X) = true.
Proof.
  intros Hrun. destruct (create_chatbot_chain _ _ _ _ _ _ Hrun) as (Hret & Hmem & Hw & Hkey).
  by rewrite Hret.
Qed.

Lemma initialize_system_ok X request w reply w' :
  Api.initialize_system X request w = (Ok reply, w') ->
  initialised_state X w w'
  /\ (exists vs, (Loader.initialize_rag_system X (Api.force_recreate request) w).1
                 = Ok (Some vs))
  /\ fs_index w' = fs_index (Loader.initialize_rag_system X (Api.force_recreate request) w).2.
Proof.
  pose proof (initialize_rag_system_frame X (Api.force_recreate request) w) as (Ha & Hm & _).
  cbn zeta in Ha, Hm.
  destruct (Loader.initialize_rag_system X (Api.force_recreate request) w)
    as [[[vs|]|e] w1] eqn:Hrun; cbn [fst snd] in *.
  - rewrite (initialize_system_store X request w vs w1 Hrun).
    destruct (Chatbot.create_chatbot X vs Config.GROQ_MODEL _) as [[chain|e] w2] eqn:Hchat;
      [|discriminate].
    intros Hok. injection Hok as <- <-.
    apply create_chatbot_ok in Hchat as (Hvs & Hk & Hmem & -> & Hkey).
    cbn in *. split; [|split; [eexists; reflexivity|reflexivity]].
    exists vs, chain. cbn. by rewrite Hmem, Hm.
  - by rewrite (initialize_system_no_store X request w w1 Hrun).
  - unfold Api.initialize_system. rewrite try_except_run.
    by rewrite (bind_raise _ _ _ _ _ Hrun).
Qed.

Lemma lifespan_startup_ok X w w' :
  Api.lifespan_startup X w = (Ok true, w') -> initialised_state X w w'.
Proof.
  rewrite lifespan_startup_run.
  match goal with
  | |- context [Loader.initialize_rag_system X false ?w0] =>
      pose proof (initialize_rag_system_frame X false w0) as (Ha & Hm & _);
      destruct (Loader.initialize_rag_system X false w0) as [[[vs|]|e] w1]
  end; cbn [fst snd] in *; try discriminate.
  destruct (Chatbot.create_chatbot X vs Config.GROQ_MODEL _) as [[chain|e] w2] eqn:Hchat;
    [|discriminate].
  intros Hok. injection Hok as <-.
  apply create_chatbot_ok in Hchat as (Hvs & Hk & Hmem & -> & Hkey).
  cbn in *. exists vs, chain. cbn. by rewrite Hmem, Hm.
Qed.

Lemma lifespan_startup_never_raises X w e : (Api.lifespan_startup X w).1 <> Raise e.
Proof.
  rewrite lifespan_startup_run.
  destruct (Loader.initialize_rag_system X false _) as [[[vs|]|e0] w1]; try done.
  by destruct (Chatbot.create_chatbot X vs Config.GROQ_MODEL _) as [[chain|e1] w2].
Qed.

(** One call's effect on the [initialized] flag is what its reply says. *)
Lemma handle_flag X c w :
  st_initialized (app_state (Api.handle X c w).2)
  = flag_step (st_initialized (app_state w)) (Api.handle X c w).1.
Proof.
  destruct c as [| | |request|request]; cbn [Api.handle].
  - pose proof (lifespan_startup_never_raises X w) as Hnever.
    destruct (lifespan_startup_flag X w) as [Hup|[Hup Hflag]];
      destruct (Api.lifespan_startup X w) as [[b|e] w1] eqn:Hrun; cbn [fst snd] in *;
      try (by destruct (Hnever e)); injection Hup as ->.
    + destruct (lifespan_startup_ok X w w1 Hrun) as (vs & chain & Hstate & _).
      by rewrite Hstate.
    + exact Hflag.
  - done.
  - done.
  - destruct (Api.initialize_system X request w) as [[reply|e] w1] eqn:Hrun.
    + destruct (initialize_system_ok X request w reply w1 Hrun)
        as ((vs & chain & Hstate & _) & _).
      cbn. by rewrite Hstate.
    + destruct (initialize_system_flag X request w) as [[reply Hup]|[_ Hflag]];
        rewrite Hrun in *; cbn [fst snd] in *; [discriminate|exact Hflag].
  - destruct (chat_frame X request w) as (Hstate & _).
    destruct (Api.chat X request w) as [r w1]. cbn [fst snd] in *. by rewrite Hstate.
Qed.

(** The [initialized] flag after any run of the server is decided by the
    replies alone: it is set by the last successful initialisation (start-up
    or initialize request) that no shut-down followed, and a failed
    initialize request, a chat request or a health check never changes it.
    So the flag of a process that was initialised stays set through failed
    attempts to initialise it again, whatever those attempts did to the
    persisted index. *)
Theorem serve_initialized_flag X calls : forall w,
  st_initialized (app_state (Api.serve X calls w).2)
  = flag_after (Api.serve X calls w).1 (st_initialized (app_state w)).
Proof.
  induction calls as [|c calls IH]; intros w; [done|].
  cbn [Api.serve].
  pose proof (handle_flag X c w) as Hstep.
  destruct (Api.handle X c w) as [r w1]. cbn [fst snd] in *.
  specialize (IH w1).
  destruct (Api.serve X calls w1) as [rs w2]. cbn [fst snd] in *.
  unfold flag_after in *. cbn [foldl]. by rewrite IH, Hstep.
Qed.

Lemma serve_initialized_flag_witness :
  let replies := (Api.serve Demo.up
                    [Api.Startup;
                     Api.Initialize {| Api.force_recreate := true |};
                     Api.Health]
                    (Demo.with_documents [] Demo.indexed_world)).1 in
  map Api.initialised_by replies = [true; false; false]
  /\ st_initialized
       (app_state (Api.serve Demo.up
                     [Api.Startup;
                      Api.Initialize {| Api.force_recreate := true |};
                      Api.Health]
                     (Demo.with_documents [] Demo.indexed_world)).2) = true.
Proof.
  cbn zeta. split; [vm_compute; reflexivity|].
  rewrite (serve_initialized_flag Demo.up). vm_compute. reflexivity.
Defined.








(** Shut-down puts the process state back to its initial value, so the
    next chat request is refused as not initialised; the persisted index and
    the memories are left where they are. *)
Theorem shutdown_resets X request w :
  let w' := (Api.lifespan_shutdown w).2 in
  app_state w' = Api.initial_app_state
  /\ fs_index w' = fs_index w
  /\ memories w' = memories w
  /\ Api.chat X request w'
     = (Raise (HTTPException 400 "System not initialized. Please call /initialize first."),
        w').
Proof.
  cbn zeta. split; [done|]. split; [done|]. split; [done|].
  by apply chat_uninitialised.
Qed.

Lemma store_available_dec X force w :
  ((force = false /\ is_Some (fs_index w !! Config.VECTOR_STORE_DIRECTORY))
   \/ (indexed_chunks X w <> []
       /\ holds_client Config.VECTOR_STORE_DIRECTORY (store_ops w) = false))
  \/ ~ ((force = false /\ is_Some (fs_index w !! Config.VECTOR_STORE_DIRECTORY))
        \/ indexed_chunks X w <> [])
  \/ (~ (force = false /\ is_Some (fs_index w !! Config.VECTOR_STORE_DIRECTORY))
      /\ indexed_chunks X w <> []
      /\ holds_client Config.VECTOR_STORE_DIRECTORY (store_ops w) = true).
Proof.
  destruct force.
  - destruct (indexed_chunks X w) as [|c chunks].
    + right. left. by intros [[? _]|?].
    + destruct (holds_client Config.VECTOR_STORE_DIRECTORY (store_ops w)).
      * right. right. split; [by intros [? _]|done].
      * left. by right.
  - destruct (fs_index w !! Config.VECTOR_STORE_DIRECTORY) as [entries|].
    + left. left. eauto.
    + destruct (indexed_chunks X w) as [|c chunks].
      * right. left. intros [[_ [? ?]]|?]; done.
      * destruct (holds_client Config.VECTOR_STORE_DIRECTORY (store_ops w)).
        -- right. right. split; [by intros [_ [? ?]]|done].
        -- left. by right.
Qed.

(** When an initialize request succeeds: exactly when a store is there to
    use (a persisted index is reused, or the documents give at least one
    chunk and the process holds no client on the configured directory) and
    an API key is configured. *)
Theorem initialize_system_succeeds_iff X request w :
  (exists reply, (Api.initialize_system X request w).1 = Ok reply)
  <-> ((Api.force_recreate request = false
        /\ is_Some (fs_index w !! Config.VECTOR_STORE_DIRECTORY))
       \/ (indexed_chunks X w <> []
           /\ holds_client Config.VECTOR_STORE_DIRECTORY (store_ops w) = false))
      /\ truthy_opt truthy_str (GROQ_API_KEY X) = true.
Proof.
  destruct (initialize_rag_system_store_cases X (Api.force_recreate request) w)
    as (Hsome & Hnone & Hraise).
  destruct (Loader.initialize_rag_system X (Api.force_recreate request) w)
    as [[[vs|]|e] w1] eqn:Hrun; cbn [fst snd] in *.
  - rewrite (initialize_system_store X request w vs w1 Hrun), create_chatbot_run.
    assert (Hstore : (Api.force_recreate request = false
                      /\ is_Some (fs_index w !! Config.VECTOR_STORE_DIRECTORY))
                     \/ (indexed_chunks X w <> []
                         /\ holds_client Config.VECTOR_STORE_DIRECTORY (store_ops w)
                            = false)).
    { destruct (store_available_dec X (Api.force_recreate request) w)
        as [Hyes|[Hno|Hno]]; [done| |].
      - apply Hnone in Hno. discriminate Hno.
      - apply Hraise in Hno. discriminate Hno. }
    destruct (GROQ_API_KEY X) as [key|]; [destruct (truthy_str key) eqn:Hkey|]; cbn.
    + split; [by intros _|]. intros _. eexists. reflexivity.
    + split; [intros [? Habs]; discriminate Habs|]. intros [_ Habs]. congruence.
    + split; [intros [? Habs]; discriminate Habs|]. intros [_ Habs]. discriminate Habs.
  - rewrite (initialize_system_no_store X request w w1 Hrun). cbn [fst].
    split; [intros [? Habs]; discriminate Habs|]. intros [Hstore _].
    assert (Habs : @Ok (option VectorStore) None = Ok None) by done.
    apply Hnone in Habs. destruct Habs. destruct Hstore as [?|[? _]]; auto.
  - rewrite (initialize_system_loader_raises X request w e w1 Hrun). cbn [fst].
    split; [intros [? Habs]; discriminate Habs|]. intros [Hstore _].
    apply Hsome in Hstore. discriminate Hstore.
Qed.

Lemma initialize_system_succeeds_iff_witness :
  (exists reply,
     (Api.initialize_system Demo.up {| Api.force_recreate := false |}
        Demo.indexed_world).1 = Ok reply)
  /\ ~ (exists reply,
          (Api.initialize_system Demo.up {| Api.force_recreate := true |}
             Demo.indexed_world).1 = Ok reply).
Proof.
  split.
  - apply (proj2 (initialize_system_succeeds_iff Demo.up {| Api.force_recreate := false |}
                    Demo.indexed_world)).
    split; [|reflexivity]. left. split; [reflexivity|]. vm_compute. eauto.
  - intros Hok.
    apply (proj1 (initialize_system_succeeds_iff Demo.up {| Api.force_recreate := true |}
                    Demo.indexed_world)) in Hok as [[[Habs _]|[Habs _]] _].
    + discriminate Habs.
    + by apply Habs.
Defined.

(** Start-up never raises, whatever goes wrong in it; it reports success
    exactly when a store is there to use (a persisted index, or documents
    that give at least one chunk in a process that holds no client on the
    configured directory) and an API key is configured; and when it does not
    succeed the [initialized] flag is what it was. *)
Theorem lifespan_startup_outcome X w :
  exists b,
    (Api.lifespan_startup X w).1 = Ok b
    /\ (b = true
        <-> (is_Some (fs_index w !! Config.VECTOR_STORE_DIRECTORY)
             \/ (indexed_chunks X w <> []
                 /\ holds_client Config.VECTOR_STORE_DIRECTORY (store_ops w) = false))
            /\ truthy_opt truthy_str (GROQ_API_KEY X) = true)
    /\ (b = false ->
        st_initialized (app_state (Api.lifespan_startup X w).2)
        = st_initialized (app_state w)).
Proof.
  pose proof (lifespan_startup_flag X w) as Hflag.
  rewrite lifespan_startup_run in *.
  set (w0 := set_stdout _ w) in *.
  destruct (initialize_rag_system_store_cases X false w0) as (Hsome & Hnone & Hraise).
  change (fs_index w0) with (fs_index w) in Hsome, Hnone, Hraise.
  change (store_ops w0) with (store_ops w) in Hsome, Hnone, Hraise.
  change (indexed_chunks X w0) with (indexed_chunks X w) in Hsome, Hnone, Hraise.
  destruct (Loader.initialize_rag_system X false w0) as [[[vs|]|e] w1]; cbn [fst snd] in *.
  - assert (Hstore : is_Some (fs_index w !! Config.VECTOR_STORE_DIRECTORY)
                     \/ (indexed_chunks X w <> []
                         /\ holds_client Config.VECTOR_STORE_DIRECTORY (store_ops w)
                            = false)).
    { destruct (store_available_dec X false w) as [[[_ Hyes]|Hyes]|[Hno|Hno]]; auto.
      - apply Hnone in Hno. discriminate Hno.
      - apply Hraise in Hno. discriminate Hno. }
    rewrite create_chatbot_run in *.
    destruct (GROQ_API_KEY X) as [key|]; [destruct (truthy_str key) eqn:Hkey|];
      cbn [fst snd truthy_opt] in *.
    + exists true. split; [done|]. split; [|discriminate]. by rewrite Hkey.
    + exists false. split; [done|]. split.
      * rewrite Hkey. split; [discriminate|]. by intros [_ ?].
      * intros _. by destruct Hflag as [?|[_ ?]].
    + exists false. split; [done|]. split.
      * split; [discriminate|]. by intros [_ ?].
      * intros _. by destruct Hflag as [?|[_ ?]].
  - exists false. split; [done|]. split.
    + split; [discriminate|]. intros [Hstore _].
      assert (Habs : @Ok (option VectorStore) None = Ok None) by done.
      apply Hnone in Habs. destruct Habs. destruct Hstore as [?|[? _]]; [left|right]; auto.
    + intros _. by destruct Hflag as [?|[_ ?]].
  - exists false. split; [done|]. split.
    + split; [discriminate|]. intros [Hstore _].
      assert (Habs : @Raise (option VectorStore) e
                     = Ok (Some (chroma_handle Config.VECTOR_STORE_DIRECTORY)));
        [|discriminate Habs].
      apply Hsome. destruct Hstore as [?|?]; [left|right]; auto.
    + intros _. by destruct Hflag as [?|[_ ?]].
Qed.

(** ** Re-indexing in a serving process *)

Lemma create_vector_store_documents X chunks dir force w :
  fs_documents (Loader.create_vector_store X chunks dir force w).2 = fs_documents w.
Proof. create_vector_store_by_cases X chunks dir force w; done. Qed.

Lemma initialize_rag_system_documents X force w :
  is_Some (fs_documents w !! Config.DOCUMENT_DIRECTORY) ->
  fs_documents (Loader.initialize_rag_system X force w).2 = fs_documents w.
Proof.
  intros [files Hdir]. rewrite initialize_rag_system_run. cbn zeta.
  rewrite (load_documents_present X _ w files Hdir). cbn [snd].
  destruct (negb _ && force); [done|].
  rewrite create_vector_store_documents.
  by destruct (truthy_list (loaded_records X Config.DOCUMENT_DIRECTORY w)).
Qed.

Lemma indexed_chunks_documents X w :
  indexed_chunks X w <> [] -> is_Some (fs_documents w !! Config.DOCUMENT_DIRECTORY).
Proof.
  unfold indexed_chunks, loaded_records.
  destruct (fs_documents w !! Config.DOCUMENT_DIRECTORY); [eauto|done].
Qed.

(** Start-up on a persisted index opens it: the documents and the index
    are as they were, and the process now holds the client. *)
Lemma lifespan_startup_on_index X w :
  is_Some (fs_index w !! Config.VECTOR_STORE_DIRECTORY) ->
  is_Some (fs_documents w !! Config.DOCUMENT_DIRECTORY) ->
  let w1 := (Api.lifespan_startup X w).2 in
  fs_documents w1 = fs_documents w
  /\ fs_index w1 = fs_index w
  /\ store_ops w1 = store_ops w ++ [OpLoad Config.VECTOR_STORE_DIRECTORY].
Proof.
  intros Hsome Hdocs. cbn zeta. rewrite lifespan_startup_run.
  set (w0 := set_stdout _ w).
  pose proof (initialize_rag_system_documents X false w0 Hdocs) as Hdoc.
  destruct (initialize_rag_system_via_store X false w0) as (w0' & Hidx & Hops & Heq);
    [apply andb_false_r|].
  rewrite Heq in *.
  rewrite create_vector_store_load in * by (by rewrite Hidx).
  cbn [fst snd] in *. rewrite create_chatbot_run.
  destruct (GROQ_API_KEY X) as [key|]; [destruct (truthy_str key)|];
    cbn in *; by rewrite Hdoc, Hidx, Hops.
Qed.

Lemma initialize_system_stale X request w :
  indexed_chunks X w <> [] ->
  Api.force_recreate request = true \/ fs_index w !! Config.VECTOR_STORE_DIRECTORY = None ->
  holds_client Config.VECTOR_STORE_DIRECTORY (store_ops w) = true ->
  let r := Api.initialize_system X request w in
  r.1 = Raise (HTTPException 500
          ("Initialization failed: " +:+ readonly_database_message X))
  /\ fs_index r.2 = delete Config.VECTOR_STORE_DIRECTORY (fs_index w)
  /\ app_state r.2 = app_state w
  /\ memories r.2 = memories w.
Proof.
  intros Hne Hwhen Hheld. cbn zeta.
  destruct (initialize_rag_system_stale X (Api.force_recreate request) w Hne Hwhen Hheld)
    as (Hres & Hidx & _).
  destruct (initialize_rag_system_frame X (Api.force_recreate request) w) as (Ha & Hm & _).
  cbn zeta in Hres, Hidx, Ha, Hm.
  destruct (Loader.initialize_rag_system X (Api.force_recreate request) w)
    as [res w1] eqn:Hrun.
  cbn [fst snd] in *. subst res.
  by rewrite (initialize_system_loader_raises X request w _ w1 Hrun).
Qed.

(** An initialize request that has to build an index (the documents give
    chunks, and [force_recreate] is set or no index is persisted) in a
    process that holds the client of the configured directory: it fails
    with HTTP status 500 and the store's message, the persisted index is
    gone afterwards, and the process state and the memories are what they
    were, so an initialised process keeps its flag and its engine over a
    directory that holds no index. *)
Theorem reinitialize_in_serving_process X request w :
  indexed_chunks X w <> [] ->
  Api.force_recreate request = true \/ fs_index w !! Config.VECTOR_STORE_DIRECTORY = None ->
  holds_client Config.VECTOR_STORE_DIRECTORY (store_ops w) = true ->
  let r := Api.initialize_system X request w in
  r.1 = Raise (HTTPException 500
          ("Initialization failed: " +:+ readonly_database_message X))
  /\ fs_index r.2 = delete Config.VECTOR_STORE_DIRECTORY (fs_index w)
  /\ app_state r.2 = app_state w
  /\ memories r.2 = memories w.
Proof. apply initialize_system_stale. Qed.

Lemma reinitialize_in_serving_process_witness :
  let r := Api.initialize_system Demo.up {| Api.force_recreate := true |} Demo.started in
  r.1 = Raise (HTTPException 500
          "Initialization failed: attempt to write a readonly database")
  /\ fs_index r.2 !! "vector_store" = None
  /\ st_initialized (app_state r.2) = true.
Proof.
  cbn zeta.
  destruct (reinitialize_in_serving_process Demo.up {| Api.force_recreate := true |}
              Demo.started ltac:(vm_compute; discriminate) ltac:(by left)
              ltac:(vm_compute; reflexivity)) as (Hres & Hidx & Hstate & _).
  split; [exact Hres|]. split; [rewrite Hidx; apply lookup_delete_eq|].
  rewrite Hstate. reflexivity.
Defined.

(** On a server started on a persisted index, re-indexing never works: a
    start-up that finds the index opens it, and an initialize request with
    [force_recreate] that follows, with documents that give chunks, removes
    the index, fails with HTTP status 500 and leaves the process state as
    start-up left it. *)
Theorem forced_reinitialize_after_startup X w :
  is_Some (fs_index w !! Config.VECTOR_STORE_DIRECTORY) ->
  indexed_chunks X w <> [] ->
  let w1 := (Api.lifespan_startup X w).2 in
  let r := Api.initialize_system X {| Api.force_recreate := true |} w1 in
  fs_index w1 = fs_index w
  /\ r.1 = Raise (HTTPException 500
             ("Initialization failed: " +:+ readonly_database_message X))
  /\ fs_index r.2 !! Config.VECTOR_STORE_DIRECTORY = None
  /\ app_state r.2 = app_state w1.
Proof.
  intros Hsome Hne. cbn zeta.
  destruct (lifespan_startup_on_index X w Hsome (indexed_chunks_documents X w Hne))
    as (Hdocs & Hidx & Hops).
  cbn zeta in Hdocs, Hidx, Hops. split; [exact Hidx|].
  destruct (initialize_system_stale X {| Api.force_recreate := true |}
              (Api.lifespan_startup X w).2) as (Hres & Hgone & Hstate & _).
  - unfold indexed_chunks, loaded_records in *. by rewrite Hdocs.
  - by left.
  - rewrite Hops. apply holds_client_load.
  - cbn zeta in Hres, Hgone, Hstate. split; [exact Hres|]. split; [|exact Hstate].
    rewrite Hgone. apply lookup_delete_eq.
Qed.

Lemma forced_reinitialize_after_startup_witness :
  let w := Demo.with_documents [Demo.notes_txt] Demo.indexed_world in
  let w1 := (Api.lifespan_startup Demo.up w).2 in
  let r := Api.initialize_system Demo.up {| Api.force_recreate := true |} w1 in
  r.1 = Raise (HTTPException 500
          "Initialization failed: attempt to write a readonly database")
  /\ fs_index r.2 !! "vector_store" = None.
Proof.
  cbn zeta.
  destruct (forced_reinitialize_after_startup Demo.up
              (Demo.with_documents [Demo.notes_txt] Demo.indexed_world)
              ltac:(vm_compute; eauto) ltac:(vm_compute; discriminate))
    as (_ & Hres & Hgone & _).
  split; [exact Hres|exact Hgone].
Defined.

(** An initialisation that succeeds starts a new conversation: the engine
    now in the state owns an empty memory at a location that did not exist
    before, the memories of earlier engines stay as they were, and so, the
    rendered empty history being empty, the first question that follows is
    searched for exactly as asked, 3 entries at a time. *)
Theorem initialize_starts_new_conversation X request w reply w' :
  Api.initialize_system X request w = (Ok reply, w') ->
  exists chain,
    st_chain (app_state w') = Some chain
    /\ st_initialized (app_state w') = true
    /\ memories w !! memory chain = None
    /\ memories w' !! memory chain = Some []
    /\ (forall i buf, memories w !! i = Some buf -> memories w' !! i = Some buf)
    /\ (truthy_str (get_chat_history X []) = false ->
        forall chat_request,
          store_ops (Api.chat X chat_request w').2
          = store_ops w'
            ++ [OpSearch (persist_directory (vectorstore (retriever chain)))
                  (Api.request_question chat_request) Config.RETRIEVER_K]).
Proof.
  intros Hrun.
  destruct (initialize_system_ok X request w reply w' Hrun)
    as ((vs & chain & Hstate & Hvs & Hk & Hmem & Hmems & _) & _).
  assert (Hnew : memories w' !! memory chain = Some []).
  { rewrite Hmems, Hmem, lookup_app_r by done. by rewrite Nat.sub_diag. }
  exists chain. rewrite Hstate. cbn [st_chain st_initialized].
  split; [done|]. split; [done|].
  split; [rewrite Hmem; by apply lookup_ge_None_2|].
  split; [done|]. split.
  - intros i buf Hi. rewrite Hmems. by apply lookup_app_l_Some.
  - intros Hempty chat_request.
    rewrite (chat_run X chat_request w' chain) by (by rewrite Hstate).
    match goal with
    | |- context [Chatbot.invoke X chain ?i w'] =>
        assert (Hops : store_ops (Chatbot.invoke X chain i w').2
                       = store_ops w'
                         ++ [OpSearch (persist_directory (vectorstore (retriever chain)))
                               (Api.request_question chat_request) Config.RETRIEVER_K]);
        [|destruct (Chatbot.invoke X chain i w') as [[result|e] w1]]
    end.
    + rewrite invoke_first_turn by (by rewrite Hnew).
      match goal with
      | |- context [answer_from X chain ?i ?h ?q w'] =>
          destruct (answer_from_effects X chain i h q w') as (Hsearch & _)
      end.
      cbn zeta in Hsearch. by rewrite Hsearch, Hk.
    + cbn [fst snd] in *. by destruct (Api.format_sources X _).
    + done.
Qed.

Lemma initialize_starts_new_conversation_witness :
  exists reply w',
    Api.initialize_system Demo.up {| Api.force_recreate := false |} Demo.second_turn
      = (Ok reply, w')
    /\ memories w'
       = [[HumanMessage "What is the capital of France?"; AIMessage "Paris"]; []]
    /\ store_ops (Api.chat Demo.up
                    {| Api.request_question := "And of Italy?";
                       Api.request_chat_history := None |} w').2
       = store_ops w' ++ [OpSearch "vector_store" "And of Italy?" 3].
Proof.
  destruct (Api.initialize_system Demo.up {| Api.force_recreate := false |}
              Demo.second_turn) as [[reply|e] w'] eqn:Hrun;
    [|vm_compute in Hrun; discriminate].
  exists reply, w'. split; [reflexivity|].
  destruct (initialize_starts_new_conversation Demo.up _ _ reply w' Hrun)
    as (chain & Hchain & _ & _ & _ & _ & Hsearch).
  specialize (Hsearch eq_refl {| Api.request_question := "And of Italy?";
                                 Api.request_chat_history := None |}).
  assert (Hw : memories w'
               = [[HumanMessage "What is the capital of France?"; AIMessage "Paris"]; []]
               /\ st_chain (app_state w')
                  = Some {| llm := Demo.demo_llm;
                            retriever := {| vectorstore := Demo.demo_store;
                                            search_k := Config.RETRIEVER_K |};
                            combine_prompt := Chatbot.custom_prompt;
                            memory := 1;
                            return_source_documents := true |}).
  { vm_compute in Hrun. injection Hrun as _ <-. by split. }
  destruct Hw as (Hmem & Hstate). split; [exact Hmem|].
  rewrite Hstate in Hchain. injection Hchain as <-. exact Hsearch.
Defined.
